(** * RAG knowledge assistant: conversation orchestration engine

    A shallow embedding of the Python sources
      - core/config/enums.py, core/config/app_config.py
      - core/memory/memory_manager.py
      - core/security/privacy_filter.py
      - core/vector_store/chroma_store.py
      - core/llm/llm_service.py
    together with the properties of the engine that are proved (or refuted)
    about them.

    Conventions.
      - A Python [str] is a Rocq [string]; a character is a code point in
        U+0000..U+00FF.
      - A Python method that mutates [self] and may raise is a computation
        in the monad [M S A := S -> result A * S]: the state survives a
        raised exception, exactly as attribute assignments made before a
        [raise] stay visible in Python.
      - Calls that leave the repository (language model, vector index,
        web search, clock, uuid generator) take their outcome from an
        explicit environment argument, so that every theorem quantifies
        over all behaviours of the backends. *)

From Stdlib Require Import ZArith Lia Bool Ascii String List.
From Stdlib Require Import Sorted.
From stdpp Require Import base option list strings gmap.

Local Open Scope string_scope.
Local Open Scope list_scope.
Local Open Scope Z_scope.

(* ===================================================================== *)
(** ** Python values, exceptions and the state-and-exception monad        *)
(* ===================================================================== *)

(** Outcome of a Python call: a value, or a raised [Exception] carried as
    its [str(e)]. *)
Inductive result (A : Type) : Type :=
| Ok (a : A)
| Raise (e : string).
Arguments Ok {A} a.
Arguments Raise {A} e.

Definition is_ok {A} (r : result A) : bool :=
  match r with Ok _ => true | Raise _ => false end.

Definition M (S A : Type) : Type := S -> result A * S.

Definition ret {S A} (a : A) : M S A := fun s => (Ok a, s).
Definition raise {S A} (e : string) : M S A := fun s => (Raise e, s).
Definition bind {S A B} (m : M S A) (k : A -> M S B) : M S B :=
  fun s => match m s with
           | (Ok a, s') => k a s'
           | (Raise e, s') => (Raise e, s')
           end.
(** [try: body except Exception as e: handler e] *)
Definition try_except {S A} (body : M S A) (handler : string -> M S A) : M S A :=
  fun s => match body s with
           | (Ok a, s') => (Ok a, s')
           | (Raise e, s') => handler e s'
           end.
Definition gets {S A} (f : S -> A) : M S A := fun s => (Ok (f s), s).
Definition modify {S} (f : S -> S) : M S unit := fun s => (Ok tt, f s).
(** The outcome of a call into a backend, decided by the environment. *)
Definition extern {S A} (r : result A) : M S A := fun s => (r, s).
(** Run a method of a sub-object stored in a field of [self]. *)
Definition on_field {S T A} (proj : S -> T) (upd : T -> S -> S) (m : M T A) : M S A :=
  fun s => let '(r, t') := m (proj s) in (r, upd t' s).

(** [for x in l: body x] *)
Fixpoint for_each {S A} (l : list A) (body : A -> M S unit) : M S unit :=
  match l with
  | [] => ret tt
  | x :: l' => bind (body x) (fun _ => for_each l' body)
  end.

Declare Scope py_scope.
Delimit Scope py_scope with py.
Notation "x <- m ;; k" := (bind m (fun x => k))
  (at level 100, m at next level, right associativity) : py_scope.
Notation "m ;;; k" := (bind m (fun _ => k))
  (at level 100, right associativity) : py_scope.

(** Values found in a metadata dictionary. *)
Inductive PyVal : Type :=
| PyNone
| PyStr (s : string).

(** Python truthiness of such a value ([not v] is its negation). *)
Definition truthy (v : PyVal) : bool :=
  match v with
  | PyNone => false
  | PyStr s => negb (String.eqb s EmptyString)
  end.

(** [l[i:]] for a Python list and an integer [i] (negative indices count
    from the end; out-of-range indices are clamped). *)
Definition slice_from {A} (i : Z) (l : list A) : list A :=
  let len := Z.of_nat (length l) in
  let start := if i <? 0 then Z.max 0 (len + i) else Z.min i len in
  drop (Z.to_nat start) l.

(* ===================================================================== *)
(** ** core/config/enums.py                                               *)
(* ===================================================================== *)

Module ModelProvider.
Inductive t : Type := OPENAI | ANTHROPIC | GROQ | OLLAMA.
Definition value (p : t) : string :=
  match p with
  | OPENAI => "openai" | ANTHROPIC => "anthropic"
  | GROQ => "groq" | OLLAMA => "ollama"
  end.
Definition members : list t := [OPENAI; ANTHROPIC; GROQ; OLLAMA].
End ModelProvider.

Module EmbeddingProvider.
Inductive t : Type := HUGGINGFACE | OLLAMA.
Definition value (p : t) : string :=
  match p with HUGGINGFACE => "huggingface" | OLLAMA => "ollama" end.
End EmbeddingProvider.

Module AnswerMode.
Inductive t : Type := DEFAULT | RAG | WEB_SEARCH.
Definition value (m : t) : string :=
  match m with
  | DEFAULT => "default" | RAG => "rag" | WEB_SEARCH => "web_search"
  end.
Definition members : list t := [DEFAULT; RAG; WEB_SEARCH].
End AnswerMode.

Module MemoryMode.
Inductive t : Type := TRANSIENT | PERSISTENT.
Definition value (m : t) : string :=
  match m with TRANSIENT => "transient" | PERSISTENT => "persistent" end.
Definition eqb (a b : t) : bool :=
  match a, b with
  | TRANSIENT, TRANSIENT | PERSISTENT, PERSISTENT => true
  | _, _ => false
  end.
End MemoryMode.

(** [Enum(value)]: the member with that value, or [ValueError]. *)
Definition enum_of_value {E} (members : list E) (value : E -> string)
    (v : string) : option E :=
  List.find (fun m => String.eqb (value m) v) members.

(* ===================================================================== *)
(** ** core/config/app_config.py                                          *)
(* ===================================================================== *)

(** The class attributes of [AppConfig], fixed when the module is imported.
    [TAVILY_API_KEY] is read from the process environment. *)
Module AppConfig.
Record t : Type := {
  MEMORY_MESSAGE_LIMIT : Z;
  ENABLE_PRIVACY_FILTER : bool;
  TAVILY_API_KEY : option string;
  TAVILY_MAX_RESULTS : Z
}.
Definition load (getenv : string -> option string) : t :=
  {| MEMORY_MESSAGE_LIMIT := 10;
     ENABLE_PRIVACY_FILTER := true;
     TAVILY_API_KEY := getenv "TAVILY_API_KEY";
     TAVILY_MAX_RESULTS := 5 |}.
End AppConfig.

(** [not key] for a value returned by [os.getenv]. *)
Definition key_missing (k : option string) : bool :=
  match k with
  | None => true
  | Some s => String.eqb s EmptyString
  end.

(* ===================================================================== *)
(** ** core/config/model_config.py                                        *)
(* ===================================================================== *)

Module ModelConfig.
Record t : Type := {
  OPENAI_API_KEY : option string;
  ANTHROPIC_API_KEY : option string;
  GROQ_API_KEY : option string
}.
Definition DEFAULT_MODEL_PROVIDER : ModelProvider.t := ModelProvider.GROQ.
Definition load (getenv : string -> option string) : t :=
  {| OPENAI_API_KEY := getenv "OPENAI_API_KEY";
     ANTHROPIC_API_KEY := getenv "ANTHROPIC_API_KEY";
     GROQ_API_KEY := getenv "GROQ_API_KEY" |}.
End ModelConfig.

Module EmbeddingConfig.
Definition DEFAULT_EMBEDDING_PROVIDER : EmbeddingProvider.t :=
  EmbeddingProvider.HUGGINGFACE.
End EmbeddingConfig.

(* ===================================================================== *)
(** ** LangChain data: messages and documents                             *)
(* ===================================================================== *)

(** A chat message; [HumanMessage] has [type == "human"], [AIMessage] has
    [type == "ai"]. *)
Inductive BaseMessage : Type :=
| HumanMessage (content : string)
| AIMessage (content : string).

Definition msg_content (m : BaseMessage) : string :=
  match m with HumanMessage c | AIMessage c => c end.

Definition is_human (m : BaseMessage) : bool :=
  match m with HumanMessage _ => true | AIMessage _ => false end.

Record Document : Type := {
  page_content : string;
  metadata : gmap string PyVal
}.

(** The embedding clients of core/vector_store/chroma_store.py;
    [FallbackEmbeddings] is the hash-based class local to
    [_get_fallback_embeddings]. *)
Inductive Embeddings : Type :=
| HuggingFaceEmbeddings
| OllamaEmbeddings
| FallbackEmbeddings.

(* ===================================================================== *)
(** ** Python [str] operations used by the sources                        *)
(* ===================================================================== *)

Module Str.
Definition code (c : ascii) : N := N_of_ascii c.
Definition between (lo hi : N) (c : ascii) : bool :=
  ((lo <=? code c) && (code c <=? hi))%N.

(** [c.isspace()], which is also what [\s] matches in a [str] pattern:
    TAB..CR, FS..US and space, NEL, NBSP. *)
Definition isspace (c : ascii) : bool :=
  between 9 13 c || between 28 32 c || (code c =? 133)%N || (code c =? 160)%N.

(** What [\d] matches in a [str] pattern (below U+0100: 0-9 only). *)
Definition isdigit (c : ascii) : bool := between 48 57 c.

Definition isupper_ascii (c : ascii) : bool := between 65 90 c.
Definition islower_ascii (c : ascii) : bool := between 97 122 c.

(** What [\w] matches in a [str] pattern: alphanumerics of the code
    points below U+0100, and the underscore. *)
Definition isword (c : ascii) : bool :=
  isdigit c || isupper_ascii c || islower_ascii c || (code c =? 95)%N
  || (code c =? 170)%N || between 178 179 c || (code c =? 181)%N
  || between 185 186 c || between 188 190 c || between 192 214 c
  || between 216 246 c || between 248 255 c.

Fixpoint lstrip (s : string) : string :=
  match s with
  | String c t => if isspace c then lstrip t else s
  | EmptyString => EmptyString
  end.

Fixpoint rstrip (s : string) : string :=
  match s with
  | EmptyString => EmptyString
  | String c t =>
      match rstrip t with
      | EmptyString => if isspace c then EmptyString else String c EmptyString
      | t' => String c t'
      end
  end.

(** [s.strip()] *)
Definition strip (s : string) : string := rstrip (lstrip s).

(** [s.split(sep)] for a one-character separator: never empty. *)
Fixpoint split (sep : ascii) (s : string) : list string :=
  match s with
  | EmptyString => [EmptyString]
  | String c t =>
      if Ascii.eqb c sep then EmptyString :: split sep t
      else match split sep t with
           | h :: r => String c h :: r
           | [] => [String c EmptyString]
           end
  end.

(** [s.replace(a, b)] for one-character [a] and [b]. *)
Fixpoint replace (a b : ascii) (s : string) : string :=
  match s with
  | EmptyString => EmptyString
  | String c t => String (if Ascii.eqb c a then b else c) (replace a b t)
  end.

(** [ch in s] for a one-character [ch]. *)
Fixpoint contains_char (ch : ascii) (s : string) : bool :=
  match s with
  | EmptyString => false
  | String c t => Ascii.eqb c ch || contains_char ch t
  end.

(** [s[:n]] for [n >= 0]. *)
Fixpoint take (n : nat) (s : string) : string :=
  match n, s with
  | S n', String c t => String c (take n' t)
  | _, _ => EmptyString
  end.

(** [s[n:]] for [n >= 0]. *)
Fixpoint skip (n : nat) (s : string) : string :=
  match n, s with
  | S n', String _ t => skip n' t
  | _, _ => s
  end.

(** [s.startswith(p)] *)
Fixpoint startswith (p s : string) : bool :=
  match p, s with
  | EmptyString, _ => true
  | String a p', String b s' => Ascii.eqb a b && startswith p' s'
  | String _ _, EmptyString => false
  end.

(** [p in s] *)
Fixpoint contains (p s : string) : bool :=
  startswith p s ||
  match s with
  | EmptyString => false
  | String _ t => contains p t
  end.

(** [s.endswith(ch)] for a one-character [ch]. *)
Fixpoint endswith_char (ch : ascii) (s : string) : bool :=
  match s with
  | EmptyString => false
  | String c EmptyString => Ascii.eqb c ch
  | String _ t => endswith_char ch t
  end.

(** [s.rfind(ch)] for a one-character [ch]; -1 when [ch] is absent. *)
Fixpoint rfind (ch : ascii) (s : string) : Z :=
  match s with
  | EmptyString => -1
  | String c t =>
      let i := rfind ch t in
      if 0 <=? i then i + 1
      else if Ascii.eqb c ch then 0 else -1
  end.

(** The position a slice bound [i] denotes in a sequence of length [len]. *)
Definition bound (i : Z) (len : nat) : nat :=
  Z.to_nat (if i <? 0 then Z.max 0 (Z.of_nat len + i) else Z.min i (Z.of_nat len)).

(** [s[i:]] and [s[:i]] for any integer [i]. *)
Definition from (i : Z) (s : string) : string := skip (bound i (String.length s)) s.
Definition upto (i : Z) (s : string) : string := take (bound i (String.length s)) s.

(** [s.lower()] *)
Definition lower_char (c : ascii) : ascii :=
  if between 65 90 c || between 192 214 c || between 216 222 c
  then ascii_of_N (code c + 32) else c.
Fixpoint lower (s : string) : string :=
  match s with
  | EmptyString => EmptyString
  | String c t => String (lower_char c) (lower t)
  end.

(** [sep.join(parts)] *)
Fixpoint join (sep : string) (parts : list string) : string :=
  match parts with
  | [] => EmptyString
  | [p] => p
  | p :: rest => p +:+ sep +:+ join sep rest
  end.

(** [s.endswith(suffix)] *)
Fixpoint endswith (suffix s : string) : bool :=
  String.eqb suffix s ||
  match s with
  | EmptyString => false
  | String _ t => endswith suffix t
  end.

Definition newline : ascii := ascii_of_N 10.
Definition nl : string := String newline EmptyString.
End Str.

(* ===================================================================== *)
(** ** core/memory/memory_manager.py                                      *)
(* ===================================================================== *)

Module MemoryManager.

(** One entry of the ["messages"] list of a session file. *)
Record entry : Type := {
  role : string;
  content : string;
  timestamp : string
}.

(** The JSON object kept in [<sessions_dir>/<session_id>.json]. *)
Record session_data : Type := {
  session_id : string;
  created_at : string;
  updated_at : string;
  title : string;
  messages : list entry
}.

(** The attributes of a [MemoryManager].
    - [transient_memory] is [self.transient_memory.chat_memory.messages];
    - [persistent_memory] is [None] while the attribute does not exist
      ([hasattr] is false), else the documents of the Chroma collection;
    - [sessions_dir] maps a session id to the content of its file. *)
Record t : Type := {
  memory_mode : MemoryMode.t;
  transient_memory : list BaseMessage;
  embedding_function : option Embeddings;
  persistent_memory : option (list Document);
  sessions_dir : gmap string session_data
}.

Definition set_memory_mode (m : MemoryMode.t) (self : t) : t :=
  {| memory_mode := m; transient_memory := transient_memory self;
     embedding_function := embedding_function self;
     persistent_memory := persistent_memory self;
     sessions_dir := sessions_dir self |}.
Definition set_transient_memory (l : list BaseMessage) (self : t) : t :=
  {| memory_mode := memory_mode self; transient_memory := l;
     embedding_function := embedding_function self;
     persistent_memory := persistent_memory self;
     sessions_dir := sessions_dir self |}.
Definition set_persistent_memory (p : option (list Document)) (self : t) : t :=
  {| memory_mode := memory_mode self; transient_memory := transient_memory self;
     embedding_function := embedding_function self;
     persistent_memory := p;
     sessions_dir := sessions_dir self |}.
Definition set_sessions_dir (d : gmap string session_data) (self : t) : t :=
  {| memory_mode := memory_mode self; transient_memory := transient_memory self;
     embedding_function := embedding_function self;
     persistent_memory := persistent_memory self;
     sessions_dir := d |}.

(** What the outside world does during one append in persistent mode:
    the clock reading, the outcome of [Chroma.add_documents], and the
    outcome of opening the file of a session id for writing
    ([open(session_file, 'w')], which raises for instance when the id
    names a directory that does not exist, as ["a/b"] does). *)
Record persist_env : Type := {
  now : string;
  add_documents : result unit;
  write_file : string -> result unit
}.

Section Methods.
Variable cfg : AppConfig.t.

(** [_init_persistent_memory]; [chroma] is the outcome of the [Chroma]
    constructor (the documents of the collection it opens). *)
Definition _init_persistent_memory (chroma : result (list Document)) : M t unit :=
  try_except
    (ef <- gets embedding_function ;;
     match ef with
     | None => raise "Embedding function is required for persistent memory"
     | Some _ =>
         docs <- extern chroma ;;
         modify (set_persistent_memory (Some docs))
     end)%py
    (fun _ => modify (set_memory_mode MemoryMode.TRANSIENT)).

(** [__init__] *)
Definition init (memory_mode : MemoryMode.t) (embedding_function : option Embeddings)
    (chroma : result (list Document)) (files : gmap string session_data) : t :=
  let self := {| memory_mode := memory_mode; transient_memory := [];
                 embedding_function := embedding_function;
                 persistent_memory := None; sessions_dir := files |} in
  match memory_mode with
  | MemoryMode.PERSISTENT => snd (_init_persistent_memory chroma self)
  | MemoryMode.TRANSIENT => self
  end.

(** [change_memory_mode] *)
Definition change_memory_mode (chroma : result (list Document))
    (mode : MemoryMode.t) : M t bool :=
  (current <- gets memory_mode ;;
   if MemoryMode.eqb mode current then ret true
   else
     try_except
       (modify (set_memory_mode mode) ;;;
        pm <- gets persistent_memory ;;
        (if MemoryMode.eqb mode MemoryMode.PERSISTENT && negb (bool_decide (is_Some pm))
         then _init_persistent_memory chroma else ret tt) ;;;
        ret true)
       (fun _ => ret false))%py.

(** [_extract_title] *)
Definition _extract_title (content : string) : string :=
  let title := hd EmptyString (Str.split Str.newline (Str.strip content)) in
  if (30 <? String.length title)%nat then Str.take 27 title +:+ "..." else title.

(** [_update_session_metadata].  The directory holds the files this code
    wrote, so a file that exists is read back as it was dumped; whether
    the file can be opened for writing is the world's decision, and a
    refusal is caught by the [except] suite with nothing written. *)
Definition _update_session_metadata (w : persist_env)
    (session_id role content timestamp : string) : M t unit :=
  try_except
    (files <- gets sessions_dir ;;
     let session_data :=
       match files !! session_id with
       | Some d => d
       | None =>
           {| MemoryManager.session_id := session_id;
              created_at := timestamp;
              updated_at := timestamp;
              title := if String.eqb role "user" then _extract_title content
                       else "New Chat";
              messages := [] |}
       end in
     let msgs := messages session_data ++
                 [{| role := role; content := content; timestamp := timestamp |}] in
     let title' :=
       if (length msgs =? 1)%nat && String.eqb role "user"
       then _extract_title content else title session_data in
     let session_data' :=
       {| MemoryManager.session_id := MemoryManager.session_id session_data;
          created_at := created_at session_data;
          updated_at := timestamp;
          title := title';
          messages := msgs |} in
     extern (write_file w session_id) ;;;
     modify (set_sessions_dir (<[session_id := session_data']> files)))%py
    (fun _ => ret tt).

(** [_add_to_persistent_memory] *)
Definition _add_to_persistent_memory (w : persist_env)
    (role content session_id : string) : M t unit :=
  try_except
    (let timestamp := now w in
     let doc := {| page_content := content;
                   metadata := {[ "role" := PyStr role;
                                  "timestamp" := PyStr timestamp;
                                  "session_id" := PyStr session_id ]} |} in
     pm <- gets persistent_memory ;;
     match pm with
     | None => raise "'MemoryManager' object has no attribute 'persistent_memory'"
     | Some docs =>
         extern (add_documents w) ;;;
         modify (set_persistent_memory (Some (docs ++ [doc]))) ;;;
         _update_session_metadata w session_id role content timestamp
     end)%py
    (fun _ => ret tt).

(** [_trim_transient_memory] *)
Definition _trim_transient_memory : M t unit :=
  (messages <- gets transient_memory ;;
   if Z.of_nat (length messages) >? AppConfig.MEMORY_MESSAGE_LIMIT cfg
   then modify (set_transient_memory
                  (slice_from (- AppConfig.MEMORY_MESSAGE_LIMIT cfg) messages))
   else ret tt)%py.

(** [if self.memory_mode == PERSISTENT and session_id:] *)
Definition persists (self : t) (session_id : option string) : option string :=
  match memory_mode self, session_id with
  | MemoryMode.PERSISTENT, Some sid => if String.eqb sid EmptyString then None else Some sid
  | _, _ => None
  end.

(** [add_user_message] *)
Definition add_user_message (w : persist_env) (message : string)
    (session_id : option string) : M t unit :=
  (modify (fun self => set_transient_memory
             (transient_memory self ++ [HumanMessage message]) self) ;;;
   _trim_transient_memory ;;;
   target <- gets (fun self => persists self session_id) ;;
   match target with
   | Some sid => _add_to_persistent_memory w "user" message sid
   | None => ret tt
   end)%py.

(** [add_ai_message] *)
Definition add_ai_message (w : persist_env) (message : string)
    (session_id : option string) : M t unit :=
  (modify (fun self => set_transient_memory
             (transient_memory self ++ [AIMessage message]) self) ;;;
   _trim_transient_memory ;;;
   target <- gets (fun self => persists self session_id) ;;
   match target with
   | Some sid => _add_to_persistent_memory w "assistant" message sid
   | None => ret tt
   end)%py.

(** [get_chat_history] *)
Definition get_chat_history : M t (list BaseMessage) := gets transient_memory.

(** The [for message in session_data["messages"]] loop of [load_session]. *)
Definition replay (e : entry) : BaseMessage :=
  if String.eqb (role e) "user" then HumanMessage (content e)
  else AIMessage (content e).

(** [load_session] *)
Definition load_session (session_id : string) : M t bool :=
  (mode <- gets memory_mode ;;
   if negb (MemoryMode.eqb mode MemoryMode.PERSISTENT) then ret false
   else
     try_except
       (modify (set_transient_memory []) ;;;
        files <- gets sessions_dir ;;
        match files !! session_id with
        | None => ret false
        | Some session_data =>
            modify (fun self => set_transient_memory
                      (foldl (fun buf e => buf ++ [replay e])
                             (transient_memory self) (messages session_data)) self) ;;;
            _trim_transient_memory ;;;
            ret true
        end)
       (fun _ => ret false))%py.

(** [create_session]; [uuid] is [str(uuid.uuid4())]. *)
Definition create_session (uuid : string) : M t string := ret uuid.

End Methods.

(** One entry of the list [get_all_sessions] returns. *)
Module Summary.
Record t : Type := {
  session_id : string;
  title : string;
  created_at : string;
  updated_at : string;
  message_count : nat
}.
End Summary.

Definition summarise (session_data : session_data) : Summary.t :=
  {| Summary.session_id := session_id session_data;
     Summary.title := title session_data;
     Summary.created_at := created_at session_data;
     Summary.updated_at := updated_at session_data;
     Summary.message_count := length (messages session_data) |}.

(** [sessions.sort(key=lambda s: s["updated_at"], reverse=True)]: Python's
    sort is stable, also when reversed, so it is the insertion sort that
    puts an entry before the first one whose key is not greater. *)
Fixpoint insert_newest_first (x : Summary.t) (l : list Summary.t)
    : list Summary.t :=
  match l with
  | [] => [x]
  | y :: l' =>
      if String.ltb (Summary.updated_at x) (Summary.updated_at y)
      then y :: insert_newest_first x l'
      else x :: l
  end.

Definition sort_newest_first (l : list Summary.t) : list Summary.t :=
  foldr insert_newest_first [] l.

(** The session id of the file [<id>.json]. *)
Definition stem (filename : string) : string := Str.upto (-5) filename.

(** The body of the loop of [get_all_sessions]; its state is the local
    list [sessions].  Opening a listed file that is not there raises. *)
Definition read_summary (files : gmap string session_data) (filename : string)
    : M (list Summary.t) unit :=
  if Str.endswith ".json" filename then
    match files !! stem filename with
    | Some session_data =>
        modify (fun sessions => sessions ++ [summarise session_data])
    | None => raise ("[Errno 2] No such file or directory: '" +:+ filename +:+ "'")
    end
  else ret tt.

(** [get_all_sessions]; [listdir] is [os.listdir(self.sessions_dir)]. *)
Definition get_all_sessions (listdir : list string) : M t (list Summary.t) :=
  fun self =>
    let body : M (list Summary.t) unit :=
      try_except
        (for_each listdir (read_summary (sessions_dir self)) ;;;
         modify sort_newest_first)%py
        (fun _ => ret tt) in
    (Ok (snd (body [])), self).

(** What [Chroma.delete(where={"session_id": session_id})] keeps. *)
Definition of_other_session (session_id : string) (doc : Document) : bool :=
  match metadata doc !! "session_id" with
  | Some (PyStr s) => negb (String.eqb s session_id)
  | _ => true
  end.

(** [delete_session]; [chroma_delete] is the outcome of [Chroma.delete]. *)
Definition delete_session (chroma_delete : result unit) (session_id : string)
    : M t bool :=
  try_except
    (files <- gets sessions_dir ;;
     match files !! session_id with
     | Some _ => modify (set_sessions_dir (delete session_id files))
     | None => ret tt
     end ;;;
     pm <- gets persistent_memory ;;
     match pm with
     | Some docs =>
         extern chroma_delete ;;;
         modify (set_persistent_memory
                   (Some (List.filter (of_other_session session_id) docs)))
     | None => ret tt
     end ;;;
     ret true)%py
    (fun _ => ret false).

(** The body of the loop of [clear_all_sessions]: [os.remove] raises when
    the listed file is not there. *)
Definition remove_session_file (filename : string) : M t unit :=
  if Str.endswith ".json" filename then
    (files <- gets sessions_dir ;;
     match files !! stem filename with
     | Some _ => modify (set_sessions_dir (delete (stem filename) files))
     | None => raise ("[Errno 2] No such file or directory: '" +:+ filename +:+ "'")
     end)%py
  else ret tt.

(** [clear_all_sessions]; an empty [where] deletes all documents. *)
Definition clear_all_sessions (listdir : list string) (chroma_delete : result unit)
    : M t bool :=
  try_except
    (for_each listdir remove_session_file ;;;
     pm <- gets persistent_memory ;;
     match pm with
     | Some _ =>
         extern chroma_delete ;;;
         modify (set_persistent_memory (Some []))
     | None => ret tt
     end ;;;
     ret true)%py
    (fun _ => ret false).

End MemoryManager.

(* ===================================================================== *)
(** ** Python's [re]: the backtracking matcher on the constructs used     *)
(* ===================================================================== *)

Module Re.

(** Abstract syntax of the patterns of core/security/privacy_filter.py. *)
Inductive t : Type :=
| Class (p : ascii -> bool)                  (* one character of a class *)
| Boundary                                   (* \b *)
| Empty
| Cat (r1 r2 : t)                            (* r1 r2 *)
| Alt (r1 r2 : t)                            (* r1|r2, left first *)
| Repeat (r : t) (lo : nat) (hi : option nat). (* greedy r{lo,hi} *)

Definition chr (c : ascii) : t := Class (Ascii.eqb c).
Definition seq (rs : list t) : t := foldr Cat Empty rs.
Fixpoint lit (s : string) : t :=
  match s with
  | EmptyString => Empty
  | String c s' => Cat (chr c) (lit s')
  end.
Definition opt (r : t) : t := Repeat r 0 (Some 1%nat).
Definition plus (r : t) : t := Repeat r 1 None.
Definition exactly (n : nat) (r : t) : t := Repeat r n (Some n).

(** [\b] holds between a word and a non-word character; the two ends of
    the text count as non-word. *)
Definition word_before (prev : option ascii) : bool :=
  match prev with Some c => Str.isword c | None => false end.
Definition word_after (s : string) : bool :=
  match s with String c _ => Str.isword c | EmptyString => false end.
Definition at_boundary (prev : option ascii) (s : string) : bool :=
  xorb (word_before prev) (word_after s).

(** A matcher in continuation-passing style: [m prev s k] matches at a
    cursor whose preceding character is [prev] and whose remaining text is
    [s], then continues with [k]; the first success in backtracking order
    wins. *)
Definition matcher (X : Type) : Type :=
  option ascii -> string -> (option ascii -> string -> option X) -> option X.

(** Up to [e] further iterations of [body], greedily: one more iteration
    is tried before stopping. *)
Fixpoint may {X} (body : matcher X) (k : option ascii -> string -> option X)
    (e : nat) (prev : option ascii) (s : string) : option X :=
  match e with
  | O => k prev s
  | S e' =>
      match body prev s (fun prev' s' => may body k e' prev' s') with
      | Some x => Some x
      | None => k prev s
      end
  end.

(** [n] mandatory iterations of [body], then up to [extra] more. *)
Fixpoint must {X} (body : matcher X) (k : option ascii -> string -> option X)
    (extra : nat) (n : nat) (prev : option ascii) (s : string) : option X :=
  match n with
  | S n' => body prev s (fun prev' s' => must body k extra n' prev' s')
  | O => may body k extra prev s
  end.

(** The matcher of a pattern.  An unbounded repetition is bounded by the
    length of the text that remains where it starts. *)
Fixpoint run {X} (r : t) : matcher X :=
  fun prev s k =>
  match r with
  | Class p =>
      match s with
      | String c s' => if p c then k (Some c) s' else None
      | EmptyString => None
      end
  | Boundary => if at_boundary prev s then k prev s else None
  | Empty => k prev s
  | Cat r1 r2 => run r1 prev s (fun prev' s' => run r2 prev' s' k)
  | Alt r1 r2 =>
      match run r1 prev s k with
      | Some x => Some x
      | None => run r2 prev s k
      end
  | Repeat r lo hi =>
      let extra := match hi with
                   | Some h => (h - lo)%nat
                   | None => String.length s
                   end in
      must (run r) k extra lo prev s
  end.

(** The least number of characters a match of the pattern spans. *)
Fixpoint min_len (r : t) : nat :=
  match r with
  | Class _ => 1
  | Boundary | Empty => 0
  | Cat r1 r2 => min_len r1 + min_len r2
  | Alt r1 r2 => Nat.min (min_len r1) (min_len r2)
  | Repeat r lo _ => lo * min_len r
  end.

(** Length of the match of [r] that starts at the cursor, if any. *)
Definition match_here (r : t) (prev : option ascii) (s : string) : option nat :=
  run r prev s (fun _ s' => Some (String.length s - String.length s')%nat).

(** The non-overlapping matches of [r], scanning from the left, as
    [re.finditer] yields them.  [inside] counts the characters of the
    current match that are still to be skipped. *)
Fixpoint scan (r : t) (inside : nat) (prev : option ascii) (s : string)
    : list string :=
  match inside with
  | S i =>
      match s with
      | String c s' => scan r i (Some c) s'
      | EmptyString => []
      end
  | O =>
      match s with
      | String c s' =>
          match match_here r prev s with
          | Some n => Str.take n s :: scan r (n - 1) (Some c) s'
          | None => scan r 0 (Some c) s'
          end
      | EmptyString =>
          match match_here r prev s with
          | Some _ => [EmptyString]
          | None => []
          end
      end
  end.

(** [re.findall(r, text)], as the list of matched substrings.  (For a
    pattern with one group Python lists the group instead of the whole
    match; the list has the same length.) *)
Definition findall (r : t) (text : string) : list string := scan r 0 None text.

(** [re.search(r, text) is not None] *)
Definition search (r : t) (text : string) : bool :=
  match findall r text with [] => false | _ :: _ => true end.

(** [re.sub(r, repl, text)] for a replacement without group references. *)
Fixpoint subst (r : t) (repl : string) (inside : nat) (prev : option ascii)
    (s : string) : string :=
  match inside with
  | S i =>
      match s with
      | String c s' => subst r repl i (Some c) s'
      | EmptyString => EmptyString
      end
  | O =>
      match s with
      | String c s' =>
          match match_here r prev s with
          | Some O => repl +:+ String c (subst r repl 0 (Some c) s')
          | Some (S n) => repl +:+ subst r repl n (Some c) s'
          | None => String c (subst r repl 0 (Some c) s')
          end
      | EmptyString =>
          match match_here r prev s with
          | Some _ => repl
          | None => EmptyString
          end
      end
  end.

Definition sub (r : t) (repl : string) (text : string) : string :=
  subst r repl 0 None text.

End Re.

(* ===================================================================== *)
(** ** core/security/privacy_filter.py                                    *)
(* ===================================================================== *)

Module PrivacyFilter.
Import Re.

Record t : Type := { enable_filter : bool }.

Definition in_chars (set : string) (c : ascii) : bool := Str.contains_char c set.
Definition alnum (c : ascii) : bool :=
  Str.isupper_ascii c || Str.islower_ascii c || Str.isdigit c.
Definition digit : Re.t := Class Str.isdigit.

(** [\b[A-Za-z0-9._%+-]+@[A-Za-z0-9.-]+\.[A-Z|a-z]{2,}\b] *)
Definition email : Re.t :=
  seq [ Boundary;
        plus (Class (fun c => alnum c || in_chars "._%+-" c));
        chr "@";
        plus (Class (fun c => alnum c || in_chars ".-" c));
        chr ".";
        Repeat (Class (fun c => Str.isupper_ascii c || Str.islower_ascii c
                                || in_chars "|" c)) 2 None;
        Boundary ].

(** [\b(\+\d{1,3}[\s-]?)?\(?\d{3}\)?[\s.-]?\d{3}[\s.-]?\d{4}\b] *)
Definition phone : Re.t :=
  seq [ Boundary;
        opt (seq [ chr "+"; Repeat digit 1 (Some 3%nat);
                   opt (Class (fun c => Str.isspace c || in_chars "-" c)) ]);
        opt (chr "(");
        exactly 3 digit;
        opt (chr ")");
        opt (Class (fun c => Str.isspace c || in_chars ".-" c));
        exactly 3 digit;
        opt (Class (fun c => Str.isspace c || in_chars ".-" c));
        exactly 4 digit;
        Boundary ].

(** [\b(?:\d{4}[\s-]?){4}|\d{16}\b]: the alternation is at top level. *)
Definition credit_card : Re.t :=
  Alt (seq [ Boundary;
             exactly 4 (seq [ exactly 4 digit;
                              opt (Class (fun c => Str.isspace c || in_chars "-" c)) ]) ])
      (seq [ exactly 16 digit; Boundary ]).

(** [\b\d{3}[-]?\d{2}[-]?\d{4}\b] *)
Definition ssn : Re.t :=
  seq [ Boundary; exactly 3 digit; opt (chr "-"); exactly 2 digit;
        opt (chr "-"); exactly 4 digit; Boundary ].

(** [\b\d{1,3}\.\d{1,3}\.\d{1,3}\.\d{1,3}\b] *)
Definition ip_address : Re.t :=
  let octet := Repeat digit 1 (Some 3%nat) in
  seq [ Boundary; octet; chr "."; octet; chr "."; octet; chr "."; octet; Boundary ].

(** [\b[A-Za-z0-9_-]{20,60}\b] *)
Definition api_key : Re.t :=
  seq [ Boundary;
        Repeat (Class (fun c => alnum c || in_chars "_-" c)) 20 (Some 60%nat);
        Boundary ].

(** [https?://[^:]+:[^@]+@[^\s]+] *)
Definition url_with_credentials : Re.t :=
  seq [ lit "http"; opt (chr "s"); lit "://";
        plus (Class (fun c => negb (in_chars ":" c)));
        chr ":";
        plus (Class (fun c => negb (in_chars "@" c)));
        chr "@";
        plus (Class (fun c => negb (Str.isspace c))) ].

(** [self.patterns], in insertion order. *)
Definition patterns : list (string * Re.t) :=
  [ ("email", email); ("phone", phone); ("credit_card", credit_card);
    ("ssn", ssn); ("ip_address", ip_address); ("api_key", api_key);
    ("url_with_credentials", url_with_credentials) ].

(** The [if category == ... elif ...] chain of [filter_text]. *)
Definition mask (category : string) (pattern : Re.t) (filtered_text : string) : string :=
  if String.eqb category "email" then
    Re.sub pattern "[EMAIL REDACTED]" filtered_text
  else if String.eqb category "phone" then
    Re.sub pattern "[PHONE REDACTED]" filtered_text
  else if String.eqb category "credit_card" then
    Re.sub pattern "[CREDIT CARD REDACTED]" filtered_text
  else if String.eqb category "ssn" then
    Re.sub pattern "[SSN REDACTED]" filtered_text
  else if String.eqb category "ip_address" then
    Re.sub pattern "[IP ADDRESS REDACTED]" filtered_text
  else if String.eqb category "api_key" then
    Re.sub pattern "[API KEY REDACTED]" filtered_text
  else if String.eqb category "url_with_credentials" then
    Re.sub pattern "[URL WITH CREDENTIALS REDACTED]" filtered_text
  else filtered_text.

(** One iteration of the loop over [self.patterns.items()]; the state is
    [(filtered_text, has_sensitive_data)]. *)
Definition step (acc : string * bool) (item : string * Re.t) : string * bool :=
  let '(filtered_text, has_sensitive_data) := acc in
  let '(category, pattern) := item in
  match Re.findall pattern filtered_text with
  | [] => (filtered_text, has_sensitive_data)
  | _ :: _ => (mask category pattern filtered_text, true)
  end.

(** [filter_text] *)
Definition filter_text (self : t) (text : string) : string * bool :=
  if negb (enable_filter self) then (text, false)
  else foldl step (text, false) patterns.

Definition enable (self : t) : t := {| enable_filter := true |}.
Definition disable (self : t) : t := {| enable_filter := false |}.

(** One iteration of the loop of [get_sensitivity_report]. *)
Definition count (text : string) (report : gmap string nat)
    (item : string * Re.t) : gmap string nat :=
  let '(category, pattern) := item in
  match Re.findall pattern text with
  | [] => report
  | matches => <[category := length matches]> report
  end.

(** [get_sensitivity_report] *)
Definition get_sensitivity_report (self : t) (text : string) : gmap string nat :=
  foldl (count text) ∅ patterns.

End PrivacyFilter.

(* ===================================================================== *)
(** ** core/llm/prompts.py                                                *)
(* ===================================================================== *)

Module Prompts.
Definition dq : string := String (ascii_of_N 34) EmptyString.
Definition lines (l : list string) : string := Str.join Str.nl l.

(** [DEFAULT_PROMPT.format(question=question)] *)
Definition DEFAULT_PROMPT (question : string) : string :=
  lines [ EmptyString;
          "You are a helpful AI assistant. Answer the user's question to the best of your knowledge.";
          EmptyString;
          "Question: " +:+ question;
          EmptyString;
          "Answer:";
          EmptyString ].

(** [RAG_PROMPT.format(context=context, question=question)] *)
Definition RAG_PROMPT (context question : string) : string :=
  lines [ EmptyString;
          "You are a helpful AI assistant. Answer the user's question based ONLY on the following context:";
          EmptyString;
          "Context:";
          context;
          EmptyString;
          "Question: " +:+ question;
          EmptyString;
          "Instructions:";
          "1. Use ONLY information from the provided context";
          "2. If the context doesn't contain relevant information, say " +:+ dq
            +:+ "I don't have information about that in my knowledge base" +:+ dq;
          "3. Do not use any prior knowledge or make up information";
          "4. Include the source file name at the end of your response in the format: [Source: filename.txt]";
          EmptyString;
          "Answer:";
          EmptyString ].

(** [WEB_SEARCH_PROMPT.format(question=question, search_results=search_results)] *)
Definition WEB_SEARCH_PROMPT (question search_results : string) : string :=
  lines [ EmptyString;
          "You are a helpful AI assistant with access to real-time web search.";
          "I've searched the web for: " +:+ dq +:+ question +:+ dq +:+ " ";
          "Here are the search results:";
          EmptyString;
          search_results;
          EmptyString;
          "Based on these search results, please answer the original question: " +:+ question;
          EmptyString;
          "Instructions:";
          "1. Use information from the search results to provide a comprehensive answer";
          "2. Cite sources by including the full URLs in your response";
          "3. If the search results don't contain relevant information, say so and provide your best answer";
          "4. Always include the full source URLs at the end of your response in the format: [Sources: https://example.com, https://another-site.com]";
          EmptyString;
          "Answer:";
          EmptyString ].

(** The prompt written inline in [_get_web_search_response]. *)
Definition inline_web_search_prompt (question search_results : string) : string :=
  lines [ EmptyString;
          "You are a helpful AI assistant with access to real-time web search.";
          "I've searched the web for: " +:+ dq +:+ question +:+ dq +:+ " ";
          "Here are the search results:";
          EmptyString;
          search_results;
          EmptyString;
          "Based on these search results, please answer the original question: " +:+ question;
          EmptyString;
          "Instructions:";
          "1. Use information from the search results to provide a comprehensive answer";
          "2. DO NOT cite sources within your answer text - they will be added automatically at the end";
          "3. DO NOT mention URLs, source names, or phrases like " +:+ dq
            +:+ "according to..." +:+ dq +:+ " in your response";
          "4. If the search results don't contain relevant information, say so and provide your best answer";
          "5. Focus on providing factual information only";
          EmptyString;
          "Answer:";
          EmptyString ].
End Prompts.

(* ===================================================================== *)
(** ** core/vector_store/chroma_store.py                                  *)
(* ===================================================================== *)

Module VectorStore.

(** The attributes of a [VectorStore] the engine reads; the Chroma handle
    [self.vector_store] is reached through the environment. *)
Record t : Type := {
  path : string;
  embedding_provider : EmbeddingProvider.t;
  embeddings : option Embeddings
}.

Definition set_embedding_provider (p : EmbeddingProvider.t) (self : t) : t :=
  {| path := path self; embedding_provider := p; embeddings := embeddings self |}.
Definition set_embeddings (e : Embeddings) (self : t) : t :=
  {| path := path self; embedding_provider := embedding_provider self;
     embeddings := Some e |}.

(** What the outside world does while embeddings are initialised. *)
Record env : Type := {
  huggingface : result unit;        (* HuggingFaceEmbeddings(model_name=...) *)
  ollama_tags : result Z;           (* requests.get(".../api/tags").status_code *)
  ollama : result unit;             (* OllamaEmbeddings(model=..., base_url=...) *)
  initialize_db : result unit       (* the whole of _initialize_db *)
}.

Section Methods.
Variable w : env.

(** [_get_fallback_embeddings] *)
Definition _get_fallback_embeddings : M t Embeddings := ret FallbackEmbeddings.

(** [_initialize_ollama_embeddings] *)
Definition _initialize_ollama_embeddings : M t Embeddings :=
  try_except
    (status_code <- extern (ollama_tags w) ;;
     if status_code =? 200
     then (extern (ollama w) ;;; ret OllamaEmbeddings)
     else raise "Ollama server returned status code")%py
    (fun _ =>
       (p <- gets embedding_provider ;;
        match p with
        | EmbeddingProvider.OLLAMA => _get_fallback_embeddings
        | EmbeddingProvider.HUGGINGFACE => _get_fallback_embeddings
        end)%py).

(** [_initialize_embeddings] *)
Definition _initialize_embeddings : M t Embeddings :=
  try_except
    (p <- gets embedding_provider ;;
     match p with
     | EmbeddingProvider.HUGGINGFACE =>
         try_except
           (extern (huggingface w) ;;; ret HuggingFaceEmbeddings)
           (fun _ =>
              modify (set_embedding_provider EmbeddingProvider.OLLAMA) ;;;
              _initialize_ollama_embeddings)
     | EmbeddingProvider.OLLAMA => _initialize_ollama_embeddings
     end)%py
    (fun e => raise e).

(** [__init__] *)
Definition init (path : string) (embedding_provider : EmbeddingProvider.t)
    : result t :=
  let self := {| path := path; embedding_provider := embedding_provider;
                 embeddings := None |} in
  match (e <- _initialize_embeddings ;;
         modify (set_embeddings e) ;;;
         extern (initialize_db w))%py self with
  | (Ok _, self') => Ok self'
  | (Raise e, _) => Raise e
  end.

(** [change_embedding_provider] *)
Definition change_embedding_provider (provider : EmbeddingProvider.t) : M t bool :=
  try_except
    (modify (set_embedding_provider provider) ;;;
     e <- _initialize_embeddings ;;
     modify (set_embeddings e) ;;;
     extern (initialize_db w) ;;;
     ret true)%py
    (fun _ => ret false).

End Methods.

(** [_enhance_query_with_history] *)
Definition _enhance_query_with_history (query : string)
    (chat_history : list BaseMessage) : string :=
  match chat_history with
  | [] => query
  | _ :: _ =>
      let recent_history := slice_from (-6) chat_history in
      let history_context :=
        foldl (fun acc msg =>
                 acc +:+ (if is_human msg then "User" else "Assistant")
                     +:+ ": " +:+ msg_content msg +:+ Str.nl)
              ("Previous conversation:" +:+ Str.nl) recent_history in
      history_context +:+ Str.nl +:+ "Current question: " +:+ query
  end.

(** The embedding provider whose client an [Embeddings] object is; the
    hash-based fallback belongs to none. *)
Definition provider_of (e : Embeddings) : option EmbeddingProvider.t :=
  match e with
  | HuggingFaceEmbeddings => Some EmbeddingProvider.HUGGINGFACE
  | OllamaEmbeddings => Some EmbeddingProvider.OLLAMA
  | FallbackEmbeddings => None
  end.

End VectorStore.

(* ===================================================================== *)
(** ** core/llm/llm_service.py                                            *)
(* ===================================================================== *)

(** The chat-model clients the engine constructs; each is built from the
    constants of [ModelConfig]. *)
Inductive ChatModel : Type := ChatOpenAI | ChatAnthropic | ChatGroq | ChatOllama.

(** The prompt templates handed to [PromptTemplate(template=...)]. *)
Inductive Template : Type := T_DEFAULT | T_RAG | T_WEB_SEARCH.

(** The chains the engine builds. *)
Inductive Chain : Type :=
| LLMChain (llm : ChatModel) (template : Template) (input_variables : list string)
| ConversationalRetrievalChain (llm : ChatModel).

(** What [TavilySearch.invoke] may return. *)
Inductive SearchResults : Type :=
| SR_list (results : list (gmap string PyVal))
| SR_dict (results : option (list (gmap string PyVal)))   (* d.get('results') *)
| SR_str (s : string)
| SR_other (type_name : string).

Module LLM.

(** The attributes of an [LLM] engine.  [llm], [chain], [search_tool] are
    [None] while the attribute does not exist.  The legacy [self.memory]
    buffer is left out: it is handed to the retrieval chain only and no
    method of the engine reads it. *)
Record t : Type := {
  vector_store : VectorStore.t;
  model_provider : ModelProvider.t;
  answer_mode : AnswerMode.t;
  memory_mode : MemoryMode.t;
  session_id : option string;
  privacy_filter : PrivacyFilter.t;
  memory_manager : MemoryManager.t;
  llm : option ChatModel;
  chain : option Chain;
  search_tool : option unit
}.

Definition set_model_provider (p : ModelProvider.t) (self : t) : t :=
  {| vector_store := vector_store self; model_provider := p;
     answer_mode := answer_mode self; memory_mode := memory_mode self;
     session_id := session_id self; privacy_filter := privacy_filter self;
     memory_manager := memory_manager self; llm := llm self;
     chain := chain self; search_tool := search_tool self |}.
Definition set_answer_mode (m : AnswerMode.t) (self : t) : t :=
  {| vector_store := vector_store self; model_provider := model_provider self;
     answer_mode := m; memory_mode := memory_mode self;
     session_id := session_id self; privacy_filter := privacy_filter self;
     memory_manager := memory_manager self; llm := llm self;
     chain := chain self; search_tool := search_tool self |}.
Definition set_memory_mode (m : MemoryMode.t) (self : t) : t :=
  {| vector_store := vector_store self; model_provider := model_provider self;
     answer_mode := answer_mode self; memory_mode := m;
     session_id := session_id self; privacy_filter := privacy_filter self;
     memory_manager := memory_manager self; llm := llm self;
     chain := chain self; search_tool := search_tool self |}.
Definition set_session_id (i : option string) (self : t) : t :=
  {| vector_store := vector_store self; model_provider := model_provider self;
     answer_mode := answer_mode self; memory_mode := memory_mode self;
     session_id := i; privacy_filter := privacy_filter self;
     memory_manager := memory_manager self; llm := llm self;
     chain := chain self; search_tool := search_tool self |}.
Definition set_privacy_filter (f : PrivacyFilter.t) (self : t) : t :=
  {| vector_store := vector_store self; model_provider := model_provider self;
     answer_mode := answer_mode self; memory_mode := memory_mode self;
     session_id := session_id self; privacy_filter := f;
     memory_manager := memory_manager self; llm := llm self;
     chain := chain self; search_tool := search_tool self |}.
Definition set_memory_manager (mm : MemoryManager.t) (self : t) : t :=
  {| vector_store := vector_store self; model_provider := model_provider self;
     answer_mode := answer_mode self; memory_mode := memory_mode self;
     session_id := session_id self; privacy_filter := privacy_filter self;
     memory_manager := mm; llm := llm self;
     chain := chain self; search_tool := search_tool self |}.
Definition set_llm (c : ChatModel) (self : t) : t :=
  {| vector_store := vector_store self; model_provider := model_provider self;
     answer_mode := answer_mode self; memory_mode := memory_mode self;
     session_id := session_id self; privacy_filter := privacy_filter self;
     memory_manager := memory_manager self; llm := Some c;
     chain := chain self; search_tool := search_tool self |}.
Definition set_chain (c : Chain) (self : t) : t :=
  {| vector_store := vector_store self; model_provider := model_provider self;
     answer_mode := answer_mode self; memory_mode := memory_mode self;
     session_id := session_id self; privacy_filter := privacy_filter self;
     memory_manager := memory_manager self; llm := llm self;
     chain := Some c; search_tool := search_tool self |}.
Definition set_search_tool (self : t) : t :=
  {| vector_store := vector_store self; model_provider := model_provider self;
     answer_mode := answer_mode self; memory_mode := memory_mode self;
     session_id := session_id self; privacy_filter := privacy_filter self;
     memory_manager := memory_manager self; llm := llm self;
     chain := chain self; search_tool := Some tt |}.

(** Methods of [self.memory_manager], run on the engine. *)
Definition mm {A} (m : M MemoryManager.t A) : M t A :=
  on_field memory_manager set_memory_manager m.

(** What the outside world does while clients and chains are built. *)
Record build_env : Type := {
  chat_model : ChatModel -> result unit;   (* the client constructors *)
  ollama_test : result string;             (* ollama_instance.invoke("Test connection") *)
  make_chain : Chain -> result unit;       (* PromptTemplate + chain constructors *)
  tavily : result unit;                    (* TavilySearch(...) *)
  chroma : result (list Document);         (* Chroma(...) of the memory manager *)
  uuid4 : string                           (* str(uuid.uuid4()) *)
}.

(** What the outside world does while one query is answered. *)
Record query_env : Type := {
  on_user : MemoryManager.persist_env;     (* during add_user_message *)
  on_ai : MemoryManager.persist_env;       (* during add_ai_message of the answer *)
  on_error : MemoryManager.persist_env;    (* during add_ai_message of the error *)
  invoke_llm : ChatModel -> string -> result string;   (* llm.invoke(prompt).content *)
  similarity_search : string -> Z -> result (list Document);
  invoke_search : string -> result SearchResults;      (* search_tool.invoke(query) *)
  invoke_retrieval : ChatModel -> string -> result string
    (* ConversationalRetrievalChain.invoke(...)["answer"] *)
}.

(** An argument declared [str or E]. *)
Inductive arg (E : Type) : Type :=
| Str (s : string)
| Enum (e : E).
Arguments Str {E} s.
Arguments Enum {E} e.

(** Reading an attribute that may not exist. *)
Definition attr {A} (name : string) (f : t -> option A) : M t A :=
  fun self => match f self with
              | Some a => (Ok a, self)
              | None => (Raise ("'LLM' object has no attribute '" +:+ name +:+ "'"), self)
              end.

Section Methods.
Variable app : AppConfig.t.
Variable model : ModelConfig.t.

Section Build.
Variable b : build_env.

Definition construct (c : ChatModel) : M t ChatModel :=
  (extern (chat_model b c) ;;; ret c)%py.

(** [_initialize_llm].  Its last branch (default to Groq) needs a
    provider outside the enumeration and is not reachable here. *)
Definition _initialize_llm : M t ChatModel :=
  try_except
    (p <- gets model_provider ;;
     match p with
     | ModelProvider.OPENAI =>
         if key_missing (ModelConfig.OPENAI_API_KEY model)
         then raise "OpenAI API key not found. Please set OPENAI_API_KEY environment variable."
         else construct ChatOpenAI
     | ModelProvider.ANTHROPIC =>
         if key_missing (ModelConfig.ANTHROPIC_API_KEY model)
         then raise "Anthropic API key not found. Please set ANTHROPIC_API_KEY environment variable."
         else construct ChatAnthropic
     | ModelProvider.GROQ =>
         if key_missing (ModelConfig.GROQ_API_KEY model)
         then raise "Groq API key not found. Please set GROQ_API_KEY environment variable."
         else construct ChatGroq
     | ModelProvider.OLLAMA =>
         try_except
           (ollama_instance <- construct ChatOllama ;;
            extern (ollama_test b) ;;;
            ret ollama_instance)
           (fun _ =>
              modify (set_model_provider ModelProvider.GROQ) ;;;
              construct ChatGroq)
     end)%py
    (fun e => raise e).

(** [_initialize_default_chain] *)
Definition _initialize_default_chain : M t unit :=
  (l <- attr "llm" llm ;;
   let c := LLMChain l T_DEFAULT ["question"] in
   extern (make_chain b c) ;;;
   modify (set_chain c))%py.

(** [_initialize_rag_chain] *)
Definition _initialize_rag_chain : M t unit :=
  (l <- attr "llm" llm ;;
   let c := ConversationalRetrievalChain l in
   extern (make_chain b c) ;;;
   modify (set_chain c))%py.

(** [_initialize_web_search_chain] *)
Definition _initialize_web_search_chain : M t unit :=
  if key_missing (AppConfig.TAVILY_API_KEY app) then _initialize_default_chain
  else
    try_except
      (extern (tavily b) ;;;
       modify set_search_tool ;;;
       l <- attr "llm" llm ;;
       let c := LLMChain l T_WEB_SEARCH ["question"; "search_results"] in
       extern (make_chain b c) ;;;
       modify (set_chain c))%py
      (fun _ => _initialize_default_chain).

(** [_initialize_chain] *)
Definition _initialize_chain : M t unit :=
  (m <- gets answer_mode ;;
   match m with
   | AnswerMode.DEFAULT => _initialize_default_chain
   | AnswerMode.RAG => _initialize_rag_chain
   | AnswerMode.WEB_SEARCH => _initialize_web_search_chain
   end)%py.

(** [__init__] *)
Definition init (vector_store : VectorStore.t) (model_provider : ModelProvider.t)
    (answer_mode : AnswerMode.t) (memory_mode : MemoryMode.t)
    (files : gmap string MemoryManager.session_data) : result t :=
  let self :=
    {| vector_store := vector_store; model_provider := model_provider;
       answer_mode := answer_mode; memory_mode := memory_mode;
       session_id := None;
       privacy_filter :=
         {| PrivacyFilter.enable_filter := AppConfig.ENABLE_PRIVACY_FILTER app |};
       memory_manager :=
         MemoryManager.init memory_mode (VectorStore.embeddings vector_store)
           (chroma b) files;
       llm := None; chain := None; search_tool := None |} in
  match (l <- _initialize_llm ;;
         modify (set_llm l) ;;;
         _initialize_chain)%py self with
  | (Ok _, self') => Ok self'
  | (Raise e, _) => Raise e
  end.

(** [change_model_provider] *)
Definition change_model_provider (provider : arg ModelProvider.t) : M t bool :=
  try_except
    (let go (provider : ModelProvider.t) : M t bool :=
       (modify (set_model_provider provider) ;;;
        l <- _initialize_llm ;;
        modify (set_llm l) ;;;
        _initialize_chain ;;;
        ret true)%py in
     match provider with
     | Enum p => go p
     | Str s =>
         match enum_of_value ModelProvider.members ModelProvider.value s with
         | Some p => go p
         | None =>
             (* except ValueError: the for loop finds no member either *)
             match List.find (fun m => String.eqb (ModelProvider.value m) s)
                             ModelProvider.members with
             | Some p => go p
             | None => ret false
             end
         end
     end)
    (fun _ => ret false).

(** [change_answer_mode] *)
Definition change_answer_mode (mode : arg AnswerMode.t) : M t bool :=
  try_except
    (let go (mode : AnswerMode.t) : M t bool :=
       (modify (set_answer_mode mode) ;;;
        _initialize_chain ;;;
        ret true)%py in
     match mode with
     | Enum m => go m
     | Str s =>
         match enum_of_value AnswerMode.members AnswerMode.value s with
         | Some m => go m
         | None =>
             match List.find (fun m => String.eqb (AnswerMode.value m) s)
                             AnswerMode.members with
             | Some m => go m
             | None => ret false
             end
         end
     end)
    (fun _ => ret false).

(** [change_memory_mode] *)
Definition change_memory_mode (mode : MemoryMode.t) : M t bool :=
  try_except
    (success <- mm (MemoryManager.change_memory_mode (chroma b) mode) ;;
     (if success then
        modify (set_memory_mode mode) ;;;
        sid <- gets session_id ;;
        if MemoryMode.eqb mode MemoryMode.PERSISTENT
           && key_missing sid
        then
          new_id <- mm (MemoryManager.create_session (uuid4 b)) ;;
          modify (set_session_id (Some new_id))
        else ret tt
      else ret tt) ;;;
     ret success)%py
    (fun _ => ret false).

(** [toggle_privacy_filter] *)
Definition toggle_privacy_filter (enable : bool) : M t bool :=
  try_except
    (modify (fun self =>
               set_privacy_filter
                 (if enable then PrivacyFilter.enable (privacy_filter self)
                  else PrivacyFilter.disable (privacy_filter self)) self) ;;;
     ret true)%py
    (fun _ => ret false).

(** [create_new_session]; [None] is Python's [None]. *)
Definition create_new_session : M t (option string) :=
  try_except
    (new_id <- mm (MemoryManager.create_session (uuid4 b)) ;;
     modify (set_session_id (Some new_id)) ;;;
     mm (modify (MemoryManager.set_transient_memory [])) ;;;
     sid <- gets session_id ;;
     ret sid)%py
    (fun _ => ret None).

End Build.

Section Query.
Variable q : query_env.

(** The prompt of an [LLMChain], formatted with the inputs. *)
Definition format_template (tpl : Template) (inputs : gmap string string)
    : string :=
  let v (k : string) := default EmptyString (inputs !! k) in
  match tpl with
  | T_DEFAULT => Prompts.DEFAULT_PROMPT (v "question")
  | T_RAG => Prompts.RAG_PROMPT (v "context") (v "question")
  | T_WEB_SEARCH => Prompts.WEB_SEARCH_PROMPT (v "question") (v "search_results")
  end.

(** [chain.invoke(inputs)], as LangChain defines it: a chain first
    checks that each of its input keys is supplied and raises
    [ValueError] otherwise; an [LLMChain] then formats its prompt,
    calls its model and answers under the key ["text"]; a
    [ConversationalRetrievalChain] (whose [chat_history] comes from
    its memory) answers under the key ["answer"]. *)
Definition chain_invoke (c : Chain) (inputs : gmap string string)
    : M t (gmap string string) :=
  match c with
  | LLMChain l tpl input_variables =>
      match List.filter (fun k => negb (bool_decide (is_Some (inputs !! k))))
                        input_variables with
      | [] =>
          (text <- extern (invoke_llm q l (format_template tpl inputs)) ;;
           ret (<["text" := text]> inputs))%py
      | missing =>
          raise ("Missing some input keys: {"
                 +:+ Str.join ", " (map (fun k => "'" +:+ k +:+ "'") missing)
                 +:+ "}")
      end
  | ConversationalRetrievalChain l =>
      match inputs !! "question" with
      | Some question =>
          (answer <- extern (invoke_retrieval q l question) ;;
           ret (<["answer" := answer]> inputs))%py
      | None => raise "Missing some input keys: {'question'}"
      end
  end.

(** [_get_default_response] *)
Definition _get_default_response (query : string) : M t string :=
  (c <- attr "chain" chain ;;
   response <- chain_invoke c {[ "question" := query ]} ;;
   match response !! "text" with
   | Some text => ret text
   | None => raise "'text'"
   end)%py.

(** The body of the [for doc in docs] loop of [_get_rag_response] that
    maintains [sources]. *)
Definition cite (sources : list string) (doc : Document) : list string :=
  match metadata doc !! "source" with
  | None => sources
  | Some source =>
      match source with
      | PyNone => sources
      | PyStr source =>
          if String.eqb source EmptyString
             || bool_decide (source ∈ ["context.txt"; "filename.txt"; "None"])
          then sources
          else
            let source :=
              if Str.contains_char "/" source || Str.contains_char "\" source
              then List.last (Str.split "/" (Str.replace "\" "/" source)) EmptyString
              else source in
            if bool_decide (source ∈ sources) then sources
            else sources ++ [source]
      end
  end.

(** Removal of a citation the model wrote itself. *)
Definition drop_model_citation (content : string) : string :=
  if Str.endswith_char "]" (Str.strip content)
     && Str.contains "[Source" (Str.from (Str.rfind "[" content) content)
  then Str.strip (Str.upto (Str.rfind "[" content) content)
  else content.

(** The citation block appended to a RAG answer. *)
Definition add_sources (content : string) (sources : list string) : string :=
  match sources with
  | [] => content
  | [source] => content +:+ Str.nl +:+ Str.nl +:+ "[Source: " +:+ source +:+ "]"
  | _ => content +:+ Str.nl +:+ Str.nl +:+ "[Sources: "
           +:+ Str.join ", " sources +:+ "]"
  end.

(** [_get_rag_response] *)
Definition _get_rag_response (query : string) : M t string :=
  (chat_history <- mm MemoryManager.get_chat_history ;;
   docs <- extern (similarity_search q
                     (VectorStore._enhance_query_with_history query chat_history) 4) ;;
   let context_parts := map page_content docs in
   let sources := foldl cite [] docs in
   let context := Str.join (Str.nl +:+ Str.nl) context_parts in
   let formatted_prompt := Prompts.RAG_PROMPT context query in
   l <- attr "llm" llm ;;
   content <- extern (invoke_llm q l formatted_prompt) ;;
   ret (add_sources (drop_model_citation content) sources))%py.

(** [str(d.get(key, default))] inside an f-string. *)
Definition get_str (d : gmap string PyVal) (key default : string) : string :=
  match d !! key with
  | Some (PyStr s) => s
  | Some PyNone => "None"
  | None => default
  end.

Definition format_result (result : gmap string PyVal) : string :=
  "Title: " +:+ get_str result "title" "No title" +:+ Str.nl
  +:+ "Content: " +:+ get_str result "content" "No content" +:+ Str.nl +:+ "---".

(** [[r.get('url', '') for r in results if r.get('url')]] *)
Definition urls_of (results : list (gmap string PyVal)) : list string :=
  omap (fun r => match r !! "url" with
                 | Some (PyStr s) => if String.eqb s EmptyString then None else Some s
                 | _ => None
                 end) results.

(** [_get_web_search_response] *)
Definition _get_web_search_response (query : string) : M t string :=
  try_except
    (attr "search_tool" search_tool ;;;
     search_results <- extern (invoke_search q query) ;;
     formatted_results <-
       match search_results with
       | SR_list results => ret (map format_result results)
       | SR_dict (Some results) => ret (map format_result results)
       | SR_dict None => raise "Unexpected search results format: <class 'dict'>"
       | SR_str s => ret [s]
       | SR_other ty => raise ("Unexpected search results format: " +:+ ty)
       end ;;
     let all_results := Str.join (Str.nl +:+ Str.nl) formatted_results in
     let formatted_prompt := Prompts.inline_web_search_prompt query all_results in
     l <- attr "llm" llm ;;
     result <- extern (invoke_llm q l formatted_prompt) ;;
     let urls :=
       match search_results with
       | SR_list results | SR_dict (Some results) => urls_of results
       | _ => []
       end in
     match urls with
     | [] => ret result
     | _ :: _ =>
         let result :=
           if Str.endswith_char "]" (Str.strip result) then
             let last_bracket := Str.rfind "[" result in
             if (0 <? last_bracket)
                && Str.contains "source" (Str.lower (Str.from last_bracket result))
             then Str.strip (Str.upto last_bracket result)
             else result
           else result in
         ret (result +:+ Str.nl +:+ Str.nl +:+ "[Sources: "
              +:+ Str.join ", " urls +:+ "]")
     end)%py
    (fun _ => _get_default_response query).

(** The [try] suite of [get_response]. *)
Definition get_response_try (query : string) : M t (string * bool) :=
  (pf <- gets privacy_filter ;;
   let '(filtered_query, has_sensitive_data) :=
     PrivacyFilter.filter_text pf query in
   chat_history <- mm MemoryManager.get_chat_history ;;
   sid <- gets session_id ;;
   mm (MemoryManager.add_user_message app (on_user q) filtered_query sid) ;;;
   mode <- gets answer_mode ;;
   response <-
     match mode with
     | AnswerMode.DEFAULT => _get_default_response filtered_query
     | AnswerMode.RAG => _get_rag_response filtered_query
     | AnswerMode.WEB_SEARCH => _get_web_search_response filtered_query
     end ;;
   sid <- gets session_id ;;
   mm (MemoryManager.add_ai_message app (on_ai q) response sid) ;;;
   ret (response, has_sensitive_data))%py.

(** [error_msg] of the [except] suite, for [str(e) = e]. *)
Definition error_msg (e : string) : string :=
  "I encountered an error processing your request: " +:+ e.

(** The [except Exception as e] suite of [get_response]. *)
Definition get_response_except (e : string) : M t (string * bool) :=
  (sid <- gets session_id ;;
   mm (MemoryManager.add_ai_message app (on_error q) (error_msg e) sid) ;;;
   ret (error_msg e, false))%py.

(** [get_response] *)
Definition get_response (query : string) : M t (string * bool) :=
  try_except (get_response_try query) get_response_except.

End Query.

(** [load_session] *)
Definition load_session (session_id : string) : M t bool :=
  try_except
    (success <- mm (MemoryManager.load_session app session_id) ;;
     (if success then modify (set_session_id (Some session_id)) else ret tt) ;;;
     ret success)%py
    (fun _ => ret false).

(** [get_all_sessions] *)
Definition get_all_sessions (listdir : list string)
    : M t (list MemoryManager.Summary.t) :=
  try_except (mm (MemoryManager.get_all_sessions listdir)) (fun _ => ret []).

(** [delete_session] *)
Definition delete_session (chroma_delete : result unit) (session_id : string)
    : M t bool :=
  try_except
    (success <- mm (MemoryManager.delete_session chroma_delete session_id) ;;
     current <- gets LLM.session_id ;;
     (if success && bool_decide (current = Some session_id) then
        modify (set_session_id None) ;;;
        mm (modify (MemoryManager.set_transient_memory []))
      else ret tt) ;;;
     ret success)%py
    (fun _ => ret false).

(** [clear_all_sessions] *)
Definition clear_all_sessions (listdir : list string) (chroma_delete : result unit)
    : M t bool :=
  try_except
    (success <- mm (MemoryManager.clear_all_sessions listdir chroma_delete) ;;
     (if success then
        modify (set_session_id None) ;;;
        mm (modify (MemoryManager.set_transient_memory []))
      else ret tt) ;;;
     ret success)%py
    (fun _ => ret false).

End Methods.
End LLM.


(* ===================================================================== *)
(** ** core/config/storage_config.py and core/storage/document_processor.py *)
(* ===================================================================== *)

Module StorageConfig.
Definition SUPPORTED_FILE_TYPES : list string :=
  [".txt"; ".pdf"; ".csv"; ".md"; ".html"].
End StorageConfig.

Module DocumentProcessor.

(** [os.path.splitext] on a POSIX system: the extension starts at the last
    dot of the last path component, unless that component has nothing but
    dots before it. *)
Definition splitext (p : string) : string * string :=
  let sepIndex := Str.rfind "/" p in
  let dotIndex := Str.rfind "." p in
  if sepIndex <? dotIndex then
    (* the while loop looks for a character other than a dot in
       p[sepIndex+1:dotIndex] *)
    let before := Str.from (sepIndex + 1) (Str.upto dotIndex p) in
    if forallb (Ascii.eqb ".") (list_ascii_of_string before)
    then (p, EmptyString)
    else (Str.upto dotIndex p, Str.from dotIndex p)
  else (p, EmptyString).

(** The document loaders of LangChain. *)
Inductive Loader : Type :=
| PyPDFLoader | TextLoader | CSVLoader
| UnstructuredMarkdownLoader | UnstructuredHTMLLoader.

(** The [if/elif] chain of [load_document]. *)
Definition loader_for (file_extension : string) : option Loader :=
  if String.eqb file_extension ".pdf" then Some PyPDFLoader
  else if String.eqb file_extension ".txt" then Some TextLoader
  else if String.eqb file_extension ".csv" then Some CSVLoader
  else if String.eqb file_extension ".md" then Some UnstructuredMarkdownLoader
  else if String.eqb file_extension ".html" then Some UnstructuredHTMLLoader
  else None.

(** [load_document]; [load] is what constructing the loader on the path
    and calling [loader.load()] gives. *)
Definition load_document (load : Loader -> string -> result (list Document))
    (file_path : string) : result (list Document) :=
  let file_extension := Str.lower (snd (splitext file_path)) in
  match loader_for file_extension with
  | Some loader => load loader file_path
  | None => Raise ("Unsupported file type: " +:+ file_extension)
  end.

(** The extension test of [upload_document] in api/routers/documents.py. *)
Definition accepted_upload (filename : string) : bool :=
  bool_decide (Str.lower (snd (splitext filename))
               ∈ StorageConfig.SUPPORTED_FILE_TYPES).

End DocumentProcessor.

(* ===================================================================== *)
(** ** Vocabulary of the properties                                       *)
(* ===================================================================== *)

(** The [n] most recent elements of a sequence, oldest first. *)
Definition most_recent {A} (n : nat) (l : list A) : list A :=
  drop (length l - n)%nat l.

(** One append to the memory manager, with what the outside world does
    while it runs. *)
Inductive append : Type :=
| AddUser (w : MemoryManager.persist_env) (message : string) (session_id : option string)
| AddAi (w : MemoryManager.persist_env) (message : string) (session_id : option string).

Definition appended (a : append) : BaseMessage :=
  match a with
  | AddUser _ message _ => HumanMessage message
  | AddAi _ message _ => AIMessage message
  end.

Definition do_append (cfg : AppConfig.t) (a : append) : M MemoryManager.t unit :=
  match a with
  | AddUser w message sid => MemoryManager.add_user_message cfg w message sid
  | AddAi w message sid => MemoryManager.add_ai_message cfg w message sid
  end.

(** The manager after a sequence of appends. *)
Definition run_appends (cfg : AppConfig.t) (ops : list append)
    (self : MemoryManager.t) : MemoryManager.t :=
  foldl (fun s a => snd (do_append cfg a s)) self ops.

(** Every append of the sequence returned normally. *)
Fixpoint all_return (cfg : AppConfig.t) (ops : list append)
    (self : MemoryManager.t) : bool :=
  match ops with
  | [] => true
  | a :: ops' =>
      is_ok (fst (do_append cfg a self))
      && all_return cfg ops' (snd (do_append cfg a self))
  end.

(** Each element once, in the order of first occurrence. *)
Fixpoint first_seen (l : list string) : list string :=
  match l with
  | [] => []
  | x :: l' => x :: filter (fun y => y <> x) (first_seen l')
  end.

(** An identifier that is empty or one of the sentinel placeholders. *)
Definition placeholder (source : string) : bool :=
  String.eqb source EmptyString || String.eqb source "context.txt"
  || String.eqb source "filename.txt" || String.eqb source "None".

Definition is_sep (c : ascii) : bool := Ascii.eqb c "/" || Ascii.eqb c "\".

Fixpoint has_sep (s : string) : bool :=
  match s with
  | EmptyString => false
  | String c t => is_sep c || has_sep t
  end.

(** The final path segment of an identifier: what follows its last
    separator, the identifier itself when it has none. *)
Fixpoint final_segment (s : string) : string :=
  match s with
  | EmptyString => EmptyString
  | String c t => if is_sep c || has_sep t then final_segment t else s
  end.

(** The identifier a retrieved passage contributes to the citation list:
    none when its metadata has no source, or an empty or placeholder one. *)
Definition cited (doc : Document) : option string :=
  match metadata doc !! "source" with
  | Some (PyStr source) =>
      if placeholder source then None else Some (final_segment source)
  | _ => None
  end.

(** A passage whose metadata names [source]. *)
Definition passage (content source : string) : Document :=
  {| page_content := content; metadata := {[ "source" := PyStr source ]} |}.

(** The provider a chat-model client talks to. *)
Definition client_provider (c : ChatModel) : ModelProvider.t :=
  match c with
  | ChatOpenAI => ModelProvider.OPENAI
  | ChatAnthropic => ModelProvider.ANTHROPIC
  | ChatGroq => ModelProvider.GROQ
  | ChatOllama => ModelProvider.OLLAMA
  end.

(** The four mode-switch setters of the engine. *)
Inductive setter : Type :=
| ChangeAnswerMode (mode : LLM.arg AnswerMode.t)
| ChangeModelProvider (provider : LLM.arg ModelProvider.t)
| ChangeMemoryMode (mode : MemoryMode.t)
| TogglePrivacyFilter (enable : bool).

Definition run_setter (app : AppConfig.t) (model : ModelConfig.t)
    (b : LLM.build_env) (op : setter) : M LLM.t bool :=
  match op with
  | ChangeAnswerMode mode => LLM.change_answer_mode app b mode
  | ChangeModelProvider provider => LLM.change_model_provider app model b provider
  | ChangeMemoryMode mode => LLM.change_memory_mode b mode
  | TogglePrivacyFilter enable => LLM.toggle_privacy_filter enable
  end.

(** The requested value names no member of the enumeration. *)
Definition invalid_value (op : setter) : bool :=
  match op with
  | ChangeAnswerMode (LLM.Str s) =>
      negb (bool_decide (is_Some (enum_of_value AnswerMode.members AnswerMode.value s)))
  | ChangeModelProvider (LLM.Str s) =>
      negb (bool_decide (is_Some (enum_of_value ModelProvider.members ModelProvider.value s)))
  | _ => false
  end.

(* ===================================================================== *)
(** ** Concrete configurations used to exercise the statements            *)
(* ===================================================================== *)

(** A process environment with no variable set, and one that sets the
    keys of Groq and Tavily. *)
Definition no_keys : string -> option string := fun _ => None.
Definition groq_and_tavily : string -> option string :=
  fun name => if String.eqb name "GROQ_API_KEY" then Some "gsk-test"
              else if String.eqb name "TAVILY_API_KEY" then Some "tvly-test"
              else None.

(** A world in which the persistent store accepts every document. *)
Definition calm : MemoryManager.persist_env :=
  {| MemoryManager.now := "2024-05-01T10:00:00";
     MemoryManager.add_documents := Ok tt;
     MemoryManager.write_file := fun _ => Ok tt |}.

(** A world in which the sessions directory has no subdirectory: the file
    of a session id that contains a slash cannot be opened for writing. *)
Definition no_subdirectories : MemoryManager.persist_env :=
  {| MemoryManager.now := "2024-05-01T10:00:00";
     MemoryManager.add_documents := Ok tt;
     MemoryManager.write_file :=
       fun session_id =>
         if Str.contains_char "/" session_id
         then Raise "No such file or directory" else Ok tt |}.

(** A session file holding one exchange. *)
Definition hello_session : MemoryManager.session_data :=
  {| MemoryManager.session_id := "s-1";
     MemoryManager.created_at := "2024-05-01T10:00:00";
     MemoryManager.updated_at := "2024-05-01T10:00:05";
     MemoryManager.title := "hello";
     MemoryManager.messages :=
       [ {| MemoryManager.role := "user"; MemoryManager.content := "hello";
            MemoryManager.timestamp := "2024-05-01T10:00:00" |};
         {| MemoryManager.role := "assistant"; MemoryManager.content := "hi";
            MemoryManager.timestamp := "2024-05-01T10:00:05" |} ] |}.

(** A manager in persistent mode whose buffer holds an earlier exchange. *)
Definition busy_manager : MemoryManager.t :=
  {| MemoryManager.memory_mode := MemoryMode.PERSISTENT;
     MemoryManager.transient_memory := [HumanMessage "earlier"; AIMessage "reply"];
     MemoryManager.embedding_function := Some HuggingFaceEmbeddings;
     MemoryManager.persistent_memory := Some [];
     MemoryManager.sessions_dir := {[ "s-1" := hello_session ]} |}.

(** Twelve appends, numbered. *)
Definition twelve_appends : list append :=
  [ AddUser calm "q1" None; AddAi calm "a1" None; AddUser calm "q2" None;
    AddAi calm "a2" None; AddUser calm "q3" None; AddAi calm "a3" None;
    AddUser calm "q4" None; AddAi calm "a4" None; AddUser calm "q5" None;
    AddAi calm "a5" None; AddUser calm "q6" None; AddAi calm "a6" None ].

(** A second session file, updated later than the first, and a manager
    that holds both. *)
Definition later_session : MemoryManager.session_data :=
  {| MemoryManager.session_id := "s-2";
     MemoryManager.created_at := "2024-05-02T09:00:00";
     MemoryManager.updated_at := "2024-05-02T09:30:00";
     MemoryManager.title := "New Chat";
     MemoryManager.messages :=
       [ {| MemoryManager.role := "assistant"; MemoryManager.content := "welcome";
            MemoryManager.timestamp := "2024-05-02T09:30:00" |} ] |}.

Definition archive : MemoryManager.t :=
  {| MemoryManager.memory_mode := MemoryMode.PERSISTENT;
     MemoryManager.transient_memory := [HumanMessage "earlier"; AIMessage "reply"];
     MemoryManager.embedding_function := Some HuggingFaceEmbeddings;
     MemoryManager.persistent_memory :=
       Some [ {| page_content := "hello";
                 metadata := {[ "session_id" := PyStr "s-1" ]} |};
              {| page_content := "welcome";
                 metadata := {[ "session_id" := PyStr "s-2" ]} |} ];
     MemoryManager.sessions_dir :=
       <[ "s-2" := later_session ]> {[ "s-1" := hello_session ]} |}.

(** A matcher that, whenever it succeeds, has moved the cursor forward by
    at least [n] characters before it continues. *)
Definition consumes {X} (n : nat) (body : Re.matcher X) : Prop :=
  forall prev s k x,
    body prev s k = Some x ->
    exists prev' s', k prev' s' = Some x
                     /\ (String.length s' + n <= String.length s)%nat.





(** A method of the memory manager that leaves buffer and mode alone. *)
Definition same_buffer (s s' : MemoryManager.t) : Prop :=
  MemoryManager.transient_memory s' = MemoryManager.transient_memory s
  /\ MemoryManager.memory_mode s' = MemoryManager.memory_mode s.

(** The state a chain initialiser leaves when it raises: the one it
    found, up to a search tool it may have created. *)
Definition tool_only (s s' : LLM.t) : Prop :=
  s' = s \/ s' = LLM.set_search_tool s.

(** The active configuration of the engine: the modes, the provider, the
    filter flag, and the client and chain built from them. *)
Definition configuration (s : LLM.t)
    : AnswerMode.t * ModelProvider.t * MemoryMode.t * bool
      * option ChatModel * option Chain :=
  (LLM.answer_mode s, LLM.model_provider s, LLM.memory_mode s,
   PrivacyFilter.enable_filter (LLM.privacy_filter s), LLM.llm s, LLM.chain s).

(** What a failed switch leaves as it was: every attribute but the one
    being switched and the search tool; in particular the active chain. *)
Definition kept_by_failed_switch (op : setter) (s s' : LLM.t) : Prop :=
  LLM.chain s' = LLM.chain s
  /\ LLM.vector_store s' = LLM.vector_store s
  /\ LLM.memory_manager s' = LLM.memory_manager s
  /\ LLM.privacy_filter s' = LLM.privacy_filter s
  /\ LLM.memory_mode s' = LLM.memory_mode s
  /\ LLM.session_id s' = LLM.session_id s
  /\ match op with
     | ChangeAnswerMode _ =>
         LLM.model_provider s' = LLM.model_provider s /\ LLM.llm s' = LLM.llm s
     | ChangeModelProvider _ => LLM.answer_mode s' = LLM.answer_mode s
     | ChangeMemoryMode _ | TogglePrivacyFilter _ => False
     end.

(** A vector store on HuggingFace embeddings. *)
Definition store0 : VectorStore.t :=
  {| VectorStore.path := "data";
     VectorStore.embedding_provider := EmbeddingProvider.HUGGINGFACE;
     VectorStore.embeddings := Some HuggingFaceEmbeddings |}.

(** A world in which every client and chain can be built. *)
Definition builds_fine : LLM.build_env :=
  {| LLM.chat_model := fun _ => Ok tt;
     LLM.ollama_test := Ok "pong";
     LLM.make_chain := fun _ => Ok tt;
     LLM.tavily := Ok tt;
     LLM.chroma := Ok [];
     LLM.uuid4 := "3f2b8c1e-5d47-4a9b-8e21-0c6f7a9d1b34" |}.

(** A world in which neither HuggingFace nor Ollama can be reached. *)
Definition offline : VectorStore.env :=
  {| VectorStore.huggingface := Raise "model download failed";
     VectorStore.ollama_tags := Raise "connection refused";
     VectorStore.ollama := Ok tt;
     VectorStore.initialize_db := Ok tt |}.

(** A Groq engine in transient memory mode with an empty buffer. *)
Definition engine (mode : AnswerMode.t) (c : Chain) (tool : option unit) : LLM.t :=
  {| LLM.vector_store := store0;
     LLM.model_provider := ModelProvider.GROQ;
     LLM.answer_mode := mode;
     LLM.memory_mode := MemoryMode.TRANSIENT;
     LLM.session_id := None;
     LLM.privacy_filter := {| PrivacyFilter.enable_filter := true |};
     LLM.memory_manager :=
       MemoryManager.init MemoryMode.TRANSIENT (Some HuggingFaceEmbeddings) (Ok []) ∅;
     LLM.llm := Some ChatGroq;
     LLM.chain := Some c;
     LLM.search_tool := tool |}.

Definition default_engine : LLM.t :=
  engine AnswerMode.DEFAULT (LLMChain ChatGroq T_DEFAULT ["question"]) None.
Definition rag_engine : LLM.t :=
  engine AnswerMode.RAG (ConversationalRetrievalChain ChatGroq) None.
Definition web_engine : LLM.t :=
  engine AnswerMode.WEB_SEARCH
    (LLMChain ChatGroq T_WEB_SEARCH ["question"; "search_results"]) (Some tt).

(** A world in which the model answers and the web search is down, and one
    in which the model itself is down. *)
Definition search_down : LLM.query_env :=
  {| LLM.on_user := calm; LLM.on_ai := calm; LLM.on_error := calm;
     LLM.invoke_llm := fun _ _ => Ok "Paris.";
     LLM.similarity_search := fun _ _ => Ok [];
     LLM.invoke_search := fun _ => Raise "connection timed out";
     LLM.invoke_retrieval := fun _ _ => Ok "Paris." |}.
Definition llm_down : LLM.query_env :=
  {| LLM.on_user := calm; LLM.on_ai := calm; LLM.on_error := calm;
     LLM.invoke_llm := fun _ _ => Raise "rate limit exceeded";
     LLM.similarity_search := fun _ _ => Ok [];
     LLM.invoke_search := fun _ => Raise "connection timed out";
     LLM.invoke_retrieval := fun _ _ => Raise "rate limit exceeded" |}.

(** A world in which retrieval finds two passages of one manual and one
    of a note, the web search finds two pages and a result without a URL,
    and the model closes its text with a citation of its own. *)
Definition passages : list Document :=
  [ {| page_content := "Paris is the capital of France.";
       metadata := {[ "source" := PyStr "uploads/manual.pdf" ]} |};
    {| page_content := "It lies on the Seine.";
       metadata := {[ "source" := PyStr "notes.txt" ]} |};
    {| page_content := "It has two million inhabitants.";
       metadata := {[ "source" := PyStr "uploads/manual.pdf" ]} |} ].
Definition pages : list (gmap string PyVal) :=
  [ {[ "title" := PyStr "Paris"; "content" := PyStr "Capital of France.";
       "url" := PyStr "https://example.org/paris" ]};
    {[ "title" := PyStr "France"; "content" := PyStr "A country." ]};
    {[ "title" := PyStr "Paris, again"; "content" := PyStr "Capital of France.";
       "url" := PyStr "https://example.org/paris" ]} ].
Definition all_up : LLM.query_env :=
  {| LLM.on_user := calm; LLM.on_ai := calm; LLM.on_error := calm;
     LLM.invoke_llm := fun _ _ => Ok "Paris. [Source: my training data]";
     LLM.similarity_search := fun _ _ => Ok passages;
     LLM.invoke_search := fun _ => Ok (SR_list pages);
     LLM.invoke_retrieval := fun _ _ => Ok "Paris." |}.

(* ===================================================================== *)
(** ** Vocabulary of the further properties                               *)
(* ===================================================================== *)

(** The world, the target session and the session-file entry of an
    append. *)
Definition append_env (a : append) : MemoryManager.persist_env :=
  match a with AddUser w _ _ | AddAi w _ _ => w end.

Definition append_session (a : append) : option string :=
  match a with AddUser _ _ sid | AddAi _ _ sid => sid end.

Definition entry_of (a : append) : MemoryManager.entry :=
  match a with
  | AddUser w message _ =>
      {| MemoryManager.role := "user"; MemoryManager.content := message;
         MemoryManager.timestamp := MemoryManager.now w |}
  | AddAi w message _ =>
      {| MemoryManager.role := "assistant"; MemoryManager.content := message;
         MemoryManager.timestamp := MemoryManager.now w |}
  end.

(** The append reaches the persistent store: persistent mode, a session
    id that is not empty, a store that exists and accepts the document. *)
Definition persisted (s : MemoryManager.t) (a : append) : bool :=
  MemoryMode.eqb (MemoryManager.memory_mode s) MemoryMode.PERSISTENT
  && negb (key_missing (append_session a))
  && bool_decide (is_Some (MemoryManager.persistent_memory s))
  && is_ok (MemoryManager.add_documents (append_env a)).

(** The messages stored for a session, none when it has no file. *)
Definition stored_messages (s : MemoryManager.t) (sid : string)
    : list MemoryManager.entry :=
  match MemoryManager.sessions_dir s !! sid with
  | Some d => MemoryManager.messages d
  | None => []
  end.

(** The directory listing names exactly the session files, each once. *)
Definition lists_sessions (files : gmap string MemoryManager.session_data)
    (listdir : list string) : Prop :=
  NoDup listdir
  /\ forall name, name ∈ listdir
                  <-> exists sid, name = sid +:+ ".json" /\ is_Some (files !! sid).

(** Two consecutive summaries of a listing that is newest first. *)
Definition not_older (a b : MemoryManager.Summary.t) : Prop :=
  String.leb (MemoryManager.Summary.updated_at b)
             (MemoryManager.Summary.updated_at a) = true.

(** The chain [_initialize_chain] installs for an answer mode on client
    [l]: in web-search mode the web-search chain comes with a search tool,
    and the default chain stands in when the tool cannot be had. *)
Definition chain_fits (mode : AnswerMode.t) (l : ChatModel) (s : LLM.t) : Prop :=
  match mode with
  | AnswerMode.DEFAULT => LLM.chain s = Some (LLMChain l T_DEFAULT ["question"])
  | AnswerMode.RAG => LLM.chain s = Some (ConversationalRetrievalChain l)
  | AnswerMode.WEB_SEARCH =>
      LLM.chain s = Some (LLMChain l T_DEFAULT ["question"])
      \/ (LLM.chain s = Some (LLMChain l T_WEB_SEARCH ["question"; "search_results"])
          /\ LLM.search_tool s = Some tt)
  end.

(** An engine whose client belongs to the recorded provider and whose
    chain is the one of the recorded answer mode, built on that client. *)
Definition coherent (s : LLM.t) : Prop :=
  exists l, LLM.llm s = Some l
            /\ LLM.model_provider s = client_provider l
            /\ chain_fits (LLM.answer_mode s) l s.

(* ===================================================================== *)
(** ** Proof automation for the monad                                      *)
(* ===================================================================== *)

(** Unfold the monad and split on every outcome the environment decides. *)
Ltac run_monad :=
  unfold try_except, bind, gets, modify, ret, raise, extern, LLM.attr in *.
Ltac split_outcomes :=
  repeat (match goal with
          | |- context [key_missing ?k] => destruct (key_missing k)
          | |- context [MemoryMode.eqb ?x ?y] => destruct (MemoryMode.eqb x y)
          | |- context [LLM.chat_model ?b ?c] => destruct (LLM.chat_model b c) as [[]|]
          | |- context [LLM.ollama_test ?b] => destruct (LLM.ollama_test b)
          | |- context [LLM.make_chain ?b ?c] => destruct (LLM.make_chain b c) as [[]|]
          | |- context [LLM.tavily ?b] => destruct (LLM.tavily b) as [[]|]
          | |- context [match ?x with Some _ => _ | None => _ end] =>
              is_var x; destruct x
          | |- context [match ?x with Ok _ => _ | Raise _ => _ end] =>
              is_var x; destruct x
          end; cbn beta iota).

(* ===================================================================== *)
(** ** Lists and slices                                                   *)
(* ===================================================================== *)

Section Slices.
Context {A : Type}.
Implicit Types l : list A.

Lemma slice_from_neg (n : nat) l :
  (0 < n)%nat -> slice_from (- Z.of_nat n) l = most_recent n l.
Proof.
  intros Hn. unfold slice_from, most_recent.
  destruct (Z.ltb_spec (- Z.of_nat n) 0) as [_|?]; [|lia].
  f_equal. lia.
Qed.

(** Python's [l[-0:]] is the whole list. *)
Lemma slice_from_zero l : slice_from (- 0) l = l.
Proof. unfold slice_from. simpl. now rewrite Z.min_l by lia. Qed.

Lemma most_recent_length n l : (length (most_recent n l) <= n)%nat.
Proof. unfold most_recent. rewrite length_drop. lia. Qed.

Lemma most_recent_all n l : (length l <= n)%nat -> most_recent n l = l.
Proof.
  intros H. unfold most_recent.
  replace (length l - n)%nat with 0%nat by lia. reflexivity.
Qed.

Lemma most_recent_app n l1 l2 :
  (length l2 <= n)%nat ->
  most_recent n (l1 ++ l2) = most_recent (n - length l2) l1 ++ l2.
Proof.
  intros H. unfold most_recent. rewrite length_app.
  rewrite drop_app.
  replace (length l1 + length l2 - n - length l1)%nat with 0%nat by lia.
  simpl. f_equal. f_equal. lia.
Qed.

(** Trimming, appending and trimming again is trimming once. *)
Lemma most_recent_app_l n l1 l2 :
  most_recent n (most_recent n l1 ++ l2) = most_recent n (l1 ++ l2).
Proof.
  unfold most_recent.
  rewrite !drop_app, drop_drop, !length_app, !length_drop.
  f_equal; f_equal; lia.
Qed.

Lemma most_recent_last n l x :
  (0 < n)%nat -> last (most_recent n (l ++ [x])) = Some x.
Proof.
  intros Hn. rewrite most_recent_app by (simpl; lia). apply last_snoc.
Qed.

End Slices.

(* ===================================================================== *)
(** ** The memory manager                                                 *)
(* ===================================================================== *)

Section MemoryManagerFacts.
Import MemoryManager.
Variable cfg : AppConfig.t.
Abbreviation N := (AppConfig.MEMORY_MESSAGE_LIMIT cfg).

Lemma _update_session_metadata_frame w sid role content ts s :
  exists s', _update_session_metadata w sid role content ts s = (Ok tt, s')
             /\ same_buffer s s'.
Proof.
  unfold _update_session_metadata, try_except, bind, gets, modify, extern, ret.
  simpl. destruct (write_file w sid) as [[]|e];
    (eexists; split; [reflexivity|]; split; reflexivity).
Qed.

Lemma _add_to_persistent_memory_frame w role content sid s :
  exists s', _add_to_persistent_memory w role content sid s = (Ok tt, s')
             /\ same_buffer s s'.
Proof.
  unfold _add_to_persistent_memory, try_except, bind, gets, raise, extern, ret.
  destruct (persistent_memory s) as [docs|] eqn:Hpm; simpl.
  - destruct (add_documents w) as [[]|e]; simpl.
    + destruct (_update_session_metadata_frame w sid role content (now w)
                  (set_persistent_memory
                     (Some (docs ++ [{| page_content := content;
                                        metadata := {[ "role" := PyStr role;
                                                       "timestamp" := PyStr (now w);
                                                       "session_id" := PyStr sid ]} |}]))
                     s)) as (s' & Hs' & Hb & Hm).
      rewrite Hs'. exists s'. split; [reflexivity|]. split; assumption.
    + eexists; split; [reflexivity|]; split; reflexivity.
  - exists s. split; [reflexivity|]. split; reflexivity.
Qed.

Lemma _trim_transient_memory_spec s :
  0 < N ->
  _trim_transient_memory cfg s =
    (Ok tt, set_transient_memory (most_recent (Z.to_nat N) (transient_memory s)) s).
Proof.
  intros HN. unfold _trim_transient_memory, bind, gets, modify, ret.
  destruct (Z.gtb_spec (Z.of_nat (length (transient_memory s))) N) as [Hgt|Hle].
  - replace (- N) with (- Z.of_nat (Z.to_nat N)) by lia.
    rewrite slice_from_neg by lia. reflexivity.
  - rewrite most_recent_all by lia. destruct s; reflexivity.
Qed.

(** With a limit of zero nothing is ever trimmed: [messages[-0:]] is the
    whole list. *)
Lemma _trim_transient_memory_zero s :
  N = 0 -> snd (_trim_transient_memory cfg s) = s.
Proof.
  intros HN. unfold _trim_transient_memory, bind, gets, modify, ret. rewrite HN.
  destruct (Z.gtb_spec (Z.of_nat (length (transient_memory s))) 0); simpl.
  - change (- 0) with (- 0). rewrite slice_from_zero. destruct s; reflexivity.
  - reflexivity.
Qed.

(** One append: the message enters the buffer, the buffer is trimmed, and
    the method returns whatever the persistent store does. *)
Lemma do_append_spec a s :
  0 < N ->
  exists s', do_append cfg a s = (Ok tt, s')
    /\ transient_memory s' = most_recent (Z.to_nat N) (transient_memory s ++ [appended a])
    /\ memory_mode s' = memory_mode s.
Proof.
  intros HN.
  destruct a as [w message sid | w message sid]; simpl;
    unfold add_user_message, add_ai_message.
  all: unfold bind at 1; unfold modify at 1; simpl.
  all: unfold bind at 1; rewrite _trim_transient_memory_spec by assumption; simpl.
  all: unfold bind at 1; unfold gets at 1; simpl.
  all: match goal with |- context [persists ?x ?y] => destruct (persists x y) as [target|] end.
  all: try (match goal with
            | |- context [_add_to_persistent_memory ?w ?r ?c ?i ?s0] =>
                destruct (_add_to_persistent_memory_frame w r c i s0) as (s' & Hs' & Hb & Hm);
                rewrite Hs'; exists s'; split; [reflexivity|]; split;
                [rewrite Hb | rewrite Hm]; reflexivity
            end).
  all: eexists; split; [reflexivity|]; split; reflexivity.
Qed.

Lemma run_appends_spec ops : forall s,
  0 < N ->
  (length (transient_memory s) <= Z.to_nat N)%nat ->
  transient_memory (run_appends cfg ops s)
    = most_recent (Z.to_nat N) (transient_memory s ++ map appended ops)
  /\ all_return cfg ops s = true.
Proof.
  induction ops as [|a ops IH]; intros s HN Hlen.
  - simpl. rewrite app_nil_r, most_recent_all by assumption. split; reflexivity.
  - destruct (do_append_spec a s HN) as (s' & Hs' & Hbuf & _).
    unfold run_appends in *. simpl. rewrite Hs'. simpl.
    destruct (IH s' HN) as [IHbuf IHret].
    { rewrite Hbuf. apply most_recent_length. }
    split; [|assumption].
    rewrite IHbuf, Hbuf, most_recent_app_l, <- app_assoc. reflexivity.
Qed.

(** Trimming never raises, whatever the limit. *)
Lemma _trim_transient_memory_total s :
  exists buf, _trim_transient_memory cfg s = (Ok tt, set_transient_memory buf s)
    /\ (0 <= N -> last buf = last (transient_memory s)).
Proof.
  unfold _trim_transient_memory, bind, gets, modify, ret.
  destruct (Z.gtb_spec (Z.of_nat (length (transient_memory s))) N) as [Hgt|Hle].
  - eexists. split; [reflexivity|]. intros HN.
    destruct (Z.eq_dec N 0) as [->|Hpos].
    + now rewrite slice_from_zero.
    + replace (- N) with (- Z.of_nat (Z.to_nat N)) by lia.
      rewrite slice_from_neg by lia.
      destruct (transient_memory s) as [|x l] using rev_ind; [reflexivity|].
      rewrite most_recent_last by lia. now rewrite last_snoc.
  - exists (transient_memory s). split; [destruct s; reflexivity|]. reflexivity.
Qed.

(** An append never raises, whatever the limit and whatever the
    persistent store does; for a limit that is not negative the appended
    message is the last of the buffer. *)
Lemma do_append_total a s :
  exists s', do_append cfg a s = (Ok tt, s')
    /\ (0 <= N -> last (transient_memory s') = Some (appended a))
    /\ memory_mode s' = memory_mode s.
Proof.
  destruct a as [w message sid | w message sid]; simpl;
    unfold add_user_message, add_ai_message.
  all: unfold bind at 1; unfold modify at 1; simpl.
  all: match goal with
       | |- exists _, bind _ _ ?s0 = _ /\ _ =>
           destruct (_trim_transient_memory_total s0) as (buf & Htrim & Hlast)
       end.
  all: unfold bind at 1; rewrite Htrim; simpl in Hlast; rewrite last_snoc in Hlast.
  all: unfold bind at 1; unfold gets at 1; simpl.
  all: match goal with |- context [persists ?x ?y] => destruct (persists x y) as [target|] end.
  all: try (match goal with
            | |- context [_add_to_persistent_memory ?w ?r ?c ?i ?s0] =>
                destruct (_add_to_persistent_memory_frame w r c i s0) as (s' & Hs' & Hb & Hm);
                rewrite Hs'; exists s'; split; [reflexivity|]; split;
                [rewrite Hb | rewrite Hm]; simpl; auto
            end).
  all: eexists; split; [reflexivity|]; split; simpl; auto.
Qed.

End MemoryManagerFacts.

(* ===================================================================== *)
(** ** Properties of the transient buffer and of session loading          *)
(* ===================================================================== *)

(** C1.  Buffer bound.  For a positive limit N and a buffer that starts
    within it, after every prefix of every sequence of add_user_message /
    add_ai_message calls the buffer has at most N messages and holds
    exactly the N most recent of the messages appended so far (all of them
    while there are fewer), in append order; and every append returns. *)
Theorem transient_buffer_bound (cfg : AppConfig.t) (s : MemoryManager.t)
    (ops : list append) (k : nat) :
  0 < AppConfig.MEMORY_MESSAGE_LIMIT cfg ->
  Z.of_nat (length (MemoryManager.transient_memory s))
    <= AppConfig.MEMORY_MESSAGE_LIMIT cfg ->
  let buffer := MemoryManager.transient_memory (run_appends cfg (take k ops) s) in
  Z.of_nat (length buffer) <= AppConfig.MEMORY_MESSAGE_LIMIT cfg
  /\ buffer = most_recent (Z.to_nat (AppConfig.MEMORY_MESSAGE_LIMIT cfg))
                (MemoryManager.transient_memory s ++ map appended (take k ops))
  /\ all_return cfg (take k ops) s = true.
Proof.
  intros HN Hlen buffer. subst buffer.
  destruct (run_appends_spec cfg (take k ops) s HN) as [Hbuf Hret]; [lia|].
  rewrite Hbuf. split; [|split; [reflexivity|assumption]].
  pose proof (most_recent_length (Z.to_nat (AppConfig.MEMORY_MESSAGE_LIMIT cfg))
                (MemoryManager.transient_memory s ++ map appended (take k ops))).
  lia.
Qed.

Lemma transient_buffer_bound_witness :
  MemoryManager.transient_memory
    (run_appends (AppConfig.load no_keys) twelve_appends
       (MemoryManager.init MemoryMode.TRANSIENT (Some HuggingFaceEmbeddings) (Ok []) ∅))
  = [ HumanMessage "q2"; AIMessage "a2"; HumanMessage "q3"; AIMessage "a3";
      HumanMessage "q4"; AIMessage "a4"; HumanMessage "q5"; AIMessage "a5";
      HumanMessage "q6"; AIMessage "a6" ].
Proof.
  destruct (transient_buffer_bound (AppConfig.load no_keys)
              (MemoryManager.init MemoryMode.TRANSIENT (Some HuggingFaceEmbeddings) (Ok []) ∅)
              twelve_appends 12) as (_ & Hbuf & _).
  - simpl. lia.
  - simpl. lia.
  - exact Hbuf.
Defined.

(** C10.  In persistent mode, loading a session that does not exist
    returns False after the buffer has been cleared: the failed load
    leaves an empty buffer and changes nothing else. *)
Theorem load_missing_session_clears (cfg : AppConfig.t) (s : MemoryManager.t)
    (sid : string) :
  MemoryManager.memory_mode s = MemoryMode.PERSISTENT ->
  MemoryManager.sessions_dir s !! sid = None ->
  MemoryManager.load_session cfg sid s
    = (Ok false, MemoryManager.set_transient_memory [] s).
Proof.
  intros Hmode Hfile.
  unfold MemoryManager.load_session, bind, gets, try_except, modify, ret.
  rewrite Hmode. simpl. rewrite Hfile. reflexivity.
Qed.

Lemma load_missing_session_clears_witness :
  MemoryManager.transient_memory busy_manager
    = [HumanMessage "earlier"; AIMessage "reply"]
  /\ fst (MemoryManager.load_session (AppConfig.load no_keys) "nope" busy_manager)
      = Ok false
  /\ MemoryManager.transient_memory
       (snd (MemoryManager.load_session (AppConfig.load no_keys) "nope" busy_manager))
     = [].
Proof.
  split; [reflexivity|].
  rewrite (load_missing_session_clears (AppConfig.load no_keys) busy_manager "nope").
  - split; reflexivity.
  - reflexivity.
  - vm_compute. reflexivity.
Defined.

Lemma replay_loop (msgs : list MemoryManager.entry) : forall buf,
  foldl (fun buf e => buf ++ [MemoryManager.replay e]) buf msgs
    = buf ++ map MemoryManager.replay msgs.
Proof.
  induction msgs as [|e msgs IH]; intros buf; simpl.
  - now rewrite app_nil_r.
  - rewrite IH, <- app_assoc. reflexivity.
Qed.

(** C7.  load_session returns False in transient mode (touching nothing)
    and when the session file does not exist; otherwise it returns True
    and the buffer becomes the stored messages, replayed in stored order
    (role user as a human message, role assistant as an AI message) and
    trimmed to the N most recent. *)
Theorem load_session_replays (cfg : AppConfig.t) (s : MemoryManager.t)
    (sid : string) :
  0 < AppConfig.MEMORY_MESSAGE_LIMIT cfg ->
  match MemoryManager.memory_mode s, MemoryManager.sessions_dir s !! sid with
  | MemoryMode.TRANSIENT, _ =>
      MemoryManager.load_session cfg sid s = (Ok false, s)
  | MemoryMode.PERSISTENT, None =>
      fst (MemoryManager.load_session cfg sid s) = Ok false
  | MemoryMode.PERSISTENT, Some d =>
      MemoryManager.load_session cfg sid s
        = (Ok true,
           MemoryManager.set_transient_memory
             (most_recent (Z.to_nat (AppConfig.MEMORY_MESSAGE_LIMIT cfg))
                (map MemoryManager.replay (MemoryManager.messages d))) s)
  end
  /\ (forall content ts,
        MemoryManager.replay {| MemoryManager.role := "user";
                                MemoryManager.content := content;
                                MemoryManager.timestamp := ts |}
          = HumanMessage content
        /\ MemoryManager.replay {| MemoryManager.role := "assistant";
                                   MemoryManager.content := content;
                                   MemoryManager.timestamp := ts |}
          = AIMessage content).
Proof.
  intros HN. split; [|intros; split; reflexivity].
  unfold MemoryManager.load_session.
  destruct (MemoryManager.memory_mode s) eqn:Hmode.
  - unfold bind, gets, ret. rewrite Hmode. reflexivity.
  - destruct (MemoryManager.sessions_dir s !! sid) as [d|] eqn:Hfile.
    + unfold bind at 1. unfold gets at 1. rewrite Hmode. simpl.
      unfold try_except, bind at 1, modify at 1.
      unfold bind at 1, gets at 1. simpl. rewrite Hfile.
      unfold bind at 1, modify at 1. simpl.
      unfold bind at 1. rewrite _trim_transient_memory_spec by assumption.
      simpl. unfold ret. rewrite replay_loop. simpl.
      destruct s; reflexivity.
    + unfold bind, gets, try_except, modify, ret. rewrite Hmode. simpl.
      rewrite Hfile. reflexivity.
Qed.

Lemma load_session_replays_witness :
  fst (MemoryManager.load_session (AppConfig.load no_keys) "s-1" busy_manager)
    = Ok true
  /\ MemoryManager.transient_memory
       (snd (MemoryManager.load_session (AppConfig.load no_keys) "s-1" busy_manager))
     = [HumanMessage "hello"; AIMessage "hi"].
Proof.
  pose proof (load_session_replays (AppConfig.load no_keys) busy_manager "s-1") as H.
  destruct H as [H _]; [simpl; lia|].
  change (MemoryManager.memory_mode busy_manager) with MemoryMode.PERSISTENT in H.
  replace (MemoryManager.sessions_dir busy_manager !! "s-1")
    with (Some hello_session) in H by (vm_compute; reflexivity).
  rewrite H. split; reflexivity.
Defined.

(** The round trip through the session file: two appends in persistent
    mode under a fresh session id, a cleared buffer, then a load. *)
Example session_round_trip :
  let cfg := AppConfig.load no_keys in
  let fresh := MemoryManager.init MemoryMode.PERSISTENT (Some HuggingFaceEmbeddings)
                 (Ok []) ∅ in
  let s1 := snd (MemoryManager.add_user_message cfg calm "hello" (Some "s-9") fresh) in
  let s2 := snd (MemoryManager.add_ai_message cfg calm "hi" (Some "s-9") s1) in
  let s3 := MemoryManager.set_transient_memory [] s2 in
  MemoryManager.transient_memory s3 = []
  /\ fst (MemoryManager.load_session cfg "s-9" s3) = Ok true
  /\ MemoryManager.transient_memory (snd (MemoryManager.load_session cfg "s-9" s3))
     = [HumanMessage "hello"; AIMessage "hi"].
Proof. vm_compute. repeat split. Qed.

(* ===================================================================== *)
(** ** Properties of the privacy filter                                   *)
(* ===================================================================== *)

Section MatcherFacts.
Context {X : Type}.
Implicit Types (body : Re.matcher X) (k : option ascii -> string -> option X).

Lemma may_consumes body k e : forall prev s x,
  consumes 0 body ->
  Re.may body k e prev s = Some x ->
  exists prev' s', k prev' s' = Some x /\ (String.length s' <= String.length s)%nat.
Proof.
  induction e as [|e IH]; intros prev s x Hbody H; cbn [Re.may] in H.
  - eauto.
  - destruct (body prev s _) as [y|] eqn:Hb.
    + injection H as ->. apply Hbody in Hb as (p1 & s1 & Hk & Hlen).
      apply IH in Hk as (p2 & s2 & Hk & Hlen2); [|assumption].
      exists p2, s2. split; [assumption|lia].
    + eauto.
Qed.

Lemma must_consumes body k extra m n : forall prev s x,
  consumes m body ->
  Re.must body k extra n prev s = Some x ->
  exists prev' s', k prev' s' = Some x
                   /\ (String.length s' + n * m <= String.length s)%nat.
Proof.
  induction n as [|n IH]; intros prev s x Hbody H; cbn [Re.must] in H.
  - apply may_consumes in H as (p1 & s1 & Hk & Hlen).
    + exists p1, s1. split; [assumption|lia].
    + intros p0 s0 k0 x0 H0. apply Hbody in H0 as (p1 & s1 & Hk & Hlen).
      exists p1, s1. split; [assumption|lia].
  - apply Hbody in H as (p1 & s1 & Hk & Hlen).
    apply IH in Hk as (p2 & s2 & Hk & Hlen2); [|assumption].
    exists p2, s2. split; [assumption|lia].
Qed.

(** A match spans at least [min_len] characters. *)
Lemma run_consumes (r : Re.t) : consumes (Re.min_len r) (@Re.run X r).
Proof.
  induction r as [p| | |r1 IH1 r2 IH2|r1 IH1 r2 IH2|r IH lo hi];
    intros prev s k x H; cbn [Re.run Re.min_len] in *.
  - destruct s as [|c s']; [discriminate|].
    destruct (p c); [|discriminate].
    exists (Some c), s'. split; [assumption|simpl; lia].
  - destruct (Re.at_boundary prev s); [|discriminate].
    exists prev, s. split; [assumption|lia].
  - exists prev, s. split; [assumption|lia].
  - apply IH1 in H as (p1 & s1 & H & Hlen1).
    apply IH2 in H as (p2 & s2 & H & Hlen2).
    exists p2, s2. split; [assumption|lia].
  - destruct (Re.run r1 prev s k) as [y|] eqn:H1.
    + injection H as ->. apply IH1 in H1 as (p1 & s1 & H & Hlen).
      exists p1, s1. split; [assumption|lia].
    + apply IH2 in H as (p1 & s1 & H & Hlen).
      exists p1, s1. split; [assumption|lia].
  - eapply must_consumes; eassumption.
Qed.

End MatcherFacts.

(** The length [match_here] reports lies between [min_len] and the length
    of the remaining text. *)
Lemma match_here_spans (r : Re.t) prev s n :
  Re.match_here r prev s = Some n ->
  (Re.min_len r <= n <= String.length s)%nat.
Proof.
  unfold Re.match_here. intros H.
  apply run_consumes in H as (p1 & s1 & H & Hlen).
  injection H as <-. lia.
Qed.


Section PrivacyFilterFacts.
Import PrivacyFilter.

Lemma step_keeps_flag text item : snd (step (text, true) item) = true.
Proof.
  destruct item as [category pattern]. simpl.
  destruct (Re.findall pattern text); reflexivity.
Qed.

Lemma loop_keeps_flag items : forall text,
  snd (foldl step (text, true) items) = true.
Proof.
  induction items as [|item items IH]; intros text; cbn [foldl]; [reflexivity|].
  pose proof (step_keeps_flag text item) as H.
  destruct (step (text, true) item) as [text' flag]. simpl in H. subst flag.
  apply IH.
Qed.

(** While no category has matched, the text is the caller's. *)
Lemma step_untouched text item :
  step (text, false) item = (text, false)
  \/ snd (step (text, false) item) = true.
Proof.
  destruct item as [category pattern]. simpl.
  destruct (Re.findall pattern text); [left|right]; reflexivity.
Qed.

Lemma loop_detects items : forall text category pattern,
  In (category, pattern) items ->
  Re.search pattern text = true ->
  snd (foldl step (text, false) items) = true.
Proof.
  induction items as [|item items IH]; intros text category pattern Hin Hm.
  - destruct Hin.
  - cbn [foldl]. destruct Hin as [->|Hin].
    + cbn [step]. unfold Re.search in Hm.
      destruct (Re.findall pattern text); [discriminate|].
      apply loop_keeps_flag.
    + destruct (step_untouched text item) as [Hsame|Hflag].
      * rewrite Hsame. eapply IH; eassumption.
      * destruct (step (text, false) item) as [text' flag]. simpl in Hflag.
        subst flag. apply loop_keeps_flag.
Qed.







End PrivacyFilterFacts.

(** A text with a phone number, and the same number glued to a URL that
    carries credentials. *)
Lemma glued_phone_survives :
  let text := "555-123-4567 555-123-4567http://u:p@h" in
  Re.search PrivacyFilter.phone text = true
  /\ PrivacyFilter.filter_text {| PrivacyFilter.enable_filter := true |} text
     = ("[PHONE REDACTED] 555-123-4567[URL WITH CREDENTIALS REDACTED]", true)
  /\ Re.search PrivacyFilter.phone
       (fst (PrivacyFilter.filter_text {| PrivacyFilter.enable_filter := true |} text))
     = true.
Proof. vm_compute. repeat split. Qed.




(** What the filter returns on the texts of the specification. *)
Example filter_text_email :
  PrivacyFilter.filter_text {| PrivacyFilter.enable_filter := true |}
    "my email is a@b.com, what is X?"
  = ("my email is [EMAIL REDACTED], what is X?", true).
Proof. vm_compute. reflexivity. Qed.

Example filter_text_disabled (text : string) :
  PrivacyFilter.filter_text {| PrivacyFilter.enable_filter := false |} text
  = (text, false).
Proof. reflexivity. Qed.

(* ===================================================================== *)
(** ** Properties of citation assembly                                    *)
(* ===================================================================== *)

Section CitationFacts.

Lemma has_sep_contains s :
  Str.contains_char "/" s || Str.contains_char "\" s = has_sep s.
Proof.
  induction s as [|c t IH]; [reflexivity|]. simpl. rewrite <- IH. unfold is_sep.
  destruct (Ascii.eqb c "/"), (Ascii.eqb c "\"),
    (Str.contains_char "/" t), (Str.contains_char "\" t); reflexivity.
Qed.

Lemma replaced_sep c :
  Ascii.eqb (if Ascii.eqb c "\" then "/"%char else c) "/" = is_sep c.
Proof.
  unfold is_sep. destruct (Ascii.eqb c "\") eqn:Hb.
  - now rewrite orb_true_r.
  - now rewrite orb_false_r.
Qed.

Lemma split_without_sep t :
  has_sep t = false -> Str.split "/" (Str.replace "\" "/" t) = [t].
Proof.
  induction t as [|c t IH]; intros H; [reflexivity|].
  simpl in H. apply orb_false_elim in H as [Hc Ht].
  simpl. rewrite replaced_sep, Hc, (IH Ht).
  unfold is_sep in Hc. apply orb_false_elim in Hc as [_ Hc]. now rewrite Hc.
Qed.

Lemma split_with_sep t :
  has_sep t = true ->
  exists h x r, Str.split "/" (Str.replace "\" "/" t) = h :: x :: r.
Proof.
  induction t as [|c t IH]; intros H; [discriminate|].
  simpl. rewrite replaced_sep.
  destruct (is_sep c) eqn:Hc.
  - destruct (has_sep t) eqn:Ht.
    + destruct (IH eq_refl) as (h & x & r & ->). eauto.
    + rewrite (split_without_sep t Ht). eauto.
  - simpl in H. rewrite Hc in H. simpl in H.
    destruct (IH H) as (h & x & r & ->). eauto.
Qed.

(** The path reduction of [_get_rag_response] yields the final segment. *)
Lemma reduce_final_segment s :
  (if Str.contains_char "/" s || Str.contains_char "\" s
   then List.last (Str.split "/" (Str.replace "\" "/" s)) EmptyString
   else s) = final_segment s.
Proof.
  rewrite has_sep_contains.
  assert (Hno : forall t, has_sep t = false -> final_segment t = t).
  { intros [|c t] H; [reflexivity|]. simpl in *. now rewrite H. }
  destruct (has_sep s) eqn:Hs; [|now rewrite Hno].
  induction s as [|c t IH]; [discriminate|].
  simpl in Hs. cbn [final_segment]. rewrite Hs.
  cbn [Str.replace Str.split]. rewrite replaced_sep.
  destruct (is_sep c) eqn:Hc.
  - destruct (has_sep t) eqn:Ht.
    + destruct (split_with_sep t Ht) as (h & x & r & Hsplit).
      rewrite <- (IH eq_refl), Hsplit. reflexivity.
    + rewrite (split_without_sep t Ht), (Hno t Ht). reflexivity.
  - simpl in Hs. rewrite <- (IH Hs).
    destruct (split_with_sep t Hs) as (h & x & r & Hsplit).
    rewrite Hsplit. reflexivity.
Qed.

Lemma placeholder_spec source :
  String.eqb source EmptyString
  || bool_decide (source ∈ ["context.txt"; "filename.txt"; "None"])
  = placeholder source.
Proof.
  unfold placeholder. rewrite <- !orb_assoc. f_equal.
  destruct (String.eqb_spec source "context.txt") as [->|H1]; [reflexivity|].
  destruct (String.eqb_spec source "filename.txt") as [->|H2]; [reflexivity|].
  destruct (String.eqb_spec source "None") as [->|H3]; [reflexivity|].
  apply bool_decide_eq_false. rewrite !elem_of_cons, elem_of_nil. tauto.
Qed.

(** One passage: its identifier, if it contributes one, joins the list
    unless it is there already. *)
Lemma cite_cited sources doc :
  LLM.cite sources doc =
    match cited doc with
    | Some source => if bool_decide (source ∈ sources) then sources
                     else sources ++ [source]
    | None => sources
    end.
Proof.
  unfold LLM.cite, cited.
  destruct (metadata doc !! "source") as [[|source]|]; try reflexivity.
  rewrite placeholder_spec. destruct (placeholder source); [reflexivity|].
  rewrite reduce_final_segment. reflexivity.
Qed.

Lemma first_seen_elem l x : x ∈ first_seen l <-> x ∈ l.
Proof.
  induction l as [|y l IH]; simpl; [reflexivity|].
  rewrite !elem_of_cons, list_elem_of_filter, IH.
  destruct (decide (x = y)); tauto.
Qed.

Lemma first_seen_NoDup l : NoDup (first_seen l).
Proof.
  induction l as [|y l IH]; simpl; constructor.
  - rewrite list_elem_of_filter. tauto.
  - now apply NoDup_filter.
Qed.

Lemma cite_loop docs : forall sources,
  foldl LLM.cite sources docs
    = sources ++ filter (fun y => y ∉ sources) (first_seen (omap cited docs)).
Proof.
  induction docs as [|doc docs IH]; intros sources; cbn [foldl].
  - simpl. now rewrite app_nil_r.
  - change (omap cited (doc :: docs))
      with (match cited doc with
            | Some source => source :: omap cited docs
            | None => omap cited docs
            end).
    rewrite IH, cite_cited. destruct (cited doc) as [source|]; [|reflexivity].
    cbn [first_seen]. rewrite filter_cons.
    destruct (bool_decide_reflect (source ∈ sources)) as [Hin|Hnin].
    + destruct (decide (source ∉ sources)) as [?|_]; [tauto|].
      f_equal. rewrite list_filter_filter. apply list_filter_iff.
      intros y. split; [|tauto]. intros Hy. split; [assumption|congruence].
    + destruct (decide (source ∉ sources)) as [_|?]; [|tauto].
      rewrite <- app_assoc. cbn [app]. f_equal. f_equal.
      rewrite list_filter_filter. apply list_filter_iff.
      intros y. rewrite not_elem_of_app, list_elem_of_singleton. tauto.
Qed.

End CitationFacts.

Lemma cited_passage content source :
  cited (passage content source)
    = if placeholder source then None else Some (final_segment source).
Proof.
  unfold cited, passage. simpl. rewrite lookup_singleton_eq. reflexivity.
Qed.

Lemma final_segment_plain s : has_sep s = false -> final_segment s = s.
Proof. destruct s as [|c t]; [reflexivity|]. simpl. now intros ->. Qed.

(** C3.  Source dedup and order.  The citation list built by the loop of
    _get_rag_response is the list of identifiers the passages contribute
    (metadata source present, neither empty nor a placeholder, reduced to
    its final path segment), each exactly once, in first-seen order.  In
    particular passages with identifiers [A, B, A, C], where B is a
    placeholder and A, C are distinct plain file names, are cited as
    [A, C]. *)
Theorem citation_list (A B C : string) (c1 c2 c3 c4 : string) :
  placeholder A = false -> has_sep A = false ->
  placeholder C = false -> has_sep C = false ->
  A <> C ->
  placeholder B = true ->
  (forall docs : list Document,
     foldl LLM.cite [] docs = first_seen (omap cited docs)
     /\ NoDup (foldl LLM.cite [] docs)
     /\ (forall x, x ∈ foldl LLM.cite [] docs <-> x ∈ omap cited docs))
  /\ foldl LLM.cite []
       [passage c1 A; passage c2 B; passage c3 A; passage c4 C] = [A; C].
Proof.
  intros HA HAs HC HCs HAC HB.
  assert (Hgen : forall docs, foldl LLM.cite [] docs = first_seen (omap cited docs)).
  { intros docs. rewrite cite_loop. cbn [app].
    induction (first_seen (omap cited docs)) as [|y l IH]; [reflexivity|].
    rewrite filter_cons. destruct (decide (y ∉ [])) as [_|Hy].
    - now rewrite IH.
    - exfalso. apply Hy. apply not_elem_of_nil. }
  split.
  - intros docs. rewrite Hgen. split; [reflexivity|]. split.
    + apply first_seen_NoDup.
    + intros x. apply first_seen_elem.
  - rewrite Hgen. cbn [omap list_omap].
    rewrite !cited_passage, HA, HB, HC, !final_segment_plain by assumption.
    cbn [first_seen].
    repeat first
      [ rewrite filter_nil
      | rewrite filter_cons
      | match goal with |- context [decide ?P] => destruct (decide P) end ].
    all: try reflexivity; try congruence.
    all: exfalso; match goal with H : ~ _ <> _ |- _ => apply H; congruence end.
Qed.

Lemma citation_list_witness :
  foldl LLM.cite []
    [ passage "p1" "manual.pdf"; passage "p2" "filename.txt";
      passage "p3" "manual.pdf"; passage "p4" "guide.md" ]
  = ["manual.pdf"; "guide.md"].
Proof.
  apply (citation_list "manual.pdf" "filename.txt" "guide.md" "p1" "p2" "p3" "p4");
    try reflexivity.
  intros H. discriminate H.
Defined.

(** The skip test reads the identifier as stored, before it is reduced:
    a path whose final segment is empty or a sentinel is cited by that
    segment. *)
Example citation_after_reduction :
  foldl LLM.cite []
    [ passage "p1" "uploads/context.txt"; passage "p2" "uploads/" ]
  = ["context.txt"; EmptyString].
Proof. vm_compute. reflexivity. Qed.

(** Identifiers given as paths are cited by their final segment, and two
    paths to the same file name are cited once. *)
Example citation_paths :
  foldl LLM.cite []
    [ passage "p1" "data/uploads/manual.pdf"; passage "p2" "C:\docs\manual.pdf";
      passage "p3" EmptyString; passage "p4" "None"; passage "p5" "b/guide.md" ]
  = ["manual.pdf"; "guide.md"].
Proof. vm_compute. reflexivity. Qed.

(* ===================================================================== *)
(** ** The engine: answering a query                                      *)
(* ===================================================================== *)

(** [__init__] produces the engines used below. *)
Example init_web_engine :
  LLM.init (AppConfig.load groq_and_tavily) (ModelConfig.load groq_and_tavily)
    builds_fine store0 ModelProvider.GROQ AnswerMode.WEB_SEARCH
    MemoryMode.TRANSIENT ∅ = Ok web_engine.
Proof. vm_compute. reflexivity. Qed.

Example init_rag_engine :
  LLM.init (AppConfig.load groq_and_tavily) (ModelConfig.load groq_and_tavily)
    builds_fine store0 ModelProvider.GROQ AnswerMode.RAG
    MemoryMode.TRANSIENT ∅ = Ok rag_engine.
Proof. vm_compute. reflexivity. Qed.

(** Without a Tavily key the web-search engine runs on the default chain
    and has no search tool. *)
Example init_web_engine_without_key :
  LLM.init (AppConfig.load no_keys)
    {| ModelConfig.OPENAI_API_KEY := None; ModelConfig.ANTHROPIC_API_KEY := None;
       ModelConfig.GROQ_API_KEY := Some "gsk-test" |}
    builds_fine store0 ModelProvider.GROQ AnswerMode.WEB_SEARCH
    MemoryMode.TRANSIENT ∅
  = Ok (engine AnswerMode.WEB_SEARCH (LLMChain ChatGroq T_DEFAULT ["question"]) None).
Proof. vm_compute. reflexivity. Qed.

Section EngineFacts.
Variable app : AppConfig.t.

(** An append through the engine never raises. *)
Lemma engine_append_total (a : append) (self : LLM.t) :
  exists mm', LLM.mm (do_append app a) self
              = (Ok tt, LLM.set_memory_manager mm' self)
    /\ (0 <= AppConfig.MEMORY_MESSAGE_LIMIT app ->
        last (MemoryManager.transient_memory mm') = Some (appended a)).
Proof.
  destruct (do_append_total app a (LLM.memory_manager self)) as (mm' & H & Hlast & _).
  exists mm'. split; [|assumption].
  unfold LLM.mm, on_field. rewrite H. reflexivity.
Qed.

(** The except suite of get_response catches whatever the try suite
    raises, and itself returns. *)
Lemma get_response_handles (q : LLM.query_env) (query : string)
    (self : LLM.t) :
  0 <= AppConfig.MEMORY_MESSAGE_LIMIT app ->
  match LLM.get_response_try app q query self with
  | (Ok answer, self1) => LLM.get_response app q query self = (Ok answer, self1)
  | (Raise e, self1) =>
      exists self2,
        LLM.get_response app q query self = (Ok (LLM.error_msg e, false), self2)
        /\ last (MemoryManager.transient_memory (LLM.memory_manager self2))
           = Some (AIMessage (LLM.error_msg e))
  end.
Proof.
  intros HN. unfold LLM.get_response, try_except.
  destruct (LLM.get_response_try app q query self) as [[answer|e] self1];
    [reflexivity|].
  unfold LLM.get_response_except. unfold bind at 1, gets at 1.
  destruct (engine_append_total
              (AddAi (LLM.on_error q) (LLM.error_msg e) (LLM.session_id self1)) self1)
    as (mm' & Happ & Hlast).
  simpl in Happ. unfold bind. rewrite Happ.
  eexists. split; [reflexivity|]. simpl. auto.
Qed.

(** C4.  get_response never raises.  When its try suite returns, so does
    get_response, with the same answer; when the try suite raises e (in
    a memory append, in the dispatch on the answer mode or while the
    response is assembled), get_response returns the apology for e with
    the flag False, and the apology is the last message of the buffer. *)
Theorem get_response_never_raises (q : LLM.query_env) (query : string)
    (self : LLM.t) :
  0 <= AppConfig.MEMORY_MESSAGE_LIMIT app ->
  match LLM.get_response_try app q query self with
  | (Ok answer, self1) => LLM.get_response app q query self = (Ok answer, self1)
  | (Raise e, self1) =>
      exists self2,
        LLM.get_response app q query self = (Ok (LLM.error_msg e, false), self2)
        /\ last (MemoryManager.transient_memory (LLM.memory_manager self2))
           = Some (AIMessage (LLM.error_msg e))
  end.
Proof. apply get_response_handles. Qed.

End EngineFacts.

Lemma get_response_never_raises_witness :
  fst (LLM.get_response (AppConfig.load no_keys) llm_down "What is X?" rag_engine)
  = Ok ("I encountered an error processing your request: rate limit exceeded", false).
Proof.
  pose proof (get_response_never_raises (AppConfig.load no_keys) llm_down
                "What is X?" rag_engine) as H.
  assert (Htry : fst (LLM.get_response_try (AppConfig.load no_keys) llm_down
                        "What is X?" rag_engine) = Raise "rate limit exceeded")
    by (vm_compute; reflexivity).
  destruct (LLM.get_response_try (AppConfig.load no_keys) llm_down
              "What is X?" rag_engine) as [[answer|e] self1];
    simpl in Htry; [discriminate|].
  injection Htry as ->.
  destruct H as (self2 & Hres & _); [simpl; lia|].
  rewrite Hres. reflexivity.
Defined.

(* ===================================================================== *)
(** ** The engine: the web-search fallback                                *)
(* ===================================================================== *)

Section FallbackFacts.
Variable app : AppConfig.t.
Variable q : LLM.query_env.

(** The chain built for web search wants two inputs; invoked with the
    question alone it raises. *)
Lemma web_chain_needs_results l question s :
  LLM.chain_invoke q (LLMChain l T_WEB_SEARCH ["question"; "search_results"])
    {[ "question" := question ]} s
  = (Raise "Missing some input keys: {'search_results'}", s).
Proof.
  unfold LLM.chain_invoke. cbn [List.filter].
  rewrite lookup_singleton_eq, lookup_singleton_ne by discriminate.
  reflexivity.
Qed.

(** The default chain, invoked with the question, asks the model the
    default prompt. *)
Lemma default_chain_answers l question s :
  LLM.chain_invoke q (LLMChain l T_DEFAULT ["question"])
    {[ "question" := question ]} s
  = match LLM.invoke_llm q l (Prompts.DEFAULT_PROMPT question) with
    | Ok text => (Ok (<["text" := text]> {[ "question" := question ]}), s)
    | Raise e => (Raise e, s)
    end.
Proof.
  unfold LLM.chain_invoke. cbn [List.filter].
  rewrite lookup_singleton_eq.
  change (bool_decide (is_Some (Some question))) with true. cbn [negb].
  unfold LLM.format_template. rewrite lookup_singleton_eq.
  change (default EmptyString (Some question)) with question.
  unfold bind, extern, ret.
  destruct (LLM.invoke_llm q l (Prompts.DEFAULT_PROMPT question)); reflexivity.
Qed.

Lemma default_response_on_web_chain l query s :
  LLM.chain s = Some (LLMChain l T_WEB_SEARCH ["question"; "search_results"]) ->
  LLM._get_default_response q query s
  = (Raise "Missing some input keys: {'search_results'}", s).
Proof.
  intros Hc. unfold LLM._get_default_response, bind at 1, LLM.attr. rewrite Hc.
  unfold bind. rewrite web_chain_needs_results. reflexivity.
Qed.

Lemma default_response_on_default_chain l query s :
  LLM.chain s = Some (LLMChain l T_DEFAULT ["question"]) ->
  LLM._get_default_response q query s
  = (LLM.invoke_llm q l (Prompts.DEFAULT_PROMPT query), s).
Proof.
  intros Hc. unfold LLM._get_default_response, bind at 1, LLM.attr. rewrite Hc.
  unfold bind. rewrite default_chain_answers.
  destruct (LLM.invoke_llm q l (Prompts.DEFAULT_PROMPT query)); [|reflexivity].
  rewrite lookup_insert_eq. reflexivity.
Qed.

(** A failing search hands the query to [_get_default_response]. *)
Lemma web_search_falls_back query e s :
  LLM.invoke_search q query = Raise e ->
  LLM._get_web_search_response q query s = LLM._get_default_response q query s.
Proof.
  intros Hs. unfold LLM._get_web_search_response, try_except.
  unfold bind at 1, LLM.attr.
  destruct (LLM.search_tool s); [|reflexivity].
  unfold bind at 1, extern. rewrite Hs. reflexivity.
Qed.

(** C8, on the code.  In web-search mode with the web-search chain in
    place, a failing search does not produce the default-mode answer: the
    fallback invokes the web-search chain without its search results, the
    chain raises, and get_response returns the apology for that error. *)
Theorem web_search_fallback_fails (query e : string) (l : ChatModel)
    (self : LLM.t) :
  0 <= AppConfig.MEMORY_MESSAGE_LIMIT app ->
  LLM.answer_mode self = AnswerMode.WEB_SEARCH ->
  LLM.chain self = Some (LLMChain l T_WEB_SEARCH ["question"; "search_results"]) ->
  LLM.invoke_search q
    (fst (PrivacyFilter.filter_text (LLM.privacy_filter self) query)) = Raise e ->
  fst (LLM.get_response app q query self)
  = Ok (LLM.error_msg "Missing some input keys: {'search_results'}", false).
Proof.
  intros HN Hmode Hchain Hsearch.
  pose proof (get_response_handles app q query self HN) as Hnr.
  assert (Htry : fst (LLM.get_response_try app q query self)
                 = Raise "Missing some input keys: {'search_results'}").
  { clear Hnr. unfold LLM.get_response_try.
    unfold bind at 1, gets at 1.
    destruct (PrivacyFilter.filter_text (LLM.privacy_filter self) query)
      as [filtered flag] eqn:Hf. simpl in Hsearch.
    unfold bind at 1. unfold LLM.mm at 1, on_field, MemoryManager.get_chat_history, gets at 1.
    cbn beta iota.
    replace (LLM.set_memory_manager (LLM.memory_manager self) self) with self
      by (destruct self; reflexivity).
    unfold bind at 1, gets at 1.
    destruct (engine_append_total app
                (AddUser (LLM.on_user q) filtered (LLM.session_id self)) self)
      as (mm' & Happ & _).
    simpl in Happ. unfold bind at 1. rewrite Happ.
    unfold bind at 1, gets at 1. cbn [LLM.answer_mode LLM.set_memory_manager].
    rewrite Hmode. unfold bind at 1.
    rewrite (web_search_falls_back filtered e) by assumption.
    rewrite (default_response_on_web_chain l) by (simpl; assumption).
    reflexivity. }
  destruct (LLM.get_response_try app q query self) as [[answer|e'] self1];
    simpl in Htry; [discriminate|].
  injection Htry as ->. destruct Hnr as (self2 & -> & _). reflexivity.
Qed.

(** Default mode on the default chain: the model is asked the default
    prompt and its reply is the answer. *)
Lemma default_mode_answer (query text : string) (l : ChatModel) (self : LLM.t) :
  LLM.answer_mode self = AnswerMode.DEFAULT ->
  LLM.chain self = Some (LLMChain l T_DEFAULT ["question"]) ->
  LLM.invoke_llm q l
    (Prompts.DEFAULT_PROMPT
       (fst (PrivacyFilter.filter_text (LLM.privacy_filter self) query))) = Ok text ->
  fst (LLM.get_response app q query self)
  = Ok (text, snd (PrivacyFilter.filter_text (LLM.privacy_filter self) query)).
Proof.
  intros Hmode Hchain Hllm.
  unfold LLM.get_response, try_except, LLM.get_response_try.
  unfold bind at 1, gets at 1.
  destruct (PrivacyFilter.filter_text (LLM.privacy_filter self) query)
    as [filtered flag] eqn:Hf. simpl in Hllm.
  unfold bind at 1. unfold LLM.mm at 1, on_field, MemoryManager.get_chat_history, gets at 1.
  cbn beta iota.
  replace (LLM.set_memory_manager (LLM.memory_manager self) self) with self
    by (destruct self; reflexivity).
  unfold bind at 1, gets at 1.
  destruct (engine_append_total app
              (AddUser (LLM.on_user q) filtered (LLM.session_id self)) self)
    as (mm' & Happ & _).
  simpl in Happ. unfold bind at 1. rewrite Happ.
  unfold bind at 1, gets at 1. cbn [LLM.answer_mode LLM.set_memory_manager].
  rewrite Hmode. unfold bind at 1.
  rewrite (default_response_on_default_chain l) by (simpl; assumption).
  rewrite Hllm. unfold bind at 1, gets at 1.
  match goal with
  | |- context [bind (LLM.mm (MemoryManager.add_ai_message app ?w ?m ?i)) _ ?s0] =>
      destruct (engine_append_total app (AddAi w m i) s0) as (mm'' & Happ' & _)
  end.
  cbn [do_append] in Happ'. unfold bind. rewrite Happ'. reflexivity.
Qed.

End FallbackFacts.

Lemma web_search_fallback_fails_witness :
  fst (LLM.get_response (AppConfig.load groq_and_tavily) search_down
         "What is the capital of France?" web_engine)
  = Ok ("I encountered an error processing your request: "
        +:+ "Missing some input keys: {'search_results'}", false)
  /\ fst (LLM.get_response (AppConfig.load groq_and_tavily) search_down
            "What is the capital of France?" default_engine)
     = Ok ("Paris.", false).
Proof.
  split.
  - apply (web_search_fallback_fails (AppConfig.load groq_and_tavily) search_down
             "What is the capital of France?" "connection timed out" ChatGroq
             web_engine).
    + simpl. lia.
    + reflexivity.
    + reflexivity.
    + reflexivity.
  - vm_compute. reflexivity.
Defined.

(* ===================================================================== *)
(** ** The engine: switching modes                                        *)
(* ===================================================================== *)

Section SwitchFacts.
Variable app : AppConfig.t.
Variable model : ModelConfig.t.
Variable b : LLM.build_env.

Lemma _initialize_default_chain_raises s e s' :
  LLM._initialize_default_chain b s = (Raise e, s') -> s' = s.
Proof.
  unfold LLM._initialize_default_chain. run_monad.
  destruct (LLM.llm s) as [l|]; [destruct (LLM.make_chain b _) as [[]|]|];
    intros H; inversion H; reflexivity.
Qed.

Lemma _initialize_rag_chain_raises s e s' :
  LLM._initialize_rag_chain b s = (Raise e, s') -> s' = s.
Proof.
  unfold LLM._initialize_rag_chain. run_monad.
  destruct (LLM.llm s) as [l|]; [destruct (LLM.make_chain b _) as [[]|]|];
    intros H; inversion H; reflexivity.
Qed.

Lemma _initialize_web_search_chain_raises s e s' :
  LLM._initialize_web_search_chain app b s = (Raise e, s') -> tool_only s s'.
Proof.
  unfold LLM._initialize_web_search_chain.
  destruct (key_missing (AppConfig.TAVILY_API_KEY app)).
  - intros H. left. eapply _initialize_default_chain_raises, H.
  - unfold try_except at 1.
    match goal with |- context [match ?m s with _ => _ end] =>
      destruct (m s) as [[[]|e0] s0] eqn:Hbody end.
    + discriminate.
    + intros H. apply _initialize_default_chain_raises in H. subst s'.
      revert Hbody. run_monad. unfold tool_only.
      destruct (LLM.tavily b) as [[]|]; [|intros H; inversion H; auto].
      cbn [LLM.llm LLM.set_search_tool].
      destruct (LLM.llm s) as [l|]; [destruct (LLM.make_chain b _) as [[]|]|];
        intros H; inversion H; auto.
Qed.

Lemma _initialize_chain_raises s e s' :
  LLM._initialize_chain app b s = (Raise e, s') -> tool_only s s'.
Proof.
  unfold LLM._initialize_chain, bind at 1, gets at 1.
  destruct (LLM.answer_mode s).
  - intros H. left. eapply _initialize_default_chain_raises, H.
  - intros H. left. eapply _initialize_rag_chain_raises, H.
  - apply _initialize_web_search_chain_raises.
Qed.

(** [_initialize_llm] writes nothing but the recorded provider. *)
Lemma _initialize_llm_frame s :
  exists p, snd (LLM._initialize_llm model b s) = LLM.set_model_provider p s.
Proof.
  unfold LLM._initialize_llm, LLM.construct. run_monad.
  destruct s as [vs mp am mem sid pf mgr l c t]. simpl.
  destruct mp; split_outcomes; simpl;
    first [ now exists ModelProvider.OPENAI | now exists ModelProvider.ANTHROPIC
          | now exists ModelProvider.GROQ | now exists ModelProvider.OLLAMA ].
Qed.

(** The memory manager never refuses a mode. *)
Lemma manager_change_memory_mode_returns chroma mode s :
  fst (MemoryManager.change_memory_mode chroma mode s) = Ok true
  /\ MemoryManager.transient_memory (snd (MemoryManager.change_memory_mode chroma mode s))
     = MemoryManager.transient_memory s
  /\ MemoryManager.sessions_dir (snd (MemoryManager.change_memory_mode chroma mode s))
     = MemoryManager.sessions_dir s.
Proof.
  unfold MemoryManager.change_memory_mode, MemoryManager._init_persistent_memory.
  run_monad. destruct s as [mode0 buf ef pm files]. cbn.
  destruct (MemoryMode.eqb mode mode0); [auto|]. cbn.
  destruct mode; cbn; [auto|].
  destruct pm; cbn; [auto|].
  destruct ef; cbn; [|auto].
  destruct chroma; cbn; auto.
Qed.

Lemma engine_change_memory_mode_spec mode s :
  fst (LLM.change_memory_mode b mode s) = Ok true
  /\ MemoryManager.transient_memory
       (LLM.memory_manager (snd (LLM.change_memory_mode b mode s)))
     = MemoryManager.transient_memory (LLM.memory_manager s)
  /\ MemoryManager.sessions_dir
       (LLM.memory_manager (snd (LLM.change_memory_mode b mode s)))
     = MemoryManager.sessions_dir (LLM.memory_manager s)
  /\ LLM.memory_mode (snd (LLM.change_memory_mode b mode s)) = mode
  /\ LLM.session_id (snd (LLM.change_memory_mode b mode s))
     = if MemoryMode.eqb mode MemoryMode.PERSISTENT && key_missing (LLM.session_id s)
       then Some (LLM.uuid4 b) else LLM.session_id s.
Proof.
  destruct (manager_change_memory_mode_returns (LLM.chroma b) mode
              (LLM.memory_manager s)) as (Hret & Hbuf & Hfiles).
  destruct (MemoryManager.change_memory_mode (LLM.chroma b) mode (LLM.memory_manager s))
    as [r mgr'] eqn:Hm.
  simpl in Hret, Hbuf, Hfiles. subst r.
  assert (E : LLM.change_memory_mode b mode s
              = (Ok true,
                 let s1 := LLM.set_memory_mode mode (LLM.set_memory_manager mgr' s) in
                 if MemoryMode.eqb mode MemoryMode.PERSISTENT
                    && key_missing (LLM.session_id s)
                 then LLM.set_session_id (Some (LLM.uuid4 b))
                        (LLM.set_memory_manager (LLM.memory_manager s1) s1)
                 else s1)).
  { unfold LLM.change_memory_mode, try_except.
    unfold bind at 1, LLM.mm at 1, on_field. rewrite Hm. cbn beta iota.
    unfold LLM.mm, on_field, MemoryManager.create_session. run_monad. cbn.
    destruct (MemoryMode.eqb mode MemoryMode.PERSISTENT && key_missing (LLM.session_id s));
      reflexivity. }
  rewrite E. cbn.
  destruct (MemoryMode.eqb mode MemoryMode.PERSISTENT && key_missing (LLM.session_id s));
    cbn; auto.
Qed.

(** The body shared by the two string-or-enum setters once the value is
    known to be a member. *)
Lemma change_answer_mode_fails m op' s r :
  r = try_except
        (bind (modify (LLM.set_answer_mode m))
           (fun _ => bind (LLM._initialize_chain app b) (fun _ => ret true)))
        (fun _ => ret false) s ->
  fst r = Ok false -> kept_by_failed_switch (ChangeAnswerMode op') s (snd r).
Proof.
  unfold try_except, bind at 1, modify at 1, bind at 1.
  destruct (LLM._initialize_chain app b (LLM.set_answer_mode m s))
    as [[[]|e] s2] eqn:Hc; intros ->; cbn; [discriminate|].
  intros _. apply _initialize_chain_raises in Hc.
  destruct Hc as [-> | ->]; repeat split.
Qed.

Lemma change_model_provider_fails p op' s r :
  r = try_except
        (bind (modify (LLM.set_model_provider p))
           (fun _ => bind (LLM._initialize_llm model b)
              (fun l => bind (modify (LLM.set_llm l))
                 (fun _ => bind (LLM._initialize_chain app b)
                    (fun _ => ret true)))))
        (fun _ => ret false) s ->
  fst r = Ok false -> kept_by_failed_switch (ChangeModelProvider op') s (snd r).
Proof.
  unfold try_except, bind at 1, modify at 1, bind at 1.
  destruct (_initialize_llm_frame (LLM.set_model_provider p s)) as [p' Hllm].
  destruct (LLM._initialize_llm model b (LLM.set_model_provider p s))
    as [[l|e] s2] eqn:Hl; simpl in Hllm; subst s2.
  - unfold bind at 1, modify at 1, bind at 1.
    match goal with |- context [LLM._initialize_chain app b ?s0] =>
      destruct (LLM._initialize_chain app b s0) as [[[]|e] s3] eqn:Hc end;
      intros ->; cbn; [discriminate|].
    intros _. apply _initialize_chain_raises in Hc.
    destruct Hc as [-> | ->]; repeat split.
  - intros ->. cbn. intros _. repeat split.
Qed.

End SwitchFacts.

(** A rejected value changes nothing. *)
Lemma invalid_value_rejected app model b op s :
  invalid_value op = true -> run_setter app model b op s = (Ok false, s).
Proof.
  destruct op as [[v|m]|[v|p]|m|e]; cbn [invalid_value]; try discriminate.
  - unfold run_setter, LLM.change_answer_mode, enum_of_value.
    destruct (find _ AnswerMode.members); [discriminate|]. reflexivity.
  - unfold run_setter, LLM.change_model_provider, enum_of_value.
    destruct (find _ ModelProvider.members); [discriminate|]. reflexivity.
Qed.

(** C5, as stated, fails: with no OpenAI key, switching the provider to
    openai reports failure and leaves the engine recording OPENAI while its
    client and chain are still Groq's. *)
Lemma switch_atomicity_counterexample :
  ~ (forall app model b op s,
       fst (run_setter app model b op s) = Ok false ->
       configuration (snd (run_setter app model b op s)) = configuration s).
Proof.
  intros H.
  specialize (H (AppConfig.load groq_and_tavily) (ModelConfig.load groq_and_tavily)
                builds_fine (ChangeModelProvider (LLM.Str "openai")) rag_engine
                eq_refl).
  vm_compute in H. discriminate.
Qed.

(** C5, amended.  A setter that reports failure leaves the active chain,
    the vector store, the memory, the filter, the memory mode and the
    session as they were, and leaves everything as it was when the value
    is rejected as invalid; besides, changeAnswerMode keeps provider and
    client, changeModelProvider keeps the answer mode, and changeMemoryMode
    and toggleFilter never report failure. *)
Theorem failed_switch_keeps_chain (app : AppConfig.t) (model : ModelConfig.t)
    (b : LLM.build_env) (op : setter) (s : LLM.t) :
  fst (run_setter app model b op s) = Ok false ->
  kept_by_failed_switch op s (snd (run_setter app model b op s))
  /\ (invalid_value op = true -> snd (run_setter app model b op s) = s).
Proof.
  intros Hfail. split.
  - destruct op as [[v|m]|[v|p]|m|e]; cbn [run_setter] in *.
    + unfold LLM.change_answer_mode, enum_of_value in *.
      destruct (find _ AnswerMode.members) as [m|].
      * eapply change_answer_mode_fails; [reflexivity|exact Hfail].
      * cbn. repeat split.
    + eapply change_answer_mode_fails; [reflexivity|exact Hfail].
    + unfold LLM.change_model_provider, enum_of_value in *.
      destruct (find _ ModelProvider.members) as [p|].
      * eapply change_model_provider_fails; [reflexivity|exact Hfail].
      * cbn. repeat split.
    + eapply change_model_provider_fails; [reflexivity|exact Hfail].
    + destruct (engine_change_memory_mode_spec b m s) as [Hok _]. congruence.
    + discriminate.
  - intros Hinv. now rewrite invalid_value_rejected.
Qed.

Lemma failed_switch_keeps_chain_witness :
  let r := run_setter (AppConfig.load groq_and_tavily)
             (ModelConfig.load groq_and_tavily) builds_fine
             (ChangeModelProvider (LLM.Str "openai")) rag_engine in
  fst r = Ok false
  /\ LLM.model_provider (snd r) = ModelProvider.OPENAI
  /\ LLM.llm (snd r) = Some ChatGroq
  /\ LLM.chain (snd r) = LLM.chain rag_engine.
Proof.
  cbv zeta. split; [reflexivity|]. split; [reflexivity|]. split; [reflexivity|].
  apply (failed_switch_keeps_chain (AppConfig.load groq_and_tavily)
           (ModelConfig.load groq_and_tavily) builds_fine
           (ChangeModelProvider (LLM.Str "openai")) rag_engine).
  reflexivity.
Defined.


(** C6, as stated, fails in its second half: switching an engine without
    a session to persistent mode gives it a session id. *)
Lemma no_auto_session_counterexample :
  ~ (forall b s,
       LLM.session_id s = None ->
       LLM.memory_mode s = MemoryMode.TRANSIENT ->
       LLM.session_id (snd (LLM.change_memory_mode b MemoryMode.PERSISTENT s)) = None).
Proof.
  intros H. specialize (H builds_fine rag_engine eq_refl eq_refl).
  vm_compute in H. discriminate.
Qed.

(** C6, amended.  Switching the memory mode, in either direction, always
    succeeds and leaves the transient buffer and the session files as they
    were; the engine then records the requested mode, and when the switch
    is to persistent mode and no session is active the engine's session id
    becomes a freshly generated one (no session file is written for it);
    otherwise the session id stays as it was. *)
Theorem change_memory_mode_frame (b : LLM.build_env) (mode : MemoryMode.t)
    (s : LLM.t) :
  fst (LLM.change_memory_mode b mode s) = Ok true
  /\ MemoryManager.transient_memory
       (LLM.memory_manager (snd (LLM.change_memory_mode b mode s)))
     = MemoryManager.transient_memory (LLM.memory_manager s)
  /\ MemoryManager.sessions_dir
       (LLM.memory_manager (snd (LLM.change_memory_mode b mode s)))
     = MemoryManager.sessions_dir (LLM.memory_manager s)
  /\ LLM.memory_mode (snd (LLM.change_memory_mode b mode s)) = mode
  /\ LLM.session_id (snd (LLM.change_memory_mode b mode s))
     = match mode, LLM.session_id s with
       | MemoryMode.PERSISTENT, None => Some (LLM.uuid4 b)
       | MemoryMode.PERSISTENT, Some sid =>
           if String.eqb sid EmptyString then Some (LLM.uuid4 b) else Some sid
       | MemoryMode.TRANSIENT, sid => sid
       end.
Proof.
  destruct (engine_change_memory_mode_spec b mode s) as (H1 & H2 & H3 & H4 & H5).
  repeat (split; [assumption|]).
  rewrite H5. destruct mode, (LLM.session_id s) as [sid|]; reflexivity.
Qed.

(* ===================================================================== *)
(** ** Fallback chains and the recorded provider                          *)
(* ===================================================================== *)

(** What [_initialize_embeddings] returns, and what it records. *)
Lemma _initialize_embeddings_spec (w : VectorStore.env) (s : VectorStore.t) :
  exists e p,
    VectorStore._initialize_embeddings w s
      = (Ok e, VectorStore.set_embedding_provider p s)
    /\ match e with
       | FallbackEmbeddings => p = EmbeddingProvider.OLLAMA
       | HuggingFaceEmbeddings | OllamaEmbeddings => VectorStore.provider_of e = Some p
       end.
Proof.
  unfold VectorStore._initialize_embeddings, VectorStore._initialize_ollama_embeddings,
    VectorStore._get_fallback_embeddings.
  run_monad. destruct s as [path p e0]. cbn.
  destruct p; cbn.
  - destruct (VectorStore.huggingface w) as [[]|]; cbn.
    + exists HuggingFaceEmbeddings, EmbeddingProvider.HUGGINGFACE. auto.
    + destruct (VectorStore.ollama_tags w) as [code|]; cbn.
      * destruct (code =? 200); cbn.
        -- destruct (VectorStore.ollama w) as [[]|]; cbn.
           ++ exists OllamaEmbeddings, EmbeddingProvider.OLLAMA. auto.
           ++ exists FallbackEmbeddings, EmbeddingProvider.OLLAMA. auto.
        -- exists FallbackEmbeddings, EmbeddingProvider.OLLAMA. auto.
      * exists FallbackEmbeddings, EmbeddingProvider.OLLAMA. auto.
  - destruct (VectorStore.ollama_tags w) as [code|]; cbn.
    + destruct (code =? 200); cbn.
      * destruct (VectorStore.ollama w) as [[]|]; cbn.
        -- exists OllamaEmbeddings, EmbeddingProvider.OLLAMA. auto.
        -- exists FallbackEmbeddings, EmbeddingProvider.OLLAMA. auto.
      * exists FallbackEmbeddings, EmbeddingProvider.OLLAMA. auto.
    + exists FallbackEmbeddings, EmbeddingProvider.OLLAMA. auto.
Qed.

(** What [_initialize_llm] returns is the client of the provider it
    leaves recorded. *)
Lemma _initialize_llm_spec (model : ModelConfig.t) (b : LLM.build_env) (s : LLM.t) :
  match LLM._initialize_llm model b s with
  | (Ok c, s') => LLM.model_provider s' = client_provider c
  | (Raise _, _) => True
  end.
Proof.
  unfold LLM._initialize_llm, LLM.construct. run_monad.
  destruct s as [vs mp am mem sid pf mgr l c t]. cbn.
  destruct mp; split_outcomes; cbn; auto.
Qed.

(** C9, as stated, fails at the last tier: with HuggingFace and Ollama
    both out of reach the store runs on the hash-based embedding while it
    records OLLAMA as its provider. *)
Lemma recorded_provider_counterexample :
  ~ (forall w s e s',
       VectorStore._initialize_embeddings w s = (Ok e, s') ->
       VectorStore.provider_of e = Some (VectorStore.embedding_provider s')).
Proof.
  intros H.
  specialize (H offline
                {| VectorStore.path := "data";
                   VectorStore.embedding_provider := EmbeddingProvider.HUGGINGFACE;
                   VectorStore.embeddings := None |}
                FallbackEmbeddings
                {| VectorStore.path := "data";
                   VectorStore.embedding_provider := EmbeddingProvider.OLLAMA;
                   VectorStore.embeddings := None |}
                eq_refl).
  discriminate H.
Qed.

(** C9, amended.  After the language-model fallback (Ollama to Groq) the
    recorded model provider is the provider of the client returned; after
    embedding initialisation, which always returns, the recorded embedding
    provider is the provider of the client returned whenever that client
    is HuggingFace's or Ollama's, and it is OLLAMA when the hash-based
    last resort is returned. *)
Theorem recorded_provider_after_fallback :
  (forall (model : ModelConfig.t) (b : LLM.build_env) (s : LLM.t),
     match LLM._initialize_llm model b s with
     | (Ok c, s') => LLM.model_provider s' = client_provider c
     | (Raise _, _) => True
     end)
  /\ (forall (w : VectorStore.env) (s : VectorStore.t),
        exists e s',
          VectorStore._initialize_embeddings w s = (Ok e, s')
          /\ match e with
             | FallbackEmbeddings =>
                 VectorStore.embedding_provider s' = EmbeddingProvider.OLLAMA
             | HuggingFaceEmbeddings | OllamaEmbeddings =>
                 VectorStore.provider_of e = Some (VectorStore.embedding_provider s')
             end).
Proof.
  split.
  - apply _initialize_llm_spec.
  - intros w s. destruct (_initialize_embeddings_spec w s) as (e & p & Heq & Hp).
    exists e, (VectorStore.set_embedding_provider p s). split; [assumption|].
    destruct e; cbn; assumption.
Qed.

(** The Ollama-to-Groq fallback, run: the engine records GROQ and holds
    Groq's client. *)
Example ollama_falls_back_to_groq :
  LLM._initialize_llm (ModelConfig.load groq_and_tavily)
    {| LLM.chat_model := fun c => match c with
                                  | ChatOllama => Raise "connection refused"
                                  | _ => Ok tt
                                  end;
       LLM.ollama_test := Raise "connection refused";
       LLM.make_chain := fun _ => Ok tt; LLM.tavily := Ok tt;
       LLM.chroma := Ok []; LLM.uuid4 := "u" |}
    (LLM.set_model_provider ModelProvider.OLLAMA rag_engine)
  = (Ok ChatGroq, rag_engine).
Proof. reflexivity. Qed.

(* ===================================================================== *)
(** ** Strings                                                            *)
(* ===================================================================== *)

Section StringFacts.

Lemma append_cons c s t : String c s +:+ t = String c (s +:+ t).
Proof. reflexivity. Qed.

Lemma append_empty_r s : s +:+ EmptyString = s.
Proof. induction s as [|c s IH]; [reflexivity|]. now rewrite append_cons, IH. Qed.

Lemma append_assoc s t u : (s +:+ t) +:+ u = s +:+ (t +:+ u).
Proof. induction s as [|c s IH]; [reflexivity|]. now rewrite !append_cons, IH. Qed.

Lemma length_append s t :
  String.length (s +:+ t) = (String.length s + String.length t)%nat.
Proof.
  induction s as [|c s IH]; [reflexivity|]. rewrite append_cons. simpl. now rewrite IH.
Qed.

Lemma length_take n : forall s,
  String.length (Str.take n s) = Nat.min n (String.length s).
Proof.
  induction n as [|n IH]; intros [|c s]; simpl; try reflexivity. now rewrite IH.
Qed.

Lemma contains_char_append ch s t :
  Str.contains_char ch (s +:+ t) = Str.contains_char ch s || Str.contains_char ch t.
Proof.
  induction s as [|c s IH]; [reflexivity|].
  rewrite append_cons. simpl. rewrite IH. now rewrite orb_assoc.
Qed.

Lemma contains_char_take ch n : forall s,
  Str.contains_char ch s = false -> Str.contains_char ch (Str.take n s) = false.
Proof.
  induction n as [|n IH]; intros [|c s] H; simpl in *; try reflexivity.
  apply orb_false_elim in H as [-> H]. simpl. now apply IH.
Qed.

(** No part of a split contains the separator. *)
Lemma split_parts_clean sep s :
  Forall (fun part => Str.contains_char sep part = false) (Str.split sep s).
Proof.
  induction s as [|c s IH]; simpl.
  - repeat constructor.
  - destruct (Ascii.eqb c sep) eqn:Hc.
    + constructor; [reflexivity|assumption].
    + destruct (Str.split sep s) as [|h r].
      * repeat constructor. simpl. now rewrite Hc.
      * inversion IH as [|? ? Hh Hr]; subst. constructor; [|assumption].
        simpl. now rewrite Hc, Hh.
Qed.

End StringFacts.

(* ===================================================================== *)
(** ** Session files                                                      *)
(* ===================================================================== *)

(** X1.  The title extracted from a message has at most 30 characters and
    is a single line. *)
Theorem extract_title_bound (content : string) :
  (String.length (MemoryManager._extract_title content) <= 30)%nat
  /\ Str.contains_char Str.newline (MemoryManager._extract_title content) = false.
Proof.
  unfold MemoryManager._extract_title.
  pose proof (split_parts_clean Str.newline (Str.strip content)) as Hclean.
  assert (Hline : Str.contains_char Str.newline
                    (hd EmptyString (Str.split Str.newline (Str.strip content))) = false).
  { destruct (Str.split Str.newline (Str.strip content)); [reflexivity|].
    now inversion Hclean. }
  set (title := hd EmptyString (Str.split Str.newline (Str.strip content))) in *.
  destruct (Nat.ltb_spec 30 (String.length title)) as [Hlong|Hshort].
  - split.
    + rewrite length_append, length_take.
      change (String.length "...") with 3%nat. lia.
    + rewrite contains_char_append, contains_char_take by assumption. reflexivity.
  - split; [lia|assumption].
Qed.

Section PersistenceFacts.
Import MemoryManager.
Variable cfg : AppConfig.t.

(** An append is the buffer update followed, when the session is to be
    persisted, by [_add_to_persistent_memory] on the trimmed state. *)
Lemma do_append_decompose (a : append) (s : MemoryManager.t) :
  exists s1,
    sessions_dir s1 = sessions_dir s
    /\ persistent_memory s1 = persistent_memory s
    /\ memory_mode s1 = memory_mode s
    /\ do_append cfg a s
       = match persists s1 (append_session a) with
         | Some sid =>
             _add_to_persistent_memory (append_env a) (role (entry_of a))
               (content (entry_of a)) sid s1
         | None => (Ok tt, s1)
         end.
Proof.
  destruct (_trim_transient_memory_total cfg
              (set_transient_memory (transient_memory s ++ [appended a]) s))
    as (buf & Htrim & _).
  exists (set_transient_memory buf
            (set_transient_memory (transient_memory s ++ [appended a]) s)).
  repeat split.
  destruct a as [w message sid | w message sid]; cbn [do_append appended] in *;
    unfold add_user_message, add_ai_message;
    unfold bind at 1, modify at 1; cbn beta iota;
    unfold bind at 1; rewrite Htrim; cbn beta iota;
    unfold bind at 1, gets at 1; cbn beta iota;
    cbn [append_session append_env entry_of role content];
    match goal with |- context [persists ?x ?y] => destruct (persists x y) end;
    reflexivity.
Qed.

Lemma persists_spec (s : MemoryManager.t) (sid : option string) :
  persists s sid
  = if MemoryMode.eqb (memory_mode s) MemoryMode.PERSISTENT && negb (key_missing sid)
    then sid else None.
Proof.
  unfold persists, key_missing.
  destruct (memory_mode s), sid as [x|]; cbn; try reflexivity.
  destruct (String.eqb x EmptyString); reflexivity.
Qed.

(** What a successful write leaves in the session file. *)
Lemma persist_writes w role0 content0 sid s docs :
  persistent_memory s = Some docs ->
  add_documents w = Ok tt ->
  write_file w sid = Ok tt ->
  exists d',
    sessions_dir (snd (_add_to_persistent_memory w role0 content0 sid s))
      = <[sid := d']> (sessions_dir s)
    /\ messages d'
       = stored_messages s sid
         ++ [{| role := role0; content := content0; timestamp := now w |}]
    /\ updated_at d' = now w
    /\ match sessions_dir s !! sid with
       | Some d =>
           session_id d' = session_id d /\ created_at d' = created_at d
           /\ (messages d <> [] -> title d' = title d)
       | None =>
           session_id d' = sid /\ created_at d' = now w
           /\ title d' = if String.eqb role0 "user" then _extract_title content0
                         else "New Chat"
       end
    /\ (exists doc, persistent_memory (snd (_add_to_persistent_memory w role0 content0 sid s))
                    = Some (docs ++ [doc]) /\ page_content doc = content0)
    /\ memory_mode (snd (_add_to_persistent_memory w role0 content0 sid s))
       = memory_mode s.
Proof.
  intros Hpm Hadd Hwrite.
  unfold _add_to_persistent_memory, _update_session_metadata, stored_messages.
  unfold try_except, bind, gets, raise, extern, ret, modify.
  rewrite Hpm, Hadd. cbn. rewrite Hwrite. cbn.
  eexists. split; [reflexivity|]. cbn.
  destruct (sessions_dir s !! sid) as [d|]; cbn.
  - repeat split; eauto.
    intros Hne. rewrite length_app.
    destruct (Nat.eqb_spec (length (messages d) + length [{| role := role0;
                content := content0; timestamp := now w |}]) 1) as [H1|H1];
      [|reflexivity].
    destruct (messages d); [congruence|]. simpl in H1. lia.
  - repeat split; eauto.
    destruct (String.eqb role0 "user"); reflexivity.
Qed.

(** What a refused write leaves: the document is in the store, and no
    session file has changed. *)
Lemma persist_unwritten w role0 content0 sid s docs e :
  persistent_memory s = Some docs ->
  add_documents w = Ok tt ->
  write_file w sid = Raise e ->
  sessions_dir (snd (_add_to_persistent_memory w role0 content0 sid s))
    = sessions_dir s
  /\ (exists doc, persistent_memory (snd (_add_to_persistent_memory w role0 content0 sid s))
                  = Some (docs ++ [doc]) /\ page_content doc = content0)
  /\ memory_mode (snd (_add_to_persistent_memory w role0 content0 sid s))
     = memory_mode s.
Proof.
  intros Hpm Hadd Hwrite.
  unfold _add_to_persistent_memory, _update_session_metadata.
  unfold try_except, bind, gets, raise, extern, ret, modify.
  rewrite Hpm, Hadd. cbn. rewrite Hwrite. cbn.
  split; [reflexivity|]. split; [|reflexivity].
  eexists. split; reflexivity.
Qed.

Lemma persist_skips w role0 content0 sid s :
  persistent_memory s = None \/ is_ok (add_documents w) = false ->
  snd (_add_to_persistent_memory w role0 content0 sid s) = s.
Proof.
  unfold _add_to_persistent_memory.
  unfold try_except, bind, gets, raise, extern, ret, modify.
  intros [Hpm|Hadd].
  - rewrite Hpm. reflexivity.
  - destruct (persistent_memory s); [|reflexivity].
    destruct (add_documents w); [discriminate|reflexivity].
Qed.

Lemma persisted_true s a :
  persisted s a = true ->
  memory_mode s = MemoryMode.PERSISTENT
  /\ (exists sid, append_session a = Some sid /\ sid <> EmptyString)
  /\ (exists docs, persistent_memory s = Some docs)
  /\ add_documents (append_env a) = Ok tt.
Proof.
  unfold persisted. rewrite !andb_true_iff.
  intros [[[Hmode Hsid] Hpm] Hadd]. repeat split.
  - destruct (memory_mode s); [discriminate|reflexivity].
  - destruct (append_session a) as [sid|]; [|discriminate]. exists sid.
    split; [reflexivity|]. intros ->. discriminate.
  - apply bool_decide_eq_true in Hpm. destruct Hpm as [docs Hd]. eauto.
  - destruct (add_documents (append_env a)) as [[]|]; [reflexivity|discriminate].
Qed.

End PersistenceFacts.

(** The effect of an append that reaches the persistent store. *)
Lemma append_persisted_spec (cfg : AppConfig.t) (a : append)
    (s : MemoryManager.t) (sid : string) :
  persisted s a = true ->
  append_session a = Some sid ->
  let s' := snd (do_append cfg a s) in
  (exists docs doc,
      MemoryManager.persistent_memory s = Some docs
      /\ MemoryManager.persistent_memory s' = Some (docs ++ [doc])
      /\ page_content doc = MemoryManager.content (entry_of a))
  /\ MemoryManager.memory_mode s' = MemoryManager.memory_mode s
  /\ match MemoryManager.write_file (append_env a) sid with
     | Raise _ => MemoryManager.sessions_dir s' = MemoryManager.sessions_dir s
     | Ok _ =>
         stored_messages s' sid = stored_messages s sid ++ [entry_of a]
         /\ (forall other, other <> sid ->
               MemoryManager.sessions_dir s' !! other
               = MemoryManager.sessions_dir s !! other)
         /\ (exists d',
               MemoryManager.sessions_dir s' !! sid = Some d'
               /\ MemoryManager.updated_at d' = MemoryManager.now (append_env a)
               /\ match MemoryManager.sessions_dir s !! sid with
                  | Some d =>
                      MemoryManager.session_id d' = MemoryManager.session_id d
                      /\ MemoryManager.created_at d' = MemoryManager.created_at d
                      /\ (MemoryManager.messages d <> [] ->
                          MemoryManager.title d' = MemoryManager.title d)
                  | None =>
                      MemoryManager.session_id d' = sid
                      /\ MemoryManager.created_at d'
                         = MemoryManager.now (append_env a)
                      /\ MemoryManager.title d'
                         = match a with
                           | AddUser _ message _ =>
                               MemoryManager._extract_title message
                           | AddAi _ _ _ => "New Chat"
                           end
                  end)
     end.
Proof.
  intros Hp Hsid s'. subst s'.
  apply persisted_true in Hp as (Hmode & (sid' & Hsid' & Hne) & (docs & Hpm) & Hadd).
  rewrite Hsid in Hsid'. injection Hsid' as <-.
  destruct (do_append_decompose cfg a s) as (s1 & Hfiles & Hpm1 & Hmode1 & ->).
  rewrite persists_spec, Hmode1, Hmode, Hsid. cbn.
  apply String.eqb_neq in Hne. rewrite Hne. cbn.
  destruct (MemoryManager.write_file (append_env a) sid) as [[]|e] eqn:Hwrite.
  - destruct (persist_writes (append_env a) (MemoryManager.role (entry_of a))
                (MemoryManager.content (entry_of a)) sid s1 docs)
      as (d' & Hdir & Hmsgs & Hupd & Hold & (doc & Hdocs & Hdoc) & Hm);
      [congruence|assumption|assumption|].
    assert (Hstored : stored_messages s1 sid = stored_messages s sid)
      by (unfold stored_messages; now rewrite Hfiles).
    rewrite Hfiles in Hdir, Hold. rewrite Hstored in Hmsgs.
    split; [exists docs, doc; repeat split; assumption|].
    split; [congruence|].
    split; [|split].
    + unfold stored_messages at 1. rewrite Hdir, lookup_insert_eq, Hmsgs.
      destruct a; reflexivity.
    + intros other Hother. rewrite Hdir. now apply lookup_insert_ne.
    + exists d'. rewrite Hdir, lookup_insert_eq. split; [reflexivity|].
      split; [assumption|].
      destruct (MemoryManager.sessions_dir s !! sid); [assumption|].
      destruct Hold as (? & ? & Ht). repeat split; try assumption.
      rewrite Ht. destruct a; reflexivity.
  - destruct (persist_unwritten (append_env a) (MemoryManager.role (entry_of a))
                (MemoryManager.content (entry_of a)) sid s1 docs e)
      as (Hdir & (doc & Hdocs & Hdoc) & Hm);
      [congruence|assumption|assumption|].
    split; [exists docs, doc; repeat split; assumption|].
    split; congruence.
Qed.

(** X2.  An append that reaches the persistent store (persistent mode, a
    session id that is not empty, a store that accepts the document) adds
    one document to the store.  When the session file can then be opened
    for writing, the append adds exactly its own entry at the end of the
    messages of that file and stamps the file with the current time; the
    files of other sessions are untouched; an existing file keeps its id
    and creation time, and its title once it holds a message; a new file
    takes its title from the message when the user wrote it and is called
    New Chat otherwise.  When the file cannot be opened for writing (the
    id a/b names a directory that does not exist), no session file
    changes, although the document is in the store. *)
Theorem append_writes_session_file (cfg : AppConfig.t) (a : append)
    (s : MemoryManager.t) (sid : string) :
  persisted s a = true ->
  append_session a = Some sid ->
  let s' := snd (do_append cfg a s) in
  (exists docs doc,
      MemoryManager.persistent_memory s = Some docs
      /\ MemoryManager.persistent_memory s' = Some (docs ++ [doc])
      /\ page_content doc = MemoryManager.content (entry_of a))
  /\ match MemoryManager.write_file (append_env a) sid with
     | Raise _ => MemoryManager.sessions_dir s' = MemoryManager.sessions_dir s
     | Ok _ =>
         stored_messages s' sid = stored_messages s sid ++ [entry_of a]
         /\ (forall other, other <> sid ->
               MemoryManager.sessions_dir s' !! other
               = MemoryManager.sessions_dir s !! other)
         /\ (exists d',
               MemoryManager.sessions_dir s' !! sid = Some d'
               /\ MemoryManager.updated_at d' = MemoryManager.now (append_env a)
               /\ match MemoryManager.sessions_dir s !! sid with
                  | Some d =>
                      MemoryManager.session_id d' = MemoryManager.session_id d
                      /\ MemoryManager.created_at d' = MemoryManager.created_at d
                      /\ (MemoryManager.messages d <> [] ->
                          MemoryManager.title d' = MemoryManager.title d)
                  | None =>
                      MemoryManager.session_id d' = sid
                      /\ MemoryManager.created_at d'
                         = MemoryManager.now (append_env a)
                      /\ MemoryManager.title d'
                         = match a with
                           | AddUser _ message _ =>
                               MemoryManager._extract_title message
                           | AddAi _ _ _ => "New Chat"
                           end
                  end)
     end.
Proof.
  intros Hp Hsid s'.
  destruct (append_persisted_spec cfg a s sid Hp Hsid) as (H1 & _ & H2).
  split; assumption.
Qed.

Lemma append_writes_session_file_witness :
  let s' := snd (do_append (AppConfig.load no_keys)
                   (AddUser calm "and then?" (Some "s-1")) busy_manager) in
  let lost := snd (do_append (AppConfig.load no_keys)
                     (AddUser no_subdirectories "and then?" (Some "a/b"))
                     busy_manager) in
  map MemoryManager.content (stored_messages s' "s-1") = ["hello"; "hi"; "and then?"]
  /\ (MemoryManager.title <$> MemoryManager.sessions_dir s' !! "s-1") = Some "hello"
  /\ MemoryManager.sessions_dir lost = MemoryManager.sessions_dir busy_manager.
Proof.
  cbv zeta.
  pose proof (append_writes_session_file (AppConfig.load no_keys)
                (AddUser calm "and then?" (Some "s-1")) busy_manager "s-1"
                eq_refl eq_refl) as [_ Hwritten].
  pose proof (append_writes_session_file (AppConfig.load no_keys)
                (AddUser no_subdirectories "and then?" (Some "a/b"))
                busy_manager "a/b" eq_refl eq_refl) as [_ Hlost].
  cbv zeta in Hwritten, Hlost.
  change (MemoryManager.write_file
            (append_env (AddUser calm "and then?" (Some "s-1"))) "s-1")
    with (@Ok unit tt) in Hwritten.
  change (MemoryManager.write_file
            (append_env (AddUser no_subdirectories "and then?" (Some "a/b"))) "a/b")
    with (@Raise unit "No such file or directory") in Hlost.
  cbv beta iota in Hwritten, Hlost.
  destruct Hwritten as (Hmsgs & _ & _).
  split; [rewrite Hmsgs; vm_compute; reflexivity|].
  split; [vm_compute; reflexivity|exact Hlost].
Defined.

(** X3.  An append that does not reach the persistent store (transient
    mode, no session id or an empty one, no store, or a store that
    refuses the document) writes no session file and no document. *)
Theorem append_without_store_writes_nothing (cfg : AppConfig.t) (a : append)
    (s : MemoryManager.t) :
  persisted s a = false ->
  MemoryManager.sessions_dir (snd (do_append cfg a s)) = MemoryManager.sessions_dir s
  /\ MemoryManager.persistent_memory (snd (do_append cfg a s))
     = MemoryManager.persistent_memory s.
Proof.
  intros Hp.
  destruct (do_append_decompose cfg a s) as (s1 & Hfiles & Hpm1 & Hmode1 & ->).
  rewrite persists_spec, Hmode1. unfold persisted in Hp.
  destruct (MemoryMode.eqb (MemoryManager.memory_mode s) MemoryMode.PERSISTENT
            && negb (key_missing (append_session a))) eqn:Hgo; cbn in Hp.
  - destruct (append_session a) as [sid|]; [|now split].
    rewrite persist_skips; [now split|].
    rewrite Hpm1.
    destruct (MemoryManager.persistent_memory s); cbn in Hp; [right; assumption|left; reflexivity].
  - destruct (append_session a); now split.
Qed.

Lemma append_without_store_writes_nothing_witness :
  MemoryManager.sessions_dir
    (snd (do_append (AppConfig.load no_keys)
            (AddUser {| MemoryManager.now := "2024-05-01T10:01:00";
                        MemoryManager.add_documents := Raise "disk full";
                        MemoryManager.write_file := fun _ => Ok tt |}
                     "lost?" (Some "s-1")) busy_manager))
  = MemoryManager.sessions_dir busy_manager.
Proof.
  apply (append_without_store_writes_nothing (AppConfig.load no_keys)
           (AddUser {| MemoryManager.now := "2024-05-01T10:01:00";
                       MemoryManager.add_documents := Raise "disk full";
                        MemoryManager.write_file := fun _ => Ok tt |}
                    "lost?" (Some "s-1")) busy_manager).
  reflexivity.
Defined.

Section RoundTripFacts.
Import MemoryManager.
Variable cfg : AppConfig.t.

Lemma replay_entry_of (a : append) : replay (entry_of a) = appended a.
Proof. destruct a; reflexivity. Qed.

(** Loading a session that has a file, in persistent mode. *)
Lemma load_session_found sid s d :
  0 < AppConfig.MEMORY_MESSAGE_LIMIT cfg ->
  memory_mode s = MemoryMode.PERSISTENT ->
  sessions_dir s !! sid = Some d ->
  load_session cfg sid s
  = (Ok true,
     set_transient_memory
       (most_recent (Z.to_nat (AppConfig.MEMORY_MESSAGE_LIMIT cfg))
          (map replay (messages d))) s).
Proof.
  intros HN Hmode Hfile. unfold load_session.
  unfold bind at 1. unfold gets at 1. rewrite Hmode. simpl.
  unfold try_except, bind at 1, modify at 1.
  unfold bind at 1, gets at 1. simpl. rewrite Hfile.
  unfold bind at 1, modify at 1. simpl.
  unfold bind at 1. rewrite _trim_transient_memory_spec by assumption.
  simpl. unfold ret. rewrite replay_loop. simpl.
  destruct s; reflexivity.
Qed.

(** A run of appends that all reach the store of one session. *)
Lemma run_appends_persisted sid ops : forall s,
  memory_mode s = MemoryMode.PERSISTENT ->
  is_Some (persistent_memory s) ->
  sid <> EmptyString ->
  Forall (fun a => append_session a = Some sid
                   /\ add_documents (append_env a) = Ok tt
                   /\ write_file (append_env a) sid = Ok tt) ops ->
  stored_messages (run_appends cfg ops s) sid
    = stored_messages s sid ++ map entry_of ops
  /\ memory_mode (run_appends cfg ops s) = MemoryMode.PERSISTENT.
Proof.
  induction ops as [|a ops IH]; intros s Hmode Hpm Hsid Hall.
  - cbn. now rewrite app_nil_r.
  - inversion Hall as [|? ? (Ha & Hadd & Hwrite) Hrest]; subst.
    assert (Hp : persisted s a = true).
    { unfold persisted. rewrite Hmode, Ha, Hadd. cbn.
      apply String.eqb_neq in Hsid. rewrite Hsid. cbn.
      rewrite andb_true_r. now apply bool_decide_eq_true. }
    destruct (append_persisted_spec cfg a s sid Hp Ha)
      as ((docs & doc & _ & Hdocs & _) & Hm & Hfile).
    rewrite Hwrite in Hfile. destruct Hfile as (Hmsgs & _ & _).
    unfold run_appends in *. cbn [foldl].
    destruct (IH (snd (do_append cfg a s))) as [IHm IHmode];
      [congruence| rewrite Hdocs; eauto |assumption|assumption|].
    split; [|assumption].
    rewrite IHm, Hmsgs, <- app_assoc. reflexivity.
Qed.

End RoundTripFacts.

(** X4.  Round trip through the session file.  In persistent mode with a
    working store, after a non-empty run of appends made under one session
    id whose file can be opened for writing at each append, the session
    file holds its earlier messages followed by one entry per append, in
    order, and loading that session returns True with the buffer holding
    the N most recent of them, as human and AI messages. *)
Theorem persisted_history_round_trip (cfg : AppConfig.t) (ops : list append)
    (s : MemoryManager.t) (sid : string) :
  0 < AppConfig.MEMORY_MESSAGE_LIMIT cfg ->
  MemoryManager.memory_mode s = MemoryMode.PERSISTENT ->
  is_Some (MemoryManager.persistent_memory s) ->
  sid <> EmptyString ->
  ops <> [] ->
  Forall (fun a => append_session a = Some sid
                   /\ MemoryManager.add_documents (append_env a) = Ok tt
                   /\ MemoryManager.write_file (append_env a) sid = Ok tt) ops ->
  let s' := run_appends cfg ops s in
  stored_messages s' sid = stored_messages s sid ++ map entry_of ops
  /\ fst (MemoryManager.load_session cfg sid s') = Ok true
  /\ MemoryManager.transient_memory (snd (MemoryManager.load_session cfg sid s'))
     = most_recent (Z.to_nat (AppConfig.MEMORY_MESSAGE_LIMIT cfg))
         (map MemoryManager.replay (stored_messages s sid) ++ map appended ops).
Proof.
  intros HN Hmode Hpm Hsid Hops Hall s'. subst s'.
  destruct (run_appends_persisted cfg sid ops s Hmode Hpm Hsid Hall) as [Hm Hmode'].
  split; [assumption|].
  unfold stored_messages at 1 in Hm.
  destruct (MemoryManager.sessions_dir (run_appends cfg ops s) !! sid) as [d|] eqn:Hd.
  - rewrite (load_session_found cfg sid _ d HN Hmode' Hd). cbn.
    split; [reflexivity|].
    rewrite Hm, map_app, map_map. f_equal. f_equal.
    apply map_ext. intros a. apply replay_entry_of.
  - destruct ops; [congruence|]. destruct (stored_messages s sid); discriminate.
Qed.

Lemma persisted_history_round_trip_witness :
  let s' := run_appends (AppConfig.load no_keys)
              [AddUser calm "and then?" (Some "s-1"); AddAi calm "the end" (Some "s-1")]
              busy_manager in
  MemoryManager.transient_memory
    (snd (MemoryManager.load_session (AppConfig.load no_keys) "s-1" s'))
  = [HumanMessage "hello"; AIMessage "hi"; HumanMessage "and then?"; AIMessage "the end"].
Proof.
  cbv zeta.
  destruct (persisted_history_round_trip (AppConfig.load no_keys)
              [AddUser calm "and then?" (Some "s-1"); AddAi calm "the end" (Some "s-1")]
              busy_manager "s-1") as (_ & _ & Hbuf).
  - simpl. lia.
  - reflexivity.
  - vm_compute. eexists. reflexivity.
  - discriminate.
  - discriminate.
  - repeat constructor.
  - rewrite Hbuf. vm_compute. reflexivity.
Defined.

Section SessionListingFacts.
Import MemoryManager.

Lemma endswith_append suffix k : Str.endswith suffix (k +:+ suffix) = true.
Proof.
  induction k as [|c k IH].
  - change (EmptyString +:+ suffix) with suffix.
    destruct suffix; cbn [Str.endswith]; rewrite String.eqb_refl; reflexivity.
  - rewrite append_cons. cbn [Str.endswith]. rewrite IH. apply orb_true_r.
Qed.

Lemma take_append k : forall t, Str.take (String.length k) (k +:+ t) = k.
Proof.
  induction k as [|c k IH]; intros t.
  - destruct t; reflexivity.
  - rewrite append_cons. simpl. now rewrite IH.
Qed.

Lemma stem_json k : stem (k +:+ ".json") = k.
Proof.
  unfold stem, Str.upto, Str.bound. rewrite length_append.
  change (String.length ".json") with 5%nat.
  replace (Z.to_nat _) with (String.length k).
  - apply take_append.
  - destruct (Z.ltb_spec (-5) 0); lia.
Qed.

Lemma for_each_app {S A} (l1 l2 : list A) (body : A -> M S unit) s s1 :
  for_each l1 body s = (Ok tt, s1) ->
  for_each (l1 ++ l2) body s = for_each l2 body s1.
Proof.
  revert s. induction l1 as [|x l1 IH]; intros s H; cbn [for_each app] in *.
  - unfold ret in H. now injection H as ->.
  - unfold bind in *. destruct (body x s) as [[[]|e] s0]; [|discriminate].
    now apply IH.
Qed.

(** The loop of [get_all_sessions] over names that are all session files. *)
Lemma read_summaries files sids : forall sessions,
  Forall (fun sid => is_Some (files !! sid)) sids ->
  for_each ((fun sid => sid +:+ ".json") <$> sids) (read_summary files) sessions
  = (Ok tt, sessions ++ omap (fun sid => summarise <$> files !! sid) sids).
Proof.
  induction sids as [|sid sids IH]; intros sessions Hall; cbn [for_each fmap list_fmap].
  - unfold ret. now rewrite app_nil_r.
  - inversion Hall as [|? ? [d Hd] Hrest]; subst.
    unfold bind, read_summary at 1. rewrite endswith_append, stem_json, Hd.
    unfold modify. rewrite IH by assumption.
    cbn [omap list_omap]. rewrite Hd. cbn. now rewrite <- app_assoc.
Qed.

Lemma insert_newest_first_perm x l : insert_newest_first x l ≡ₚ x :: l.
Proof.
  induction l as [|y l IH]; cbn; [reflexivity|].
  destruct (String.ltb _ _); [|reflexivity].
  rewrite IH. apply perm_swap.
Qed.

Lemma sort_newest_first_perm l : sort_newest_first l ≡ₚ l.
Proof.
  induction l as [|x l IH]; cbn; [reflexivity|].
  rewrite insert_newest_first_perm. now constructor.
Qed.

Lemma ltb_not_older x y :
  String.ltb (Summary.updated_at x) (Summary.updated_at y) = true -> not_older y x.
Proof.
  unfold not_older, String.ltb, String.leb.
  destruct (String.compare (Summary.updated_at x) (Summary.updated_at y));
    intros; congruence.
Qed.

Lemma not_ltb_not_older x y :
  String.ltb (Summary.updated_at x) (Summary.updated_at y) = false -> not_older x y.
Proof.
  unfold not_older, String.ltb, String.leb.
  rewrite (String.compare_antisym (Summary.updated_at y) (Summary.updated_at x)).
  destruct (String.compare (Summary.updated_at x) (Summary.updated_at y));
    cbn; intros; congruence.
Qed.

Lemma insert_newest_first_sorted x l :
  Sorted not_older l -> Sorted not_older (insert_newest_first x l).
Proof.
  induction l as [|y l IH]; intros Hs; cbn.
  - repeat constructor.
  - inversion Hs as [|? ? Hl Hhd]; subst.
    destruct (String.ltb _ _) eqn:Hlt.
    + constructor; [now apply IH|].
      destruct l as [|z l]; cbn.
      * constructor. now apply ltb_not_older.
      * destruct (String.ltb (Summary.updated_at x) (Summary.updated_at z)).
        -- inversion Hhd; subst. now constructor.
        -- constructor. now apply ltb_not_older.
    + constructor; [assumption|]. constructor. now apply not_ltb_not_older.
Qed.

Lemma sort_newest_first_sorted l : Sorted not_older (sort_newest_first l).
Proof.
  induction l as [|x l IH]; cbn; [constructor|].
  now apply insert_newest_first_sorted.
Qed.

(** The names of a listing are the session ids with their suffix. *)
Lemma listing_names files listdir :
  lists_sessions files listdir ->
  listdir = (fun sid => sid +:+ ".json") <$> (stem <$> listdir)
  /\ NoDup (stem <$> listdir)
  /\ (forall sid, sid ∈ stem <$> listdir <-> is_Some (files !! sid)).
Proof.
  intros [Hnd Hin].
  assert (Hform : forall name, name ∈ listdir -> stem name +:+ ".json" = name).
  { intros name Hn. apply Hin in Hn as (sid & -> & _). now rewrite stem_json. }
  repeat split.
  - clear Hnd Hin. induction listdir as [|n l IH]; [reflexivity|].
    cbn. rewrite Hform by apply list_elem_of_here. f_equal.
    apply IH. intros name Hn. apply Hform. now apply list_elem_of_further.
  - apply NoDup_fmap_2_strong; [|assumption].
    intros n1 n2 H1 H2 Heq. rewrite <- (Hform n1 H1), <- (Hform n2 H2). now rewrite Heq.
  - intros Hs. apply list_elem_of_fmap in Hs as (name & -> & Hn).
    apply Hin in Hn as (sid' & -> & Hsome). now rewrite stem_json.
  - intros Hsome. apply list_elem_of_fmap. exists (sid +:+ ".json").
    rewrite stem_json. split; [reflexivity|]. apply Hin. eauto.
Qed.

Lemma summaries_of_keys (files : gmap string session_data)
    (l : list (string * session_data)) :
  Forall (fun kd => files !! kd.1 = Some kd.2) l ->
  omap (fun sid => summarise <$> files !! sid) l.*1 = summarise <$> l.*2.
Proof.
  induction 1 as [|[k d] l Hk _ IH]; [reflexivity|].
  cbn in *. rewrite Hk. cbn. now rewrite IH.
Qed.

Lemma get_all_sessions_listed listdir s :
  lists_sessions (sessions_dir s) listdir ->
  exists l, get_all_sessions listdir s = (Ok l, s)
            /\ Sorted not_older l
            /\ l ≡ₚ summarise <$> (map_to_list (sessions_dir s)).*2.
Proof.
  intros Hl. destruct (listing_names _ _ Hl) as (Hnames & Hnd & Hdom).
  unfold get_all_sessions, try_except. unfold bind at 1.
  rewrite Hnames, read_summaries.
  2:{ apply Forall_forall. intros sid Hs. now apply Hdom. }
  cbn. eexists. split; [reflexivity|]. split; [apply sort_newest_first_sorted|].
  rewrite sort_newest_first_perm.
  rewrite <- (summaries_of_keys (sessions_dir s)).
  2:{ apply Forall_forall. intros [k d] Hkd. now apply elem_of_map_to_list. }
  apply omap_Permutation. apply NoDup_Permutation;
    [assumption|apply NoDup_fst_map_to_list|].
  intros sid. rewrite Hdom. split.
  - intros [d Hd]. apply list_elem_of_fmap. exists (sid, d). split; [reflexivity|].
    now apply elem_of_map_to_list.
  - intros Hs. apply list_elem_of_fmap in Hs as ([k d] & -> & Hkd).
    apply elem_of_map_to_list in Hkd. eauto.
Qed.

End SessionListingFacts.

(** X5.  When the directory listing names exactly the session files,
    get_all_sessions returns one summary per session file (with its id,
    title, timestamps and number of messages), ordered so that no entry is
    older, by last update, than the one that follows it; the manager is
    not changed. *)
Theorem get_all_sessions_newest_first (listdir : list string)
    (s : MemoryManager.t) :
  lists_sessions (MemoryManager.sessions_dir s) listdir ->
  exists l,
    MemoryManager.get_all_sessions listdir s = (Ok l, s)
    /\ Sorted not_older l
    /\ l ≡ₚ MemoryManager.summarise <$> (map_to_list (MemoryManager.sessions_dir s)).*2
    /\ length l = size (MemoryManager.sessions_dir s).
Proof.
  intros Hl. destruct (get_all_sessions_listed listdir s Hl) as (l & Heq & Hs & Hp).
  exists l. repeat split; try assumption.
  rewrite Hp, length_fmap, length_fmap. apply length_map_to_list.
Qed.

Lemma archive_listing :
  lists_sessions (MemoryManager.sessions_dir archive) ["s-1.json"; "s-2.json"].
Proof.
  split.
  - repeat constructor; rewrite ?elem_of_cons, ?elem_of_nil; intros H;
      repeat destruct H as [H|H]; try discriminate H; assumption.
  - intros name. cbn [archive MemoryManager.sessions_dir]. split.
    + rewrite !elem_of_cons, elem_of_nil. intros [->|[->|[]]].
      * exists "s-1". split; [reflexivity|]. vm_compute. eauto.
      * exists "s-2". split; [reflexivity|]. vm_compute. eauto.
    + intros (sid & -> & [d Hd]).
      apply lookup_insert_Some in Hd as [[<- _]|[_ Hd]].
      * apply list_elem_of_further, list_elem_of_here.
      * apply lookup_singleton_Some in Hd as [<- _]. apply list_elem_of_here.
Qed.

Lemma get_all_sessions_newest_first_witness :
  exists l,
    MemoryManager.get_all_sessions ["s-1.json"; "s-2.json"] archive = (Ok l, archive)
    /\ map MemoryManager.Summary.session_id l = ["s-2"; "s-1"]
    /\ map MemoryManager.Summary.message_count l = [1; 2]%nat.
Proof.
  destruct (get_all_sessions_newest_first ["s-1.json"; "s-2.json"] archive
              archive_listing) as (l & Heq & _).
  exists l. split; [assumption|].
  assert (Hl : fst (MemoryManager.get_all_sessions ["s-1.json"; "s-2.json"] archive)
               = Ok l) by now rewrite Heq.
  vm_compute in Hl. injection Hl as <-. split; reflexivity.
Defined.

Section SessionRemovalFacts.
Import MemoryManager.

(** What [delete_session] returns and leaves. *)
Lemma delete_session_spec chroma_delete sid s :
  delete_session chroma_delete sid s
  = (Ok (match persistent_memory s with
         | Some _ => is_ok chroma_delete
         | None => true
         end),
     match persistent_memory s with
     | Some docs =>
         if is_ok chroma_delete
         then set_persistent_memory
                (Some (List.filter (of_other_session sid) docs))
                (set_sessions_dir (delete sid (sessions_dir s)) s)
         else set_sessions_dir (delete sid (sessions_dir s)) s
     | None => set_sessions_dir (delete sid (sessions_dir s)) s
     end).
Proof.
  unfold delete_session. run_monad.
  assert (Hdel : forall st,
            sessions_dir st = sessions_dir s ->
            sessions_dir st !! sid = None ->
            set_sessions_dir (delete sid (sessions_dir s)) st = st).
  { intros st Hst Hnone. rewrite <- Hst, delete_id by assumption.
    destruct st; reflexivity. }
  destruct (sessions_dir s !! sid) eqn:Hfile; cbn;
    destruct (persistent_memory s) eqn:Hpm; cbn;
    try destruct chroma_delete as [[]|]; cbn; rewrite ?Hpm; cbn;
    try reflexivity;
    rewrite ?(Hdel s eq_refl Hfile); try reflexivity.
  all: f_equal; destruct s; cbn in *; subst;
    rewrite delete_id by assumption; reflexivity.
Qed.

(** Removing every listed file leaves no session file. *)
Lemma remove_listed sids : forall s,
  NoDup sids ->
  Forall (fun sid => is_Some (sessions_dir s !! sid)) sids ->
  for_each ((fun sid => sid +:+ ".json") <$> sids) remove_session_file s
  = (Ok tt, set_sessions_dir (foldl (fun m sid => delete sid m) (sessions_dir s) sids) s).
Proof.
  induction sids as [|sid sids IH]; intros s Hnd Hall; cbn [for_each fmap list_fmap foldl].
  - unfold ret. destruct s; reflexivity.
  - inversion Hnd as [|? ? Hnin Hnd']; subst.
    inversion Hall as [|? ? [d Hd] Hrest]; subst.
    unfold bind at 1, remove_session_file at 1.
    rewrite endswith_append, stem_json. unfold bind, gets, modify. rewrite Hd.
    rewrite IH; [destruct s; reflexivity|assumption|].
    apply Forall_forall. intros k Hk. cbn.
    rewrite lookup_delete_ne by (intros ->; contradiction).
    rewrite Forall_forall in Hrest. now apply Hrest.
Qed.

Lemma foldl_delete_lookup (files : gmap string session_data) sids k :
  foldl (fun m sid => delete sid m) files sids !! k
  = if bool_decide (k ∈ sids) then None else files !! k.
Proof.
  revert files. induction sids as [|sid sids IH]; intros files; cbn [foldl].
  - reflexivity.
  - rewrite IH. destruct (decide (k = sid)) as [->|Hne].
    + rewrite lookup_delete_eq.
      rewrite (bool_decide_eq_true_2 (sid ∈ sid :: sids)) by apply list_elem_of_here.
      now destruct (bool_decide (sid ∈ sids)).
    + rewrite lookup_delete_ne by congruence.
      destruct (bool_decide_reflect (k ∈ sids)) as [Hin|Hnin].
      * rewrite bool_decide_eq_true_2; [reflexivity|now apply list_elem_of_further].
      * rewrite bool_decide_eq_false_2; [reflexivity|].
        rewrite elem_of_cons. tauto.
Qed.

Lemma clear_all_sessions_spec listdir chroma_delete s :
  lists_sessions (sessions_dir s) listdir ->
  fst (clear_all_sessions listdir chroma_delete s)
  = Ok (match persistent_memory s with
        | Some _ => is_ok chroma_delete
        | None => true
        end)
  /\ sessions_dir (snd (clear_all_sessions listdir chroma_delete s)) = ∅
  /\ transient_memory (snd (clear_all_sessions listdir chroma_delete s))
     = transient_memory s.
Proof.
  intros Hl. destruct (listing_names _ _ Hl) as (Hnames & Hnd & Hdom).
  assert (Hempty : foldl (fun m sid => delete sid m) (sessions_dir s) (stem <$> listdir) = ∅).
  { apply map_empty. intros k. rewrite foldl_delete_lookup.
    destruct (bool_decide_reflect (k ∈ stem <$> listdir)) as [|Hnin]; [reflexivity|].
    destruct (sessions_dir s !! k) eqn:Hk; [|reflexivity].
    exfalso. apply Hnin, Hdom. eauto. }
  assert (E : clear_all_sessions listdir chroma_delete s
              = (Ok (match persistent_memory s with
                     | Some _ => is_ok chroma_delete
                     | None => true
                     end),
                 match persistent_memory s with
                 | Some _ =>
                     if is_ok chroma_delete
                     then set_persistent_memory (Some []) (set_sessions_dir ∅ s)
                     else set_sessions_dir ∅ s
                 | None => set_sessions_dir ∅ s
                 end)).
  { unfold clear_all_sessions, try_except. unfold bind at 1.
    rewrite Hnames, remove_listed, Hempty.
    2:{ assumption. }
    2:{ apply Forall_forall. intros sid Hs. now apply Hdom. }
    run_monad. cbn.
    destruct (persistent_memory s); cbn;
      try destruct chroma_delete as [[]|]; reflexivity. }
  rewrite E. cbn [fst snd]. split; [reflexivity|].
  destruct (persistent_memory s); [destruct (is_ok chroma_delete)|]; split; reflexivity.
Qed.

End SessionRemovalFacts.

(** X6.  delete_session removes the session's file whatever it returns,
    leaves the files of the other sessions and the buffer alone, and
    returns True exactly when there is no store or the store's delete
    succeeds, in particular also for a session that never existed; after a
    successful delete the store holds no document of that session, and
    the session can no longer be loaded. *)
Theorem delete_session_removes (cfg : AppConfig.t) (chroma_delete : result unit)
    (sid : string) (s : MemoryManager.t) :
  let r := MemoryManager.delete_session chroma_delete sid s in
  fst r = Ok (match MemoryManager.persistent_memory s with
              | Some _ => is_ok chroma_delete
              | None => true
              end)
  /\ MemoryManager.sessions_dir (snd r) = delete sid (MemoryManager.sessions_dir s)
  /\ MemoryManager.transient_memory (snd r) = MemoryManager.transient_memory s
  /\ (fst r = Ok true ->
      forall docs, MemoryManager.persistent_memory (snd r) = Some docs ->
                   forallb (MemoryManager.of_other_session sid) docs = true)
  /\ fst (MemoryManager.load_session cfg sid (snd r)) = Ok false.
Proof.
  cbv zeta. rewrite delete_session_spec. cbn [fst snd].
  assert (Hload : forall s', MemoryManager.sessions_dir s'
                             = delete sid (MemoryManager.sessions_dir s) ->
                             fst (MemoryManager.load_session cfg sid s') = Ok false).
  { intros s' Hfiles.
    unfold MemoryManager.load_session, bind, gets, try_except, modify, ret.
    destruct (MemoryManager.memory_mode s'); cbn; [reflexivity|].
    rewrite Hfiles, lookup_delete_eq. reflexivity. }
  destruct (MemoryManager.persistent_memory s) as [docs0|] eqn:Hpm;
    [destruct (is_ok chroma_delete) eqn:Hok|].
  - repeat (split; [reflexivity|]). split; [|now apply Hload].
    intros _ docs Hdocs. cbn in Hdocs. injection Hdocs as <-.
    apply forallb_forall. intros doc Hdoc.
    now apply List.filter_In in Hdoc as [_ Hd].
  - repeat (split; [reflexivity|]). split; [discriminate|now apply Hload].
  - repeat (split; [reflexivity|]). split; [|now apply Hload].
    intros _ docs Hdocs. cbn in Hdocs. congruence.
Qed.

(** X7.  When the directory listing names exactly the session files,
    clear_all_sessions leaves no session file, keeps the buffer, and
    returns True exactly when there is no store or the store's delete
    succeeds. *)
Theorem clear_all_sessions_empties (listdir : list string)
    (chroma_delete : result unit) (s : MemoryManager.t) :
  lists_sessions (MemoryManager.sessions_dir s) listdir ->
  fst (MemoryManager.clear_all_sessions listdir chroma_delete s)
  = Ok (match MemoryManager.persistent_memory s with
        | Some _ => is_ok chroma_delete
        | None => true
        end)
  /\ MemoryManager.sessions_dir
       (snd (MemoryManager.clear_all_sessions listdir chroma_delete s)) = ∅
  /\ MemoryManager.transient_memory
       (snd (MemoryManager.clear_all_sessions listdir chroma_delete s))
     = MemoryManager.transient_memory s.
Proof. apply clear_all_sessions_spec. Qed.

Lemma clear_all_sessions_empties_witness :
  fst (MemoryManager.clear_all_sessions ["s-1.json"; "s-2.json"] (Ok tt) archive)
    = Ok true
  /\ MemoryManager.sessions_dir
       (snd (MemoryManager.clear_all_sessions ["s-1.json"; "s-2.json"] (Ok tt) archive))
     = ∅.
Proof.
  destruct (clear_all_sessions_empties ["s-1.json"; "s-2.json"] (Ok tt) archive
              archive_listing) as (Hret & Hfiles & _).
  split; assumption.
Defined.

Lemma delete_session_removes_witness :
  let r := MemoryManager.delete_session (Ok tt) "s-1" archive in
  fst r = Ok true
  /\ MemoryManager.sessions_dir (snd r) !! "s-1" = None
  /\ MemoryManager.sessions_dir (snd r) !! "s-2" = Some later_session
  /\ (page_content <$> default [] (MemoryManager.persistent_memory (snd r)))
     = ["welcome"]
  /\ fst (MemoryManager.load_session (AppConfig.load no_keys) "s-1" (snd r)) = Ok false.
Proof.
  cbv zeta.
  destruct (delete_session_removes (AppConfig.load no_keys) (Ok tt) "s-1" archive)
    as (Hret & Hfiles & _ & _ & Hload).
  split; [assumption|]. rewrite Hfiles.
  split; [apply lookup_delete_eq|].
  split; [vm_compute; reflexivity|].
  split; [vm_compute; reflexivity|assumption].
Defined.

(* ===================================================================== *)
(** ** The engine: session life cycle                                     *)
(* ===================================================================== *)

Section EngineSessionFacts.

Lemma engine_delete_session_spec chroma_delete sid (s : LLM.t) :
  let ok := match MemoryManager.persistent_memory (LLM.memory_manager s) with
            | Some _ => is_ok chroma_delete
            | None => true
            end in
  let mgr := snd (MemoryManager.delete_session chroma_delete sid (LLM.memory_manager s)) in
  LLM.delete_session chroma_delete sid s
  = (Ok ok,
     if ok && bool_decide (LLM.session_id s = Some sid)
     then LLM.set_memory_manager (MemoryManager.set_transient_memory [] mgr)
            (LLM.set_session_id None (LLM.set_memory_manager mgr s))
     else LLM.set_memory_manager mgr s).
Proof.
  cbv zeta. unfold LLM.delete_session, try_except.
  unfold bind at 1, LLM.mm at 1, on_field.
  rewrite delete_session_spec. cbn [fst snd].
  unfold LLM.mm, on_field. run_monad. cbn.
  destruct (match MemoryManager.persistent_memory (LLM.memory_manager s) with
            | Some _ => is_ok chroma_delete | None => true end); cbn; [|reflexivity].
  destruct (bool_decide (LLM.session_id s = Some sid)); reflexivity.
Qed.

Lemma load_session_off app sid (m : MemoryManager.t) :
  MemoryManager.memory_mode m = MemoryMode.TRANSIENT
  \/ MemoryManager.sessions_dir m !! sid = None ->
  exists m', MemoryManager.load_session app sid m = (Ok false, m')
             /\ MemoryManager.sessions_dir m' = MemoryManager.sessions_dir m.
Proof.
  intros H. unfold MemoryManager.load_session, bind, gets, try_except, modify, ret.
  destruct (MemoryManager.memory_mode m) eqn:Hmode; cbn.
  - eexists; split; reflexivity.
  - destruct H as [H|H]; [discriminate|]. rewrite H. cbn.
    eexists; split; reflexivity.
Qed.

(** Whether [load_session] returns True, whatever the message limit. *)
Lemma load_session_returns app sid (m : MemoryManager.t) :
  fst (MemoryManager.load_session app sid m)
  = Ok (MemoryMode.eqb (MemoryManager.memory_mode m) MemoryMode.PERSISTENT
        && bool_decide (is_Some (MemoryManager.sessions_dir m !! sid))).
Proof.
  unfold MemoryManager.load_session, bind at 1, gets at 1.
  destruct (MemoryManager.memory_mode m); cbn [MemoryMode.eqb negb andb];
    [reflexivity|].
  unfold try_except, bind at 1, modify at 1. unfold bind at 1, gets at 1.
  cbn [MemoryManager.sessions_dir MemoryManager.set_transient_memory].
  destruct (MemoryManager.sessions_dir m !! sid) as [d|]; [|reflexivity].
  unfold bind at 1, modify at 1. unfold bind at 1.
  match goal with
  | |- context [MemoryManager._trim_transient_memory app ?s0] =>
      destruct (_trim_transient_memory_total app s0) as (buf & Htrim & _);
      rewrite Htrim
  end.
  reflexivity.
Qed.

Lemma engine_load_session_spec app sid (s : LLM.t) :
  LLM.load_session app sid s
  = let r := MemoryManager.load_session app sid (LLM.memory_manager s) in
    match fst r with
    | Ok true => (Ok true, LLM.set_session_id (Some sid)
                             (LLM.set_memory_manager (snd r) s))
    | _ => (Ok false, LLM.set_memory_manager (snd r) s)
    end.
Proof.
  cbv zeta.
  destruct (MemoryManager.load_session app sid (LLM.memory_manager s))
    as [[[|]|e] mgr] eqn:E;
    unfold LLM.load_session, try_except, bind, LLM.mm, on_field, modify, ret;
    rewrite E; reflexivity.
Qed.

End EngineSessionFacts.

(** X8.  The engine's delete_session removes the session's file and returns
    what the memory manager returns.  When it succeeds on the session the
    engine is in, the engine is left without a session and with an empty
    buffer; when it fails, or the session is another one, the engine's
    session id and buffer stay as they were. *)
Theorem engine_delete_session (chroma_delete : result unit) (sid : string)
    (s : LLM.t) :
  let r := LLM.delete_session chroma_delete sid s in
  let ok := match MemoryManager.persistent_memory (LLM.memory_manager s) with
            | Some _ => is_ok chroma_delete
            | None => true
            end in
  fst r = Ok ok
  /\ MemoryManager.sessions_dir (LLM.memory_manager (snd r))
     = delete sid (MemoryManager.sessions_dir (LLM.memory_manager s))
  /\ (LLM.session_id (snd r),
      MemoryManager.transient_memory (LLM.memory_manager (snd r)))
     = if ok && bool_decide (LLM.session_id s = Some sid)
       then (None, [])
       else (LLM.session_id s,
             MemoryManager.transient_memory (LLM.memory_manager s)).
Proof.
  cbv zeta. rewrite engine_delete_session_spec, delete_session_spec. cbn [fst snd].
  split; [reflexivity|].
  destruct (MemoryManager.persistent_memory (LLM.memory_manager s));
    [destruct (is_ok chroma_delete)|]; cbn;
    try destruct (bool_decide (LLM.session_id s = Some sid)); cbn;
    split; reflexivity.
Qed.

(** X9.  When the directory listing names exactly the session files, the
    engine's clear_all_sessions leaves no session file; when it succeeds
    the engine is left without a session and with an empty buffer, and
    when the store's delete fails it returns False with the files gone
    and the engine's session id and buffer as they were. *)
Theorem engine_clear_all_sessions (listdir : list string)
    (chroma_delete : result unit) (s : LLM.t) :
  lists_sessions (MemoryManager.sessions_dir (LLM.memory_manager s)) listdir ->
  let r := LLM.clear_all_sessions listdir chroma_delete s in
  let ok := match MemoryManager.persistent_memory (LLM.memory_manager s) with
            | Some _ => is_ok chroma_delete
            | None => true
            end in
  fst r = Ok ok
  /\ MemoryManager.sessions_dir (LLM.memory_manager (snd r)) = ∅
  /\ (LLM.session_id (snd r),
      MemoryManager.transient_memory (LLM.memory_manager (snd r)))
     = if ok then (None, [])
       else (LLM.session_id s,
             MemoryManager.transient_memory (LLM.memory_manager s)).
Proof.
  intros Hl. cbv zeta.
  destruct (clear_all_sessions_spec listdir chroma_delete (LLM.memory_manager s) Hl)
    as (Hret & Hfiles & Hbuf).
  assert (E : LLM.clear_all_sessions listdir chroma_delete s
              = let mgr := snd (MemoryManager.clear_all_sessions listdir chroma_delete
                                  (LLM.memory_manager s)) in
                let ok := match MemoryManager.persistent_memory (LLM.memory_manager s) with
                          | Some _ => is_ok chroma_delete
                          | None => true
                          end in
                (Ok ok,
                 if ok
                 then LLM.set_memory_manager (MemoryManager.set_transient_memory [] mgr)
                        (LLM.set_session_id None (LLM.set_memory_manager mgr s))
                 else LLM.set_memory_manager mgr s)).
  { unfold LLM.clear_all_sessions, try_except.
    unfold bind at 1, LLM.mm at 1, on_field.
    destruct (MemoryManager.clear_all_sessions listdir chroma_delete
                (LLM.memory_manager s)) as [r mgr].
    cbn [fst snd] in *. subst r. cbn beta iota zeta.
    unfold LLM.mm, on_field. run_monad. cbn.
    destruct (match MemoryManager.persistent_memory (LLM.memory_manager s) with
              | Some _ => is_ok chroma_delete | None => true end); reflexivity. }
  rewrite E. cbv zeta. cbn [fst snd]. split; [reflexivity|].
  destruct (match MemoryManager.persistent_memory (LLM.memory_manager s) with
            | Some _ => is_ok chroma_delete | None => true end);
    cbn; rewrite ?Hfiles, ?Hbuf; split; reflexivity.
Qed.

Lemma engine_clear_all_sessions_witness :
  let r := LLM.clear_all_sessions ["s-1.json"; "s-2.json"] (Raise "store locked")
             (LLM.set_session_id (Some "s-1")
                (LLM.set_memory_manager archive rag_engine)) in
  fst r = Ok false
  /\ MemoryManager.sessions_dir (LLM.memory_manager (snd r)) = ∅
  /\ LLM.session_id (snd r) = Some "s-1".
Proof.
  cbv zeta.
  destruct (engine_clear_all_sessions ["s-1.json"; "s-2.json"] (Raise "store locked")
              (LLM.set_session_id (Some "s-1")
                 (LLM.set_memory_manager archive rag_engine)))
    as (Hret & Hfiles & Hpair).
  - exact archive_listing.
  - split; [assumption|]. split; [assumption|].
    exact (f_equal fst Hpair).
Defined.

(** X10.  The engine's load_session succeeds exactly when the memory
    manager is in persistent mode and the session has a file; it then
    makes that session the engine's session and fills the buffer with the
    stored messages, trimmed to the N most recent.  When it fails the
    engine's session id is unchanged. *)
Theorem engine_load_session (app : AppConfig.t) (sid : string) (s : LLM.t) :
  0 < AppConfig.MEMORY_MESSAGE_LIMIT app ->
  let r := LLM.load_session app sid s in
  match MemoryManager.memory_mode (LLM.memory_manager s),
        MemoryManager.sessions_dir (LLM.memory_manager s) !! sid with
  | MemoryMode.PERSISTENT, Some d =>
      fst r = Ok true
      /\ LLM.session_id (snd r) = Some sid
      /\ MemoryManager.transient_memory (LLM.memory_manager (snd r))
         = most_recent (Z.to_nat (AppConfig.MEMORY_MESSAGE_LIMIT app))
             (map MemoryManager.replay (MemoryManager.messages d))
  | _, _ =>
      fst r = Ok false /\ LLM.session_id (snd r) = LLM.session_id s
  end.
Proof.
  intros HN. cbv zeta. rewrite engine_load_session_spec.
  destruct (MemoryManager.memory_mode (LLM.memory_manager s)) eqn:Hmode.
  - destruct (load_session_off app sid _ (or_introl Hmode)) as (m' & E & _).
    rewrite E. cbn. split; reflexivity.
  - destruct (MemoryManager.sessions_dir (LLM.memory_manager s) !! sid) as [d|] eqn:Hd.
    + rewrite (load_session_found app sid _ d HN Hmode Hd). cbn. repeat split.
    + destruct (load_session_off app sid _ (or_intror Hd)) as (m' & E & _).
      rewrite E. cbn. split; reflexivity.
Qed.

Lemma engine_load_session_witness :
  let r := LLM.load_session (AppConfig.load no_keys) "s-2"
             (LLM.set_memory_manager archive rag_engine) in
  fst r = Ok true
  /\ LLM.session_id (snd r) = Some "s-2"
  /\ MemoryManager.transient_memory (LLM.memory_manager (snd r))
     = [AIMessage "welcome"].
Proof.
  cbv zeta.
  pose proof (engine_load_session (AppConfig.load no_keys) "s-2"
                (LLM.set_memory_manager archive rag_engine)) as H.
  cbv zeta in H.
  change (MemoryManager.memory_mode
            (LLM.memory_manager (LLM.set_memory_manager archive rag_engine)))
    with MemoryMode.PERSISTENT in H.
  replace (MemoryManager.sessions_dir
             (LLM.memory_manager (LLM.set_memory_manager archive rag_engine)) !! "s-2")
    with (Some later_session) in H by (vm_compute; reflexivity).
  destruct H as (H1 & H2 & H3); [simpl; lia|].
  rewrite H1, H2, H3. repeat split.
Defined.

(** X11.  create_new_session returns the id uuid4 produced, makes it the
    engine's session, empties the buffer and writes no session file.
    Loading the new session right away therefore returns True only when
    the memory manager is in persistent mode and a file of that id was
    there before the call; for an id no file carries, it returns False
    until a message is stored. *)
Theorem new_session_has_no_file (app : AppConfig.t) (b : LLM.build_env)
    (s : LLM.t) :
  let r := LLM.create_new_session b s in
  fst r = Ok (Some (LLM.uuid4 b))
  /\ LLM.session_id (snd r) = Some (LLM.uuid4 b)
  /\ MemoryManager.transient_memory (LLM.memory_manager (snd r)) = []
  /\ MemoryManager.sessions_dir (LLM.memory_manager (snd r))
     = MemoryManager.sessions_dir (LLM.memory_manager s)
  /\ fst (LLM.load_session app (LLM.uuid4 b) (snd r))
     = Ok (MemoryMode.eqb (MemoryManager.memory_mode (LLM.memory_manager s))
             MemoryMode.PERSISTENT
           && bool_decide
                (is_Some (MemoryManager.sessions_dir (LLM.memory_manager s)
                          !! LLM.uuid4 b))).
Proof.
  cbv zeta.
  assert (E : LLM.create_new_session b s
              = (Ok (Some (LLM.uuid4 b)),
                 LLM.set_memory_manager
                   (MemoryManager.set_transient_memory [] (LLM.memory_manager s))
                   (LLM.set_session_id (Some (LLM.uuid4 b))
                      (LLM.set_memory_manager (LLM.memory_manager s) s)))).
  { unfold LLM.create_new_session, LLM.mm, on_field, MemoryManager.create_session.
    run_monad. reflexivity. }
  rewrite E. cbn [fst snd]. repeat (split; [reflexivity|]).
  rewrite engine_load_session_spec. cbv zeta.
  pose proof (load_session_returns app (LLM.uuid4 b)
                (MemoryManager.set_transient_memory [] (LLM.memory_manager s))) as Hret.
  cbn [LLM.memory_manager LLM.set_memory_manager LLM.set_session_id].
  cbn [MemoryManager.memory_mode MemoryManager.sessions_dir
       MemoryManager.set_transient_memory] in Hret.
  rewrite Hret.
  destruct (_ && _); reflexivity.
Qed.

Lemma new_session_has_no_file_witness :
  let r := LLM.create_new_session builds_fine
             (LLM.set_memory_manager archive rag_engine) in
  fst r = Ok (Some "3f2b8c1e-5d47-4a9b-8e21-0c6f7a9d1b34")
  /\ fst (LLM.load_session (AppConfig.load no_keys)
            "3f2b8c1e-5d47-4a9b-8e21-0c6f7a9d1b34" (snd r)) = Ok false.
Proof.
  cbv zeta.
  destruct (new_session_has_no_file (AppConfig.load no_keys) builds_fine
              (LLM.set_memory_manager archive rag_engine)) as (H1 & _ & _ & _ & H5).
  split; [assumption|].
  etransitivity; [exact H5|vm_compute; reflexivity].
Defined.

(* ===================================================================== *)
(** ** The privacy filter: the report and the flag                        *)
(* ===================================================================== *)

Section ReportFacts.
Import PrivacyFilter.
Variable text : string.


Lemma count_other items : forall report k,
  k ∉ items.*1 -> foldl (count text) report items !! k = report !! k.
Proof.
  induction items as [|[category pattern] items IH]; intros report k Hk;
    cbn [foldl]; [reflexivity|].
  rewrite fmap_cons, not_elem_of_cons in Hk. destruct Hk as [Hne Hk].
  rewrite IH by assumption. cbn in Hne. unfold count.
  destruct (Re.findall pattern text); [reflexivity|].
  apply lookup_insert_ne. congruence.
Qed.

Lemma count_listed items : forall report k pattern,
  NoDup items.*1 ->
  In (k, pattern) items ->
  foldl (count text) report items !! k
  = match Re.findall pattern text with
    | [] => report !! k
    | matches => Some (length matches)
    end.
Proof.
  induction items as [|[category p] items IH]; intros report k pattern Hnd Hin;
    [destruct Hin|].
  rewrite fmap_cons, NoDup_cons in Hnd. destruct Hnd as [Hfresh Hnd].
  cbn [foldl]. destruct Hin as [Heq|Hin].
  - injection Heq as -> ->. rewrite count_other by assumption.
    unfold count. destruct (Re.findall pattern text); [reflexivity|].
    apply lookup_insert_eq.
  - rewrite (IH _ k pattern Hnd Hin).
    destruct (Re.findall pattern text); [|reflexivity].
    assert (Hne : category <> k).
    { intros ->. apply Hfresh. apply list_elem_of_fmap.
      exists (k, pattern). split; [reflexivity|]. now apply list_elem_of_In. }
    unfold count. destruct (Re.findall p text); [reflexivity|].
    now apply lookup_insert_ne.
Qed.

(** Either no monitored pattern matches the text, or one of them does. *)
Lemma quiet_or_noisy (items : list (string * Re.t)) :
  Forall (fun item => Re.findall (snd item) text = []) items
  \/ exists category pattern, In (category, pattern) items
                              /\ Re.findall pattern text <> [].
Proof.
  induction items as [|[category pattern] items [IH|(c & p & Hin & Hm)]].
  - left. constructor.
  - destruct (Re.findall pattern text) eqn:E.
    + left. constructor; assumption.
    + right. exists category, pattern. split; [now left|]. rewrite E. discriminate.
  - right. exists c, p. split; [now right|assumption].
Qed.

Lemma quiet_report items : forall report,
  Forall (fun item => Re.findall (snd item) text = []) items ->
  foldl (count text) report items = report.
Proof.
  induction items as [|[category pattern] items IH]; intros report H;
    cbn [foldl]; [reflexivity|].
  inversion H as [|? ? Hhead Htail]; subst. cbn in Hhead.
  unfold count at 2. rewrite Hhead. now apply IH.
Qed.

Lemma quiet_loop items :
  Forall (fun item => Re.findall (snd item) text = []) items ->
  foldl step (text, false) items = (text, false).
Proof.
  induction items as [|[category pattern] items IH]; intros H;
    cbn [foldl]; [reflexivity|].
  inversion H as [|? ? Hhead Htail]; subst. cbn in Hhead.
  cbn [step]. rewrite Hhead. now apply IH.
Qed.

Lemma patterns_NoDup : NoDup patterns.*1.
Proof. compute_done. Qed.

Lemma patterns_long :
  Forall (fun item => (6 <= Re.min_len (snd item))%nat) patterns.
Proof. repeat constructor; vm_compute; repeat constructor. Qed.

End ReportFacts.

(** A text shorter than the shortest possible match has no match. *)
Lemma scan_short (r : Re.t) : forall s inside prev,
  (String.length s < Re.min_len r)%nat -> Re.scan r inside prev s = [].
Proof.
  induction s as [|c s IH]; intros inside prev Hlen; cbn [Re.scan].
  - destruct inside; [|reflexivity].
    destruct (Re.match_here r prev EmptyString) as [n|] eqn:Hm; [|reflexivity].
    apply match_here_spans in Hm. simpl in Hm. lia.
  - simpl in Hlen. destruct inside as [|i]; [|apply IH; lia].
    destruct (Re.match_here r prev (String c s)) as [n|] eqn:Hm.
    + apply match_here_spans in Hm. simpl in Hm. lia.
    + apply IH. lia.
Qed.

(** X12.  get_sensitivity_report counts, for each category, the matches of
    its pattern in the text and leaves out the categories without a match;
    it has no other key.  The report is empty exactly when filter_text,
    with the filter enabled, does not flag the text, and filter_text then
    returns the text unchanged. *)
Theorem sensitivity_report_agrees (self : PrivacyFilter.t) (text : string) :
  let report := PrivacyFilter.get_sensitivity_report self text in
  let filtered := PrivacyFilter.filter_text (PrivacyFilter.enable self) text in
  (forall category pattern,
      In (category, pattern) PrivacyFilter.patterns ->
      report !! category
      = match Re.findall pattern text with
        | [] => None
        | matches => Some (length matches)
        end)
  /\ (forall category,
        is_Some (report !! category) ->
        exists pattern, In (category, pattern) PrivacyFilter.patterns)
  /\ (report = ∅ <-> snd filtered = false)
  /\ (report = ∅ -> fst filtered = text).
Proof.
  cbv zeta. unfold PrivacyFilter.get_sensitivity_report.
  change (PrivacyFilter.filter_text (PrivacyFilter.enable self) text)
    with (foldl PrivacyFilter.step (text, false) PrivacyFilter.patterns).
  split; [|split].
  - intros category pattern Hin.
    rewrite (count_listed text _ ∅ category pattern (patterns_NoDup) Hin).
    destruct (Re.findall pattern text); [apply lookup_empty|reflexivity].
  - intros category Hsome.
    destruct (decide (category ∈ PrivacyFilter.patterns.*1)) as [Hk|Hk].
    + apply list_elem_of_fmap in Hk as ([c p] & -> & Hin).
      exists p. now apply list_elem_of_In.
    + rewrite count_other, lookup_empty in Hsome by assumption.
      destruct Hsome; discriminate.
  - destruct (quiet_or_noisy text PrivacyFilter.patterns)
      as [Hquiet|(c & p & Hin & Hm)].
    + rewrite quiet_report, quiet_loop by assumption. cbn. tauto.
    + assert (Hflag : snd (foldl PrivacyFilter.step (text, false)
                             PrivacyFilter.patterns) = true).
      { apply (loop_detects _ text c p Hin). unfold Re.search.
        destruct (Re.findall p text); [contradiction|reflexivity]. }
      assert (Hrep : foldl (PrivacyFilter.count text) ∅ PrivacyFilter.patterns <> ∅).
      { intros Hempty.
        pose proof (count_listed text _ ∅ c p patterns_NoDup Hin) as Hc.
        cbv zeta in Hc. rewrite Hempty, lookup_empty in Hc.
        destruct (Re.findall p text); [contradiction|discriminate]. }
      rewrite Hflag. split; [split; [contradiction|discriminate]|contradiction].
Qed.

Lemma sensitivity_report_agrees_witness :
  let text := "write to bob@example.com or alice@example.org" in
  PrivacyFilter.get_sensitivity_report (PrivacyFilter.Build_t true) text !! "email"
  = Some 2%nat
  /\ snd (PrivacyFilter.filter_text
            (PrivacyFilter.enable (PrivacyFilter.Build_t true)) text) <> false.
Proof.
  cbv zeta.
  destruct (sensitivity_report_agrees (PrivacyFilter.Build_t true)
              "write to bob@example.com or alice@example.org")
    as (Hcount & _ & Hiff & _).
  assert (Hmail : PrivacyFilter.get_sensitivity_report (PrivacyFilter.Build_t true)
                    "write to bob@example.com or alice@example.org" !! "email"
                  = Some 2%nat).
  { rewrite (Hcount "email" PrivacyFilter.email) by (vm_compute; tauto).
    vm_compute. reflexivity. }
  split; [assumption|].
  intros Hflag. apply Hiff in Hflag. rewrite Hflag, lookup_empty in Hmail.
  discriminate.
Defined.

(** X13.  No monitored pattern can match fewer than six characters: a text
    shorter than that, the empty text included, passes filter_text
    unchanged and unflagged, and its sensitivity report is empty. *)
Theorem short_text_passes (self : PrivacyFilter.t) (text : string) :
  (String.length text < 6)%nat ->
  PrivacyFilter.filter_text self text = (text, false)
  /\ PrivacyFilter.get_sensitivity_report self text = ∅.
Proof.
  intros Hlen.
  assert (Hquiet : Forall (fun item => Re.findall (snd item) text = [])
                     PrivacyFilter.patterns).
  { eapply Forall_impl; [apply patterns_long|].
    intros [category pattern] Hmin. cbn in *. apply scan_short. lia. }
  split.
  - unfold PrivacyFilter.filter_text.
    destruct (negb (PrivacyFilter.enable_filter self)); [reflexivity|].
    now apply quiet_loop.
  - unfold PrivacyFilter.get_sensitivity_report. now apply quiet_report.
Qed.

Lemma short_text_passes_witness :
  PrivacyFilter.filter_text (PrivacyFilter.Build_t true) "a@b.c" = ("a@b.c", false)
  /\ PrivacyFilter.get_sensitivity_report (PrivacyFilter.Build_t true) "a@b.c" = ∅.
Proof. apply short_text_passes. simpl. lia. Defined.

(* ===================================================================== *)
(** ** The vector store: retrieval query and embedding provider           *)
(* ===================================================================== *)

Section VectorStoreFacts.

Lemma most_recent_idem {A} n (l : list A) :
  most_recent n (most_recent n l) = most_recent n l.
Proof. apply most_recent_all, most_recent_length. Qed.

Lemma most_recent_nonempty {A} n (l : list A) :
  (0 < n)%nat -> l <> [] -> most_recent n l <> [].
Proof.
  intros Hn Hl Hempty. apply (f_equal length) in Hempty.
  unfold most_recent in Hempty. rewrite length_drop in Hempty.
  destruct l; [contradiction|]. simpl in Hempty. lia.
Qed.

(** The three tiers of [_initialize_embeddings]. *)
Lemma _initialize_embeddings_tiers (w : VectorStore.env) (s : VectorStore.t) :
  VectorStore._initialize_embeddings w s
  = match VectorStore.embedding_provider s, VectorStore.huggingface w with
    | EmbeddingProvider.HUGGINGFACE, Ok _ => (Ok HuggingFaceEmbeddings, s)
    | _, _ =>
        (Ok (match VectorStore.ollama_tags w with
             | Ok status_code =>
                 if (status_code =? 200) && is_ok (VectorStore.ollama w)
                 then OllamaEmbeddings else FallbackEmbeddings
             | Raise _ => FallbackEmbeddings
             end),
         VectorStore.set_embedding_provider EmbeddingProvider.OLLAMA s)
    end.
Proof.
  unfold VectorStore._initialize_embeddings, VectorStore._initialize_ollama_embeddings,
    VectorStore._get_fallback_embeddings.
  run_monad. destruct s as [path p e0]. cbn.
  destruct p; cbn.
  - destruct (VectorStore.huggingface w) as [[]|]; cbn; [reflexivity|].
    destruct (VectorStore.ollama_tags w) as [code|]; cbn; [|reflexivity].
    destruct (code =? 200); cbn; [|reflexivity].
    destruct (VectorStore.ollama w) as [[]|]; reflexivity.
  - destruct (VectorStore.huggingface w) as [[]|];
      (destruct (VectorStore.ollama_tags w) as [code|]; cbn; [|reflexivity];
       destruct (code =? 200); cbn; [|reflexivity];
       destruct (VectorStore.ollama w) as [[]|]; reflexivity).
Qed.

End VectorStoreFacts.

(** X14.  The retrieval query built by _enhance_query_with_history depends
    on the six most recent messages of the history only, is the query
    itself when the history is empty, and always ends with the query. *)
Theorem enhanced_query_window (query : string) (chat_history : list BaseMessage) :
  VectorStore._enhance_query_with_history query chat_history
  = VectorStore._enhance_query_with_history query (most_recent 6 chat_history)
  /\ VectorStore._enhance_query_with_history query [] = query
  /\ Str.endswith query
       (VectorStore._enhance_query_with_history query chat_history) = true.
Proof.
  split; [|split; [reflexivity|]].
  - destruct chat_history as [|m l]; [reflexivity|].
    pose proof (most_recent_nonempty 6 (m :: l)) as Hne.
    unfold VectorStore._enhance_query_with_history at 2.
    destruct (most_recent 6 (m :: l)) as [|m' l'] eqn:E;
      [exfalso; apply Hne; [lia|discriminate|reflexivity]|].
    rewrite <- E. cbv zeta.
    change (-6) with (- Z.of_nat 6). rewrite slice_from_neg, most_recent_idem by lia.
    unfold VectorStore._enhance_query_with_history. cbv zeta.
    change (-6) with (- Z.of_nat 6). rewrite slice_from_neg by lia. reflexivity.
  - unfold VectorStore._enhance_query_with_history.
    destruct chat_history as [|m l].
    + replace query with (EmptyString +:+ query) at 2 by reflexivity.
      apply endswith_append.
    + cbv zeta. rewrite <- !append_assoc. apply endswith_append.
Qed.

(** X15.  change_embedding_provider never raises and returns False exactly
    when the index cannot be reopened; by then the store has already
    replaced its embeddings client and its recorded provider, and nothing
    is rolled back.  The client is HuggingFace's when HuggingFace was asked
    for and could be built, otherwise Ollama's when the server answers 200
    and the client could be built, otherwise the hash-based one; in the
    last two cases the recorded provider is OLLAMA whatever was asked
    for.  The constructor raises exactly when the index cannot be opened. *)
Theorem change_embedding_provider_outcome (w : VectorStore.env)
    (provider : EmbeddingProvider.t) (s : VectorStore.t) :
  let r := VectorStore.change_embedding_provider w provider s in
  let tier :=
    match provider, VectorStore.huggingface w with
    | EmbeddingProvider.HUGGINGFACE, Ok _ =>
        (HuggingFaceEmbeddings, EmbeddingProvider.HUGGINGFACE)
    | _, _ =>
        (match VectorStore.ollama_tags w with
         | Ok status_code =>
             if (status_code =? 200) && is_ok (VectorStore.ollama w)
             then OllamaEmbeddings else FallbackEmbeddings
         | Raise _ => FallbackEmbeddings
         end, EmbeddingProvider.OLLAMA)
    end in
  fst r = Ok (is_ok (VectorStore.initialize_db w))
  /\ VectorStore.embeddings (snd r) = Some (fst tier)
  /\ VectorStore.embedding_provider (snd r) = snd tier
  /\ VectorStore.path (snd r) = VectorStore.path s
  /\ is_ok (VectorStore.init w (VectorStore.path s) provider)
     = is_ok (VectorStore.initialize_db w).
Proof.
  cbv zeta.
  unfold VectorStore.change_embedding_provider, VectorStore.init,
    try_except, bind, modify, extern, ret.
  rewrite !_initialize_embeddings_tiers.
  cbn [VectorStore.embedding_provider VectorStore.set_embedding_provider].
  destruct provider, (VectorStore.huggingface w) as [[]|]; cbn;
    destruct (VectorStore.initialize_db w) as [[]|]; cbn; repeat split.
Qed.

(* ===================================================================== *)
(** ** The engine: what a call of get_response leaves behind              *)
(* ===================================================================== *)

Section AnswerFacts.
Variable app : AppConfig.t.
Variable q : LLM.query_env.

Lemma bind_keeps {S A B} (m : M S A) (k : A -> M S B) s :
  snd (m s) = s -> (forall a, snd (k a s) = s) -> snd (bind m k s) = s.
Proof.
  intros Hm Hk. unfold bind. destruct (m s) as [[a|e] s']; cbn in Hm; subst s'.
  - apply Hk.
  - reflexivity.
Qed.

Lemma try_keeps {S A} (body : M S A) (handler : string -> M S A) s :
  snd (body s) = s -> (forall e, snd (handler e s) = s) ->
  snd (try_except body handler s) = s.
Proof.
  intros Hm Hk. unfold try_except.
  destruct (body s) as [[a|e] s']; cbn in Hm; subst s'.
  - reflexivity.
  - apply Hk.
Qed.

Lemma attr_keeps {A} name (f : LLM.t -> option A) s : snd (LLM.attr name f s) = s.
Proof. unfold LLM.attr. destruct (f s); reflexivity. Qed.

Lemma history_keeps s : LLM.mm MemoryManager.get_chat_history s
                        = (Ok (MemoryManager.transient_memory (LLM.memory_manager s)), s).
Proof. destruct s; reflexivity. Qed.

Lemma chain_invoke_keeps c inputs s : snd (LLM.chain_invoke q c inputs s) = s.
Proof.
  unfold LLM.chain_invoke. destruct c as [l tpl vars|l].
  - destruct (List.filter _ vars); [|reflexivity].
    unfold bind, extern, ret. destruct (LLM.invoke_llm q l _); reflexivity.
  - destruct (inputs !! "question"); [|reflexivity].
    unfold bind, extern, ret. destruct (LLM.invoke_retrieval q l _); reflexivity.
Qed.

Lemma default_response_keeps query s :
  snd (LLM._get_default_response q query s) = s.
Proof.
  unfold LLM._get_default_response.
  apply bind_keeps; [apply attr_keeps|intros c].
  apply bind_keeps; [apply chain_invoke_keeps|intros response].
  destruct (response !! "text"); reflexivity.
Qed.

Lemma rag_response_keeps query s :
  snd (LLM._get_rag_response q query s) = s.
Proof.
  unfold LLM._get_rag_response.
  apply bind_keeps; [now rewrite history_keeps|intros chat_history].
  apply bind_keeps; [reflexivity|intros docs].
  apply bind_keeps; [apply attr_keeps|intros l].
  apply bind_keeps; [reflexivity|intros content]. reflexivity.
Qed.

Lemma web_search_response_keeps query s :
  snd (LLM._get_web_search_response q query s) = s.
Proof.
  unfold LLM._get_web_search_response.
  apply try_keeps; [|intros e; apply default_response_keeps].
  apply bind_keeps; [apply attr_keeps|intros _].
  apply bind_keeps; [reflexivity|intros search_results].
  apply bind_keeps.
  { destruct search_results as [results|[results|]|text|ty]; reflexivity. }
  intros formatted_results.
  apply bind_keeps; [apply attr_keeps|intros l].
  apply bind_keeps; [reflexivity|intros result].
  cbv zeta. match goal with |- context [match ?u with [] => _ | _ :: _ => _ end] =>
              destruct u end; reflexivity.
Qed.

(** The dispatch of [get_response] on the answer mode. *)
Lemma respond_keeps (mode : AnswerMode.t) query s :
  snd (match mode with
       | AnswerMode.DEFAULT => LLM._get_default_response q query
       | AnswerMode.RAG => LLM._get_rag_response q query
       | AnswerMode.WEB_SEARCH => LLM._get_web_search_response q query
       end s) = s.
Proof.
  destruct mode; [apply default_response_keeps|apply rag_response_keeps
                 |apply web_search_response_keeps].
Qed.

Lemma engine_append_spec (a : append) (self : LLM.t) :
  0 < AppConfig.MEMORY_MESSAGE_LIMIT app ->
  exists mm', LLM.mm (do_append app a) self
              = (Ok tt, LLM.set_memory_manager mm' self)
    /\ MemoryManager.transient_memory mm'
       = most_recent (Z.to_nat (AppConfig.MEMORY_MESSAGE_LIMIT app))
           (MemoryManager.transient_memory (LLM.memory_manager self) ++ [appended a])
    /\ MemoryManager.memory_mode mm'
       = MemoryManager.memory_mode (LLM.memory_manager self).
Proof.
  intros HN.
  destruct (do_append_spec app a (LLM.memory_manager self) HN) as (mm' & H & Hbuf & Hm).
  exists mm'. split; [|split; assumption].
  unfold LLM.mm, on_field. rewrite H. reflexivity.
Qed.

(** [get_response], run: the question is filtered and appended, the
    answer mode's method is called on the state the append leaves, and
    its answer, or the apology for what it raised, is appended and
    returned. *)
Lemma get_response_run (query : string) (self : LLM.t) :
  0 < AppConfig.MEMORY_MESSAGE_LIMIT app ->
  let N := Z.to_nat (AppConfig.MEMORY_MESSAGE_LIMIT app) in
  let filtered := PrivacyFilter.filter_text (LLM.privacy_filter self) query in
  exists mm1 mm2,
    MemoryManager.transient_memory mm1
    = most_recent N (MemoryManager.transient_memory (LLM.memory_manager self)
                     ++ [HumanMessage (fst filtered)])
    /\ MemoryManager.memory_mode mm1
       = MemoryManager.memory_mode (LLM.memory_manager self)
    /\ let s1 := LLM.set_memory_manager mm1 self in
       let outcome :=
         match fst (match LLM.answer_mode self with
                    | AnswerMode.DEFAULT => LLM._get_default_response q (fst filtered)
                    | AnswerMode.RAG => LLM._get_rag_response q (fst filtered)
                    | AnswerMode.WEB_SEARCH =>
                        LLM._get_web_search_response q (fst filtered)
                    end s1) with
         | Ok response => (response, snd filtered)
         | Raise e => (LLM.error_msg e, false)
         end in
       LLM.get_response app q query self
       = (Ok outcome, LLM.set_memory_manager mm2 self)
       /\ MemoryManager.transient_memory mm2
          = most_recent N (MemoryManager.transient_memory mm1
                           ++ [AIMessage (fst outcome)])
       /\ MemoryManager.memory_mode mm2
          = MemoryManager.memory_mode (LLM.memory_manager self).
Proof.
  intros HN. cbv zeta.
  unfold LLM.get_response, try_except, LLM.get_response_try.
  unfold bind at 1, gets at 1.
  destruct (PrivacyFilter.filter_text (LLM.privacy_filter self) query)
    as [filtered flag] eqn:Hf. cbn [fst snd].
  unfold bind at 1. rewrite history_keeps.
  unfold bind at 1, gets at 1.
  destruct (engine_append_spec
              (AddUser (LLM.on_user q) filtered (LLM.session_id self)) self HN)
    as (mm1 & Happ & Hbuf1 & Hmode1).
  cbn [do_append appended] in Happ, Hbuf1. unfold bind at 1. rewrite Happ.
  exists mm1.
  unfold bind at 1, gets at 1. cbn [LLM.answer_mode LLM.set_memory_manager].
  unfold bind at 1.
  pose proof (respond_keeps (LLM.answer_mode self) filtered
                (LLM.set_memory_manager mm1 self)) as Hkeep.
  destruct (match LLM.answer_mode self with
            | AnswerMode.DEFAULT => LLM._get_default_response q filtered
            | AnswerMode.RAG => LLM._get_rag_response q filtered
            | AnswerMode.WEB_SEARCH => LLM._get_web_search_response q filtered
            end (LLM.set_memory_manager mm1 self)) as [[response|e] s2];
    cbn [fst snd] in Hkeep |- *; subst s2.
  - unfold bind at 1, gets at 1.
    destruct (engine_append_spec
                (AddAi (LLM.on_ai q) response
                   (LLM.session_id (LLM.set_memory_manager mm1 self)))
                (LLM.set_memory_manager mm1 self) HN)
      as (mm2 & Happ2 & Hbuf2 & Hmode2).
    cbn [do_append appended] in Happ2, Hbuf2. unfold bind. rewrite Happ2.
    exists mm2. cbn in *. repeat split; try assumption; congruence.
  - unfold LLM.get_response_except, bind at 1, gets at 1.
    destruct (engine_append_spec
                (AddAi (LLM.on_error q) (LLM.error_msg e)
                   (LLM.session_id (LLM.set_memory_manager mm1 self)))
                (LLM.set_memory_manager mm1 self) HN)
      as (mm2 & Happ2 & Hbuf2 & Hmode2).
    cbn [do_append appended] in Happ2, Hbuf2. unfold bind. rewrite Happ2.
    exists mm2. cbn in *. repeat split; try assumption; congruence.
Qed.

End AnswerFacts.

(** One call of [get_response] records one exchange. *)
Lemma get_response_exchange (app : AppConfig.t) (q : LLM.query_env)
    (query : string) (self : LLM.t) :
  0 < AppConfig.MEMORY_MESSAGE_LIMIT app ->
  let r := LLM.get_response app q query self in
  let filtered := PrivacyFilter.filter_text (LLM.privacy_filter self) query in
  exists answer flag,
    fst r = Ok (answer, flag)
    /\ MemoryManager.transient_memory (LLM.memory_manager (snd r))
       = most_recent (Z.to_nat (AppConfig.MEMORY_MESSAGE_LIMIT app))
           (MemoryManager.transient_memory (LLM.memory_manager self)
            ++ [HumanMessage (fst filtered); AIMessage answer])
    /\ (flag = true -> snd filtered = true)
    /\ snd r = LLM.set_memory_manager (LLM.memory_manager (snd r)) self.
Proof.
  intros HN. cbv zeta.
  destruct (get_response_run app q query self HN)
    as (mm1 & mm2 & Hb1 & _ & Hrun & Hb2 & _).
  cbv zeta in Hrun, Hb2. rewrite Hrun. cbn [fst snd].
  match type of Hrun with
  | context [match ?d with Ok _ => _ | Raise _ => _ end] =>
      destruct d as [response|e]
  end; cbn [fst snd LLM.memory_manager LLM.set_memory_manager] in *.
  - exists response, (snd (PrivacyFilter.filter_text (LLM.privacy_filter self) query)).
    split; [reflexivity|]. split; [|split; [tauto|reflexivity]].
    rewrite Hb2, Hb1, most_recent_app_l, <- app_assoc. reflexivity.
  - exists (LLM.error_msg e), false.
    split; [reflexivity|]. split; [|split; [discriminate|reflexivity]].
    rewrite Hb2, Hb1, most_recent_app_l, <- app_assoc. reflexivity.
Qed.

(** X16.  Whatever happens inside, a call of get_response records one
    exchange: it returns an answer, the buffer afterwards is the previous
    buffer followed by the question as filtered and by the answer
    returned (the apology included), trimmed to the N most recent, and
    nothing of the engine but its memory manager has changed.  The flag
    is never set unless the filter flagged the question. *)
Theorem get_response_records_exchange (app : AppConfig.t) (q : LLM.query_env)
    (query : string) (self : LLM.t) :
  0 < AppConfig.MEMORY_MESSAGE_LIMIT app ->
  let r := LLM.get_response app q query self in
  let filtered := PrivacyFilter.filter_text (LLM.privacy_filter self) query in
  exists answer flag,
    fst r = Ok (answer, flag)
    /\ MemoryManager.transient_memory (LLM.memory_manager (snd r))
       = most_recent (Z.to_nat (AppConfig.MEMORY_MESSAGE_LIMIT app))
           (MemoryManager.transient_memory (LLM.memory_manager self)
            ++ [HumanMessage (fst filtered); AIMessage answer])
    /\ (flag = true -> snd filtered = true)
    /\ snd r = LLM.set_memory_manager (LLM.memory_manager (snd r)) self.
Proof. apply get_response_exchange. Qed.

Lemma get_response_records_exchange_witness :
  let r := LLM.get_response (AppConfig.load groq_and_tavily) search_down
             "What is the capital of France?" default_engine in
  exists answer flag,
    fst r = Ok (answer, flag)
    /\ MemoryManager.transient_memory (LLM.memory_manager (snd r))
       = [HumanMessage "What is the capital of France?"; AIMessage answer].
Proof.
  cbv zeta.
  destruct (get_response_records_exchange (AppConfig.load groq_and_tavily)
              search_down "What is the capital of France?" default_engine)
    as (answer & flag & Hret & Hbuf & _); [simpl; lia|].
  exists answer, flag. split; [assumption|].
  rewrite Hbuf. reflexivity.
Defined.

(** X17.  The RAG path, end to end.  In RAG mode the documents are
    retrieved with the question as filtered, enhanced with a history that
    already ends with that question (it was appended before retrieval);
    when retrieval and the model both return, the answer is the model's
    text without a citation block of its own, followed by the citation of
    the retrieved documents' sources, and the flag is the filter's. *)
Theorem rag_answer_path (app : AppConfig.t) (q : LLM.query_env)
    (query : string) (self : LLM.t) (l : ChatModel) (docs : list Document)
    (content : string) :
  0 < AppConfig.MEMORY_MESSAGE_LIMIT app ->
  LLM.answer_mode self = AnswerMode.RAG ->
  LLM.llm self = Some l ->
  let filtered := PrivacyFilter.filter_text (LLM.privacy_filter self) query in
  let history :=
    most_recent (Z.to_nat (AppConfig.MEMORY_MESSAGE_LIMIT app))
      (MemoryManager.transient_memory (LLM.memory_manager self)
       ++ [HumanMessage (fst filtered)]) in
  LLM.similarity_search q
    (VectorStore._enhance_query_with_history (fst filtered) history) 4 = Ok docs ->
  LLM.invoke_llm q l
    (Prompts.RAG_PROMPT (Str.join (Str.nl +:+ Str.nl) (map page_content docs))
       (fst filtered)) = Ok content ->
  fst (LLM.get_response app q query self)
  = Ok (LLM.add_sources (LLM.drop_model_citation content) (foldl LLM.cite [] docs),
        snd filtered)
  /\ last history = Some (HumanMessage (fst filtered)).
Proof.
  intros HN Hmode Hl. cbv zeta. intros Hsearch Hllm.
  split; [|apply most_recent_last; lia].
  destruct (get_response_run app q query self HN)
    as (mm1 & mm2 & Hb1 & _ & Hrun & _).
  cbv zeta in Hrun. rewrite Hrun. cbn [fst]. rewrite Hmode.
  assert (E : LLM._get_rag_response q
                (fst (PrivacyFilter.filter_text (LLM.privacy_filter self) query))
                (LLM.set_memory_manager mm1 self)
              = (Ok (LLM.add_sources (LLM.drop_model_citation content)
                       (foldl LLM.cite [] docs)),
                 LLM.set_memory_manager mm1 self)).
  { unfold LLM._get_rag_response. unfold bind at 1. rewrite history_keeps.
    cbn [LLM.memory_manager LLM.set_memory_manager]. rewrite Hb1.
    unfold bind at 1, extern at 1. rewrite Hsearch.
    unfold bind at 1, LLM.attr. cbn [LLM.llm LLM.set_memory_manager]. rewrite Hl.
    unfold bind, extern, ret. rewrite Hllm. reflexivity. }
  rewrite E. reflexivity.
Qed.

(** X18.  The web-search path, end to end.  In web-search mode with the
    search tool in place, when the search returns a list of results and
    the model returns, the answer carries no citation when no result has
    a URL; otherwise it ends with one block that lists the non-empty URLs
    of the results in their order, repeated ones included, after the
    model's text, from which a trailing bracket that mentions a source has
    been cut. *)
Theorem web_answer_cites_urls (app : AppConfig.t) (q : LLM.query_env)
    (query : string) (self : LLM.t) (l : ChatModel)
    (results : list (gmap string PyVal)) (text : string) :
  0 < AppConfig.MEMORY_MESSAGE_LIMIT app ->
  LLM.answer_mode self = AnswerMode.WEB_SEARCH ->
  LLM.search_tool self = Some tt ->
  LLM.llm self = Some l ->
  let filtered := PrivacyFilter.filter_text (LLM.privacy_filter self) query in
  LLM.invoke_search q (fst filtered) = Ok (SR_list results) ->
  LLM.invoke_llm q l
    (Prompts.inline_web_search_prompt (fst filtered)
       (Str.join (Str.nl +:+ Str.nl) (map LLM.format_result results))) = Ok text ->
  exists body,
    fst (LLM.get_response app q query self)
    = Ok (match LLM.urls_of results with
          | [] => text
          | urls => body +:+ Str.nl +:+ Str.nl +:+ "[Sources: "
                    +:+ Str.join ", " urls +:+ "]"
          end, snd filtered)
    /\ (body = text
        \/ body = Str.strip (Str.upto (Str.rfind "[" text) text)
           /\ Str.endswith_char "]" (Str.strip text) = true).
Proof.
  intros HN Hmode Htool Hl. cbv zeta. intros Hsearch Hllm.
  destruct (get_response_run app q query self HN)
    as (mm1 & mm2 & _ & _ & Hrun & _).
  cbv zeta in Hrun. rewrite Hrun. cbn [fst]. rewrite Hmode. clear Hrun.
  set (filtered := fst (PrivacyFilter.filter_text (LLM.privacy_filter self) query)) in *.
  set (body :=
         if Str.endswith_char "]" (Str.strip text) then
           if (0 <? Str.rfind "[" text)
              && Str.contains "source" (Str.lower (Str.from (Str.rfind "[" text) text))
           then Str.strip (Str.upto (Str.rfind "[" text) text)
           else text
         else text).
  exists body.
  assert (E : LLM._get_web_search_response q filtered (LLM.set_memory_manager mm1 self)
              = (Ok (match LLM.urls_of results with
                     | [] => text
                     | urls => body +:+ Str.nl +:+ Str.nl +:+ "[Sources: "
                               +:+ Str.join ", " urls +:+ "]"
                     end), LLM.set_memory_manager mm1 self)).
  { unfold LLM._get_web_search_response, try_except.
    unfold bind at 1, LLM.attr at 1. cbn [LLM.search_tool LLM.set_memory_manager].
    rewrite Htool. unfold bind at 1, extern at 1. rewrite Hsearch.
    unfold bind at 1, ret at 1. unfold bind at 1, LLM.attr.
    cbn [LLM.llm LLM.set_memory_manager]. rewrite Hl.
    unfold bind, extern. rewrite Hllm. cbv zeta.
    destruct (LLM.urls_of results); reflexivity. }
  rewrite E. split; [reflexivity|].
  subst body. destruct (Str.endswith_char "]" (Str.strip text)); [|now left].
  destruct (_ && _); [right; split; reflexivity|now left].
Qed.

Lemma rag_answer_path_witness :
  fst (LLM.get_response (AppConfig.load groq_and_tavily) all_up
         "What is the capital of France?" rag_engine)
  = Ok ("Paris." +:+ Str.nl +:+ Str.nl +:+ "[Sources: manual.pdf, notes.txt]", false).
Proof.
  destruct (rag_answer_path (AppConfig.load groq_and_tavily) all_up
              "What is the capital of France?" rag_engine ChatGroq passages
              "Paris. [Source: my training data]") as [H _].
  - simpl. lia.
  - reflexivity.
  - reflexivity.
  - reflexivity.
  - reflexivity.
  - rewrite H. vm_compute. reflexivity.
Defined.

Lemma web_answer_cites_urls_witness :
  exists body,
    fst (LLM.get_response (AppConfig.load groq_and_tavily) all_up
           "What is the capital of France?" web_engine)
    = Ok (body +:+ Str.nl +:+ Str.nl
          +:+ "[Sources: https://example.org/paris, https://example.org/paris]", false).
Proof.
  destruct (web_answer_cites_urls (AppConfig.load groq_and_tavily) all_up
              "What is the capital of France?" web_engine ChatGroq pages
              "Paris. [Source: my training data]") as (body & H & _).
  - simpl. lia.
  - reflexivity.
  - reflexivity.
  - reflexivity.
  - reflexivity.
  - reflexivity.
  - exists body. rewrite H. vm_compute. reflexivity.
Defined.

(** X19.  With the privacy filter switched off by toggle_privacy_filter,
    which always returns True, get_response never flags a question and
    records it verbatim. *)
Theorem disabled_filter_records_verbatim (app : AppConfig.t) (q : LLM.query_env)
    (query : string) (self : LLM.t) :
  0 < AppConfig.MEMORY_MESSAGE_LIMIT app ->
  let off := snd (LLM.toggle_privacy_filter false self) in
  let r := LLM.get_response app q query off in
  fst (LLM.toggle_privacy_filter false self) = Ok true
  /\ exists answer,
       fst r = Ok (answer, false)
       /\ MemoryManager.transient_memory (LLM.memory_manager (snd r))
          = most_recent (Z.to_nat (AppConfig.MEMORY_MESSAGE_LIMIT app))
              (MemoryManager.transient_memory (LLM.memory_manager self)
               ++ [HumanMessage query; AIMessage answer]).
Proof.
  intros HN. cbv zeta. split; [reflexivity|].
  destruct (get_response_exchange app q query
              (snd (LLM.toggle_privacy_filter false self)) HN)
    as (answer & flag & Hret & Hbuf & Hflag & _).
  exists answer. split; [|exact Hbuf].
  rewrite Hret. destruct flag; [|reflexivity].
  specialize (Hflag eq_refl). discriminate Hflag.
Qed.

Lemma disabled_filter_records_verbatim_witness :
  exists answer,
    fst (LLM.get_response (AppConfig.load groq_and_tavily) search_down
           "write to bob@example.com"
           (snd (LLM.toggle_privacy_filter false default_engine)))
    = Ok (answer, false)
    /\ snd (PrivacyFilter.filter_text (LLM.privacy_filter default_engine)
              "write to bob@example.com") = true.
Proof.
  destruct (disabled_filter_records_verbatim (AppConfig.load groq_and_tavily)
              search_down "write to bob@example.com" default_engine)
    as (_ & answer & Hret & _); [simpl; lia|].
  exists answer. split; [assumption|vm_compute; reflexivity].
Defined.

(* ===================================================================== *)
(** ** The engine: client, provider and chain after initialisation        *)
(* ===================================================================== *)

Section CoherenceFacts.
Variable app : AppConfig.t.
Variable model : ModelConfig.t.
Variable b : LLM.build_env.

(** A chain initialisation that returns has installed the chain of the
    recorded answer mode on the current client. *)
Lemma _initialize_chain_returns s s' l :
  LLM.llm s = Some l ->
  LLM._initialize_chain app b s = (Ok tt, s') ->
  chain_fits (LLM.answer_mode s) l s'
  /\ LLM.llm s' = Some l
  /\ LLM.model_provider s' = LLM.model_provider s
  /\ LLM.answer_mode s' = LLM.answer_mode s.
Proof.
  intros Hl. unfold LLM._initialize_chain, LLM._initialize_web_search_chain,
    LLM._initialize_default_chain, LLM._initialize_rag_chain.
  run_monad. destruct s as [vs mp am mem sid pf mgr l0 c t]. cbn in *. subst l0.
  destruct am; repeat (progress (cbn; split_outcomes));
    intros H; inversion H; subst; cbn; auto 6.
Qed.

(** A client initialisation that returns leaves the engine as it was but
    for the recorded provider, which is the client's. *)
Lemma _initialize_llm_returns s s' l :
  LLM._initialize_llm model b s = (Ok l, s') ->
  s' = LLM.set_model_provider (client_provider l) s.
Proof.
  intros H. pose proof (_initialize_llm_spec model b s) as Hp.
  destruct (_initialize_llm_frame model b s) as (p & Hframe).
  rewrite H in Hp, Hframe. cbn in Hframe. subst s'. cbn in Hp. now subst p.
Qed.

Lemma rebuild_coherent s s' :
  (l <- LLM._initialize_llm model b ;;
   modify (LLM.set_llm l) ;;;
   LLM._initialize_chain app b)%py s = (Ok tt, s') ->
  coherent s' /\ LLM.answer_mode s' = LLM.answer_mode s.
Proof.
  unfold bind at 1.
  destruct (LLM._initialize_llm model b s) as [[l|e] s1] eqn:Hllm; [|discriminate].
  apply _initialize_llm_returns in Hllm. subst s1.
  unfold bind at 1, modify at 1. intros Hchain.
  apply (_initialize_chain_returns _ _ l) in Hchain as (Hfit & Hl & Hp & Hm);
    [|reflexivity].
  cbn in Hp, Hm, Hfit. split; [|assumption].
  exists l. rewrite Hm. auto.
Qed.

Lemma change_model_provider_returns provider s :
  fst (LLM.change_model_provider app model b provider s) = Ok true ->
  coherent (snd (LLM.change_model_provider app model b provider s))
  /\ LLM.answer_mode (snd (LLM.change_model_provider app model b provider s))
     = LLM.answer_mode s.
Proof.
  assert (Hgo : forall p,
    fst (try_except
           (modify (LLM.set_model_provider p) ;;;
            l <- LLM._initialize_llm model b ;;
            modify (LLM.set_llm l) ;;;
            LLM._initialize_chain app b ;;;
            ret true)%py (fun _ => ret false) s) = Ok true ->
    coherent (snd (try_except
           (modify (LLM.set_model_provider p) ;;;
            l <- LLM._initialize_llm model b ;;
            modify (LLM.set_llm l) ;;;
            LLM._initialize_chain app b ;;;
            ret true)%py (fun _ => ret false) s))
    /\ LLM.answer_mode (snd (try_except
           (modify (LLM.set_model_provider p) ;;;
            l <- LLM._initialize_llm model b ;;
            modify (LLM.set_llm l) ;;;
            LLM._initialize_chain app b ;;;
            ret true)%py (fun _ => ret false) s)) = LLM.answer_mode s).
  { intros p.
    pose proof (rebuild_coherent (LLM.set_model_provider p s)) as Hre.
    unfold try_except, bind, modify, ret in *.
    destruct (LLM._initialize_llm model b (LLM.set_model_provider p s))
      as [[l|e] s1]; [|cbn; discriminate].
    destruct (LLM._initialize_chain app b (LLM.set_llm l s1)) as [[[]|e] s3];
      [|cbn; discriminate].
    intros _. cbn. exact (Hre s3 eq_refl). }
  unfold LLM.change_model_provider.
  destruct provider as [v|p]; [|apply Hgo].
  destruct (enum_of_value ModelProvider.members ModelProvider.value v) as [p|];
    [apply Hgo|].
  destruct (List.find _ ModelProvider.members) as [p|]; [apply Hgo|].
  cbn. discriminate.
Qed.

Lemma change_answer_mode_returns mode s :
  coherent s ->
  fst (LLM.change_answer_mode app b mode s) = Ok true ->
  coherent (snd (LLM.change_answer_mode app b mode s)).
Proof.
  intros (l & Hl & Hp & _).
  assert (Hgo : forall m,
    fst (try_except
           (modify (LLM.set_answer_mode m) ;;;
            LLM._initialize_chain app b ;;;
            ret true)%py (fun _ => ret false) s) = Ok true ->
    coherent (snd (try_except
           (modify (LLM.set_answer_mode m) ;;;
            LLM._initialize_chain app b ;;;
            ret true)%py (fun _ => ret false) s))).
  { intros m.
    pose proof (_initialize_chain_returns (LLM.set_answer_mode m s)) as Hre.
    unfold try_except, bind, modify, ret.
    destruct (LLM._initialize_chain app b (LLM.set_answer_mode m s))
      as [[[]|e] s1]; [|cbn; discriminate].
    intros _. cbn.
    destruct (Hre s1 l Hl eq_refl) as (Hfit & Hl1 & Hp1 & Hm1).
    exists l. cbn in Hp1, Hm1, Hfit. rewrite Hm1, Hp1. auto. }
  unfold LLM.change_answer_mode.
  destruct mode as [v|m]; [|apply Hgo].
  destruct (enum_of_value AnswerMode.members AnswerMode.value v) as [m|];
    [apply Hgo|].
  destruct (List.find _ AnswerMode.members) as [m|]; [apply Hgo|].
  cbn. discriminate.
Qed.

(** Coherence reads the client, the provider, the answer mode, the chain
    and the search tool only. *)
Lemma coherent_ext s s' :
  LLM.llm s' = LLM.llm s ->
  LLM.model_provider s' = LLM.model_provider s ->
  LLM.answer_mode s' = LLM.answer_mode s ->
  LLM.chain s' = LLM.chain s ->
  LLM.search_tool s' = LLM.search_tool s ->
  coherent s -> coherent s'.
Proof.
  intros Hl Hp Hm Hc Ht (l & Hl0 & Hp0 & Hfit).
  exists l. rewrite Hl, Hp, Hm. repeat split; try assumption.
  unfold chain_fits in *. rewrite Hc, Ht. assumption.
Qed.

(** The setters of the memory mode and of the filter leave client,
    provider, answer mode, chain and search tool alone. *)
Lemma change_memory_mode_keeps_chain mode s :
  coherent s -> coherent (snd (LLM.change_memory_mode b mode s)).
Proof.
  unfold LLM.change_memory_mode, try_except.
  unfold bind at 1, LLM.mm at 1, on_field.
  destruct (MemoryManager.change_memory_mode (LLM.chroma b) mode (LLM.memory_manager s))
    as [[[|]|e] mgr'].
  - unfold LLM.mm, on_field, MemoryManager.create_session. run_monad. cbn.
    destruct (MemoryMode.eqb mode MemoryMode.PERSISTENT && key_missing (LLM.session_id s));
      apply coherent_ext; reflexivity.
  - run_monad. apply coherent_ext; reflexivity.
  - run_monad. apply coherent_ext; reflexivity.
Qed.

Lemma toggle_privacy_filter_keeps_chain enable s :
  coherent s -> coherent (snd (LLM.toggle_privacy_filter enable s)).
Proof. apply coherent_ext; reflexivity. Qed.

Lemma init_coherent vs p m mem files s :
  LLM.init app model b vs p m mem files = Ok s -> coherent s.
Proof.
  unfold LLM.init.
  match goal with |- match ?run ?s0 with _ => _ end = _ -> _ =>
    pose proof (rebuild_coherent s0) as Hre;
    destruct (run s0) as [[[]|e] s1]
  end; [|discriminate].
  intros H. injection H as <-. exact (proj1 (Hre s1 eq_refl)).
Qed.

End CoherenceFacts.

(** X20.  An engine is coherent when its client is the one of the provider
    it records and its chain is the one of the answer mode it records,
    built on that client (with the search tool in place for the web-search
    chain).  The constructor, when it returns, yields a coherent engine,
    and every setter that returns True on a coherent engine leaves a
    coherent engine; a provider switch that returns True also leaves the
    answer mode as it was. *)
Theorem coherent_invariant (app : AppConfig.t) (model : ModelConfig.t)
    (b : LLM.build_env) :
  (forall vs p m mem files s,
      LLM.init app model b vs p m mem files = Ok s -> coherent s)
  /\ (forall op s,
        coherent s ->
        fst (run_setter app model b op s) = Ok true ->
        coherent (snd (run_setter app model b op s)))
  /\ (forall provider s,
        fst (LLM.change_model_provider app model b provider s) = Ok true ->
        LLM.answer_mode (snd (LLM.change_model_provider app model b provider s))
        = LLM.answer_mode s).
Proof.
  split; [|split].
  - apply init_coherent.
  - intros [mode|provider|mode|enable] s Hs Hret; cbn [run_setter] in *.
    + now apply change_answer_mode_returns.
    + now apply change_model_provider_returns.
    + now apply change_memory_mode_keeps_chain.
    + now apply toggle_privacy_filter_keeps_chain.
  - intros provider s Hret. now apply change_model_provider_returns.
Qed.

Lemma coherent_invariant_witness :
  coherent default_engine
  /\ coherent (snd (LLM.change_answer_mode (AppConfig.load groq_and_tavily)
                      builds_fine (LLM.Str "web_search") default_engine))
  /\ LLM.chain (snd (LLM.change_answer_mode (AppConfig.load groq_and_tavily)
                       builds_fine (LLM.Str "web_search") default_engine))
     = Some (LLMChain ChatGroq T_WEB_SEARCH ["question"; "search_results"]).
Proof.
  assert (H0 : coherent default_engine).
  { exists ChatGroq. repeat split. }
  split; [exact H0|]. split; [|reflexivity].
  destruct (coherent_invariant (AppConfig.load groq_and_tavily)
              (ModelConfig.load groq_and_tavily) builds_fine) as (_ & Hset & _).
  apply (Hset (ChangeAnswerMode (LLM.Str "web_search")) default_engine H0).
  reflexivity.
Defined.

(* ===================================================================== *)
(** ** Persistent mode without a store                                    *)
(* ===================================================================== *)

(** X21.  Switching an engine whose memory manager is in transient mode
    to persistent mode always returns True and records PERSISTENT in the
    engine.  The memory manager follows only when it has a store: the one
    it already holds, or the one it opens now, which needs an embedding
    function and a Chroma constructor that returns.  Otherwise the memory
    manager is back in transient mode, and no append reaches a session
    file. *)
Theorem persistent_mode_needs_store (b : LLM.build_env) (s : LLM.t) :
  MemoryManager.memory_mode (LLM.memory_manager s) = MemoryMode.TRANSIENT ->
  let r := LLM.change_memory_mode b MemoryMode.PERSISTENT s in
  let store :=
    match MemoryManager.persistent_memory (LLM.memory_manager s) with
    | Some docs => Some docs
    | None =>
        match MemoryManager.embedding_function (LLM.memory_manager s), LLM.chroma b with
        | Some _, Ok docs => Some docs
        | _, _ => None
        end
    end in
  fst r = Ok true
  /\ LLM.memory_mode (snd r) = MemoryMode.PERSISTENT
  /\ MemoryManager.memory_mode (LLM.memory_manager (snd r))
     = match store with
       | Some _ => MemoryMode.PERSISTENT
       | None => MemoryMode.TRANSIENT
       end
  /\ MemoryManager.persistent_memory (LLM.memory_manager (snd r)) = store
  /\ (store = None ->
      forall a : append, persisted (LLM.memory_manager (snd r)) a = false).
Proof.
  intros Hmode. cbv zeta.
  assert (E : MemoryManager.change_memory_mode (LLM.chroma b) MemoryMode.PERSISTENT
                (LLM.memory_manager s)
              = (Ok true,
                 match MemoryManager.persistent_memory (LLM.memory_manager s) with
                 | Some docs =>
                     MemoryManager.set_memory_mode MemoryMode.PERSISTENT
                       (LLM.memory_manager s)
                 | None =>
                     match MemoryManager.embedding_function (LLM.memory_manager s),
                           LLM.chroma b with
                     | Some _, Ok docs =>
                         MemoryManager.set_persistent_memory (Some docs)
                           (MemoryManager.set_memory_mode MemoryMode.PERSISTENT
                              (LLM.memory_manager s))
                     | _, _ =>
                         MemoryManager.set_memory_mode MemoryMode.TRANSIENT
                           (MemoryManager.set_memory_mode MemoryMode.PERSISTENT
                              (LLM.memory_manager s))
                     end
                 end)).
  { unfold MemoryManager.change_memory_mode, MemoryManager._init_persistent_memory.
    run_monad. rewrite Hmode.
    destruct (LLM.memory_manager s) as [mode0 buf ef pm files]. cbn.
    destruct pm as [docs|]; cbn; [reflexivity|].
    destruct ef as [e|]; cbn; [|reflexivity].
    destruct (LLM.chroma b) as [docs|]; reflexivity. }
  assert (E2 : LLM.change_memory_mode b MemoryMode.PERSISTENT s
               = (Ok true,
                  let mgr := snd (MemoryManager.change_memory_mode (LLM.chroma b)
                                    MemoryMode.PERSISTENT (LLM.memory_manager s)) in
                  let s1 := LLM.set_memory_mode MemoryMode.PERSISTENT
                              (LLM.set_memory_manager mgr s) in
                  if key_missing (LLM.session_id s)
                  then LLM.set_session_id (Some (LLM.uuid4 b))
                         (LLM.set_memory_manager mgr s1)
                  else s1)).
  { unfold LLM.change_memory_mode, try_except.
    unfold bind at 1, LLM.mm at 1, on_field. rewrite E. cbn beta iota.
    unfold LLM.mm, on_field, MemoryManager.create_session. run_monad. cbn.
    destruct (key_missing (LLM.session_id s)); reflexivity. }
  rewrite E2, E. cbv zeta. cbn [fst snd].
  assert (Hmgr : forall s', LLM.memory_manager s' =
                   match MemoryManager.persistent_memory (LLM.memory_manager s) with
                   | Some docs =>
                       MemoryManager.set_memory_mode MemoryMode.PERSISTENT
                         (LLM.memory_manager s)
                   | None =>
                       match MemoryManager.embedding_function (LLM.memory_manager s),
                             LLM.chroma b with
                       | Some _, Ok docs =>
                           MemoryManager.set_persistent_memory (Some docs)
                             (MemoryManager.set_memory_mode MemoryMode.PERSISTENT
                                (LLM.memory_manager s))
                       | _, _ =>
                           MemoryManager.set_memory_mode MemoryMode.TRANSIENT
                             (MemoryManager.set_memory_mode MemoryMode.PERSISTENT
                                (LLM.memory_manager s))
                       end
                   end ->
                 MemoryManager.memory_mode (LLM.memory_manager s')
                 = match
                     match MemoryManager.persistent_memory (LLM.memory_manager s) with
                     | Some docs => Some docs
                     | None =>
                         match MemoryManager.embedding_function (LLM.memory_manager s),
                               LLM.chroma b with
                         | Some _, Ok docs => Some docs
                         | _, _ => None
                         end
                     end
                   with
                   | Some _ => MemoryMode.PERSISTENT
                   | None => MemoryMode.TRANSIENT
                   end
                 /\ MemoryManager.persistent_memory (LLM.memory_manager s')
                    = match MemoryManager.persistent_memory (LLM.memory_manager s) with
                      | Some docs => Some docs
                      | None =>
                          match MemoryManager.embedding_function (LLM.memory_manager s),
                                LLM.chroma b with
                          | Some _, Ok docs => Some docs
                          | _, _ => None
                          end
                      end).
  { intros s' ->.
    destruct (MemoryManager.persistent_memory (LLM.memory_manager s)) as [docs|] eqn:Hpm;
      [cbn; rewrite Hpm; split; reflexivity|].
    destruct (MemoryManager.embedding_function (LLM.memory_manager s)) as [e|];
      [|cbn; rewrite Hpm; split; reflexivity].
    destruct (LLM.chroma b) as [docs|]; cbn; rewrite ?Hpm; split; reflexivity. }
  split; [reflexivity|].
  split; [destruct (key_missing (LLM.session_id s)); reflexivity|].
  match goal with
  | |- context [LLM.memory_manager ?s'] =>
      destruct (Hmgr s') as [Hm Hp];
      [destruct (key_missing (LLM.session_id s)); reflexivity|]
  end.
  split; [exact Hm|]. split; [exact Hp|].
  intros Hnone a. unfold persisted. rewrite Hm, Hnone. reflexivity.
Qed.

Lemma persistent_mode_needs_store_witness :
  let r := LLM.change_memory_mode
             {| LLM.chat_model := fun _ => Ok tt; LLM.ollama_test := Ok "pong";
                LLM.make_chain := fun _ => Ok tt; LLM.tavily := Ok tt;
                LLM.chroma := Raise "database is locked"; LLM.uuid4 := "u-1" |}
             MemoryMode.PERSISTENT default_engine in
  fst r = Ok true
  /\ LLM.memory_mode (snd r) = MemoryMode.PERSISTENT
  /\ MemoryManager.memory_mode (LLM.memory_manager (snd r)) = MemoryMode.TRANSIENT.
Proof.
  cbv zeta.
  destruct (persistent_mode_needs_store
              {| LLM.chat_model := fun _ => Ok tt; LLM.ollama_test := Ok "pong";
                 LLM.make_chain := fun _ => Ok tt; LLM.tavily := Ok tt;
                 LLM.chroma := Raise "database is locked"; LLM.uuid4 := "u-1" |}
              default_engine) as (H1 & H2 & H3 & _).
  - reflexivity.
  - split; [assumption|]. split; assumption.
Defined.

(* ===================================================================== *)
(** ** Uploads and loaders                                                *)
(* ===================================================================== *)

Lemma supported_has_loader (ext : string) :
  ext ∈ StorageConfig.SUPPORTED_FILE_TYPES
  <-> is_Some (DocumentProcessor.loader_for ext).
Proof.
  unfold StorageConfig.SUPPORTED_FILE_TYPES, DocumentProcessor.loader_for. split.
  - rewrite !elem_of_cons, elem_of_nil.
    intros [->|[->|[->|[->|[->|[]]]]]]; cbn; eauto.
  - destruct (String.eqb_spec ext ".pdf") as [->|_]; [intros _; set_solver|].
    destruct (String.eqb_spec ext ".txt") as [->|_]; [intros _; set_solver|].
    destruct (String.eqb_spec ext ".csv") as [->|_]; [intros _; set_solver|].
    destruct (String.eqb_spec ext ".md") as [->|_]; [intros _; set_solver|].
    destruct (String.eqb_spec ext ".html") as [->|_]; [intros _; set_solver|].
    intros [x Hx]. discriminate.
Qed.

(** X22.  The extension test of the upload route and the dispatch of
    load_document agree on every path: when the test accepts the path,
    load_document picks a loader and returns what that loader returns (or
    raises what it raises); otherwise load_document raises the
    unsupported-type error, with the lower-cased extension in the
    message. *)
Theorem upload_check_matches_loader
    (load : DocumentProcessor.Loader -> string -> result (list Document))
    (filename : string) :
  let ext := Str.lower (snd (DocumentProcessor.splitext filename)) in
  if DocumentProcessor.accepted_upload filename
  then exists loader, DocumentProcessor.loader_for ext = Some loader
                      /\ DocumentProcessor.load_document load filename
                         = load loader filename
  else DocumentProcessor.load_document load filename
       = Raise ("Unsupported file type: " +:+ ext).
Proof.
  cbv zeta. unfold DocumentProcessor.accepted_upload, DocumentProcessor.load_document.
  cbv zeta.
  destruct (bool_decide_reflect
              (Str.lower (snd (DocumentProcessor.splitext filename))
               ∈ StorageConfig.SUPPORTED_FILE_TYPES)) as [Hin|Hout].
  - apply supported_has_loader in Hin as [loader Hl].
    exists loader. rewrite Hl. split; reflexivity.
  - destruct (DocumentProcessor.loader_for _) as [loader|] eqn:Hl; [|reflexivity].
    exfalso. apply Hout, supported_has_loader. rewrite Hl. eauto.
Qed.

(* ===================================================================== *)
(** ** The engine: what a call of get_response writes to the session      *)
(* ===================================================================== *)

Section ExchangeFacts.
Variable app : AppConfig.t.
Variable q : LLM.query_env.

Lemma engine_append_run (a : append) (self : LLM.t) :
  LLM.mm (do_append app a) self
  = (Ok tt, LLM.set_memory_manager
              (snd (do_append app a (LLM.memory_manager self))) self).
Proof.
  destruct (do_append_total app a (LLM.memory_manager self)) as (mm' & H & _).
  unfold LLM.mm, on_field. rewrite H. reflexivity.
Qed.

(** The two appends of a call of [get_response]: the question as
    filtered, then the answer returned. *)
Lemma get_response_appends (query : string) (self : LLM.t) :
  let filtered := PrivacyFilter.filter_text (LLM.privacy_filter self) query in
  exists answer flag w,
    LLM.get_response app q query self
    = (Ok (answer, flag),
       LLM.set_memory_manager
         (run_appends app
            [AddUser (LLM.on_user q) (fst filtered) (LLM.session_id self);
             AddAi w answer (LLM.session_id self)]
            (LLM.memory_manager self)) self)
    /\ (w = LLM.on_ai q \/ w = LLM.on_error q).
Proof.
  cbv zeta.
  unfold LLM.get_response, try_except, LLM.get_response_try.
  unfold bind at 1, gets at 1.
  destruct (PrivacyFilter.filter_text (LLM.privacy_filter self) query)
    as [filtered flag] eqn:Hf. cbn [fst snd].
  unfold bind at 1. rewrite history_keeps.
  unfold bind at 1, gets at 1. unfold bind at 1.
  pose proof (engine_append_run
                (AddUser (LLM.on_user q) filtered (LLM.session_id self)) self) as Happ.
  cbn [do_append] in Happ. rewrite Happ.
  unfold bind at 1, gets at 1. cbn [LLM.answer_mode LLM.set_memory_manager].
  unfold bind at 1.
  match goal with
  | |- context [LLM.set_memory_manager ?m self] => set (mm1 := m) in *
  end.
  pose proof (respond_keeps q (LLM.answer_mode self) filtered
                (LLM.set_memory_manager mm1 self)) as Hkeep.
  destruct (match LLM.answer_mode self with
            | AnswerMode.DEFAULT => LLM._get_default_response q filtered
            | AnswerMode.RAG => LLM._get_rag_response q filtered
            | AnswerMode.WEB_SEARCH => LLM._get_web_search_response q filtered
            end (LLM.set_memory_manager mm1 self)) as [[response|e] s2];
    cbn [fst snd] in Hkeep |- *; subst s2.
  - unfold bind at 1, gets at 1.
    pose proof (engine_append_run
                  (AddAi (LLM.on_ai q) response
                     (LLM.session_id (LLM.set_memory_manager mm1 self)))
                  (LLM.set_memory_manager mm1 self)) as Happ2.
    cbn [do_append] in Happ2. unfold bind. rewrite Happ2.
    exists response, flag, (LLM.on_ai q). split; [reflexivity|now left].
  - unfold LLM.get_response_except, bind at 1, gets at 1.
    pose proof (engine_append_run
                  (AddAi (LLM.on_error q) (LLM.error_msg e)
                     (LLM.session_id (LLM.set_memory_manager mm1 self)))
                  (LLM.set_memory_manager mm1 self)) as Happ2.
    cbn [do_append] in Happ2. unfold bind. rewrite Happ2.
    exists (LLM.error_msg e), false, (LLM.on_error q).
    split; [reflexivity|now right].
Qed.

End ExchangeFacts.

(** X23.  In persistent mode, with a store, a session id that is not
    empty, a store that accepts the documents and a session file that can
    be opened for writing, a call of get_response appends two entries to
    the file of the engine's session and touches no other entry of it:
    the question as filtered (what the privacy filter masked is not
    written) and the answer returned, apology included. *)
Theorem get_response_persists_exchange (app : AppConfig.t) (q : LLM.query_env)
    (query sid : string) (self : LLM.t) :
  MemoryManager.memory_mode (LLM.memory_manager self) = MemoryMode.PERSISTENT ->
  is_Some (MemoryManager.persistent_memory (LLM.memory_manager self)) ->
  LLM.session_id self = Some sid ->
  sid <> EmptyString ->
  MemoryManager.add_documents (LLM.on_user q) = Ok tt ->
  MemoryManager.add_documents (LLM.on_ai q) = Ok tt ->
  MemoryManager.add_documents (LLM.on_error q) = Ok tt ->
  MemoryManager.write_file (LLM.on_user q) sid = Ok tt ->
  MemoryManager.write_file (LLM.on_ai q) sid = Ok tt ->
  MemoryManager.write_file (LLM.on_error q) sid = Ok tt ->
  let r := LLM.get_response app q query self in
  let filtered := PrivacyFilter.filter_text (LLM.privacy_filter self) query in
  exists answer flag written_at,
    fst r = Ok (answer, flag)
    /\ stored_messages (LLM.memory_manager (snd r)) sid
       = stored_messages (LLM.memory_manager self) sid
         ++ [ {| MemoryManager.role := "user";
                 MemoryManager.content := fst filtered;
                 MemoryManager.timestamp := MemoryManager.now (LLM.on_user q) |};
              {| MemoryManager.role := "assistant";
                 MemoryManager.content := answer;
                 MemoryManager.timestamp := written_at |} ].
Proof.
  intros Hmode Hstore Hsid Hne Huser Hai Herr Wuser Wai Werr. cbv zeta.
  destruct (get_response_appends app q query self) as (answer & flag & w & Hrun & Hw).
  cbv zeta in Hrun. rewrite Hrun, Hsid. cbn [fst snd LLM.memory_manager LLM.set_memory_manager].
  exists answer, flag, (MemoryManager.now w). split; [reflexivity|].
  destruct (run_appends_persisted app sid
              [AddUser (LLM.on_user q)
                 (fst (PrivacyFilter.filter_text (LLM.privacy_filter self) query))
                 (Some sid);
               AddAi w answer (Some sid)]
              (LLM.memory_manager self) Hmode Hstore Hne) as [Hfiles _].
  - constructor; [|constructor; [|constructor]]; cbn.
    + repeat split; assumption.
    + destruct Hw as [->| ->]; repeat split; assumption.
  - rewrite Hfiles. reflexivity.
Qed.

Lemma get_response_persists_exchange_witness :
  let self := LLM.set_session_id (Some "s-1")
                (LLM.set_memory_manager archive default_engine) in
  let r := LLM.get_response (AppConfig.load groq_and_tavily) all_up
             "write to bob@example.com" self in
  exists answer flag written_at,
    fst r = Ok (answer, flag)
    /\ stored_messages (LLM.memory_manager (snd r)) "s-1"
       = stored_messages archive "s-1"
         ++ [ {| MemoryManager.role := "user";
                 MemoryManager.content := "write to [EMAIL REDACTED]";
                 MemoryManager.timestamp := "2024-05-01T10:00:00" |};
              {| MemoryManager.role := "assistant";
                 MemoryManager.content := answer;
                 MemoryManager.timestamp := written_at |} ].
Proof.
  cbv zeta.
  destruct (get_response_persists_exchange (AppConfig.load groq_and_tavily) all_up
              "write to bob@example.com" "s-1"
              (LLM.set_session_id (Some "s-1")
                 (LLM.set_memory_manager archive default_engine)))
    as (answer & flag & written_at & Hret & Hfile).
  - reflexivity.
  - vm_compute. eexists. reflexivity.
  - reflexivity.
  - discriminate.
  - reflexivity.
  - reflexivity.
  - reflexivity.
  - reflexivity.
  - reflexivity.
  - reflexivity.
  - exists answer, flag, written_at. split; [assumption|].
    rewrite Hfile. vm_compute. reflexivity.
Defined.
